(** * Omniscience Oracle: odds parser, series buffers, indicators, recommendations

    A shallow embedding of the Python sources

    - [config/settings.py]          (module [Settings])
    - [parser/odds_parser.py]       (module [OddsParser])
    - [app.py], the [push] closure  (module [App])
    - [parser/ta/ta_engine.py]      (modules [TaEngine] and [TaIndicators])
    - [engine/recommendations.py]   (module [Recommendations], and module
                                     [FloatEngine] for floats that may be NaN)

    Modelling conventions.

    - A Python [int] is a [Z].  A Python [float] is an exact rational [Q]:
      rounding, overflow and infinities of binary64 are outside the model,
      and equality of floats is [Qeq].  NaN is outside the model too,
      except in [FloatEngine], where a float is a [PyFloat.float]: a NaN
      or a number.  Where a statement needs its numbers to be free of NaN,
      or small enough for [int] and [float] to read them exactly, it says
      so with a bound on them.
    - A Python [str] is a [string] of ASCII characters.
    - [None] in an [Optional[T]] is [None] in [option T].
    - A [dict] with string keys is a [gmap string _]; a dict that is only
      iterated in insertion order is an association list.
    - An uncaught exception is the [Raise] outcome of [Result]; a
      [try ... except Exception: return None] body lives in [option].
    - [datetime.utcnow().isoformat()] reads a clock: the reading is the
      argument [now]. *)

From Stdlib Require Import Ascii String ZArith QArith Qabs Lia Lqa.
From stdpp Require Import gmap strings list pretty sorting.

Local Open Scope Z_scope.

(** ** Python primitives *)

Module Py.

(** Exceptions that can cross a function boundary in the modelled code. *)
Inductive Exc : Type :=
| AttributeError (attr : string)
| IndexError.

Inductive Result (A : Type) : Type :=
| Return (a : A)
| Raise (e : Exc).
Arguments Return {A} a.
Arguments Raise {A} e.

(** Sequencing: an exception aborts what follows.  With these instances
    [x ← m; k] is stdpp's monadic bind on [Result]. *)
#[global] Instance result_ret : MRet Result := fun _ a => Return a.
#[global] Instance result_bind : MBind Result := fun _ _ k m =>
  match m with
  | Return a => k a
  | Raise e => Raise e
  end.
#[global] Instance result_fmap : FMap Result := fun _ _ f m =>
  match m with
  | Return a => Return (f a)
  | Raise e => Raise e
  end.

(** A dynamically typed attribute value. *)
Inductive Value : Type :=
| VBool (b : bool)
| VInt (z : Z)
| VFloat (q : Q)
| VInts (l : list Z).

(** Truth value of an object, as [if x] and [x and y] test it. *)
Definition truthy (v : Value) : bool :=
  match v with
  | VBool b => b
  | VInt z => negb (z =? 0)
  | VFloat q => negb (Qeq_bool q 0)
  | VInts l => negb (bool_decide (l = []))
  end.

(** [x or d] on floats. *)
Definition float_or (x d : Q) : Q := if Qeq_bool x 0 then d else x.

(** [l[i:]] for a possibly negative [i]. *)
Definition slice_from {A} (l : list A) (i : Z) : list A :=
  let n := Z.of_nat (length l) in
  if i <? 0 then drop (Z.to_nat (Z.max 0 (n + i))) l
  else drop (Z.to_nat i) l.

(** [l[i]] for a possibly negative [i]; [None] is an IndexError. *)
Definition index {A} (l : list A) (i : Z) : option A :=
  let n := Z.of_nat (length l) in
  if i <? 0 then (if 0 <=? n + i then l !! Z.to_nat (n + i) else None)
  else l !! Z.to_nat i.

(** [np.sign]. *)
Definition sign (x : Q) : Q :=
  (if Qlt_le_dec 0 x then 1 else if Qlt_le_dec x 0 then -1 else 0)%Q.

(** [int(x)] on a float: truncation toward zero. *)
Definition int_of_float (x : Q) : Z := Z.quot (Qnum x) (Zpos (Qden x)).

(** Builtin [min(a, b)] and [max(a, b)] on floats: the first argument
    unless the second is strictly smaller (resp. larger). *)
Definition fmin (a b : Q) : Q := if Qlt_le_dec b a then b else a.
Definition fmax (a b : Q) : Q := if Qlt_le_dec a b then b else a.

End Py.

(** ** config/settings.py *)

Module Settings.

Record Config : Type := mkConfig {
  ignore_header_rows : bool;
  parse_5_line_blocks : bool;
  parse_4_line_blocks : bool;
  strong_confidence_threshold : Q;
  min_confidence_for_action : Q;
  lmf_horizons : list Z;
  default_history_len : Z;
  rsi_period : Z;
  zscore_lookback : Z;
  bollinger_lookback : Z;
  atr_lookback : Z;
  kelly_fraction_cap : Q
}.

(** [config = Config()] with the class attributes of the source. *)
Definition config : Config := {|
  ignore_header_rows := true;
  parse_5_line_blocks := true;
  parse_4_line_blocks := true;
  strong_confidence_threshold := 80 # 100;
  min_confidence_for_action := 55 # 100;
  lmf_horizons := [30; 60; 90];
  default_history_len := 300;
  rsi_period := 14;
  zscore_lookback := 20;
  bollinger_lookback := 20;
  atr_lookback := 14;
  kelly_fraction_cap := 20 # 100
|}.

(** [config.default_history_len = n]: the same configuration with another
    history cap. *)
Definition with_history_len (cfg : Config) (n : Z) : Config := {|
  ignore_header_rows := ignore_header_rows cfg;
  parse_5_line_blocks := parse_5_line_blocks cfg;
  parse_4_line_blocks := parse_4_line_blocks cfg;
  strong_confidence_threshold := strong_confidence_threshold cfg;
  min_confidence_for_action := min_confidence_for_action cfg;
  lmf_horizons := lmf_horizons cfg;
  default_history_len := n;
  rsi_period := rsi_period cfg;
  zscore_lookback := zscore_lookback cfg;
  bollinger_lookback := bollinger_lookback cfg;
  atr_lookback := atr_lookback cfg;
  kelly_fraction_cap := kelly_fraction_cap cfg
|}.

(** The attribute table of a [Config] object: [cfg.name] looks [name] up
    here and raises AttributeError when the class does not define it. *)
Definition attributes (cfg : Config) : list (string * Py.Value) :=
  [ ("ignore_header_rows", Py.VBool (ignore_header_rows cfg));
    ("parse_5_line_blocks", Py.VBool (parse_5_line_blocks cfg));
    ("parse_4_line_blocks", Py.VBool (parse_4_line_blocks cfg));
    ("strong_confidence_threshold", Py.VFloat (strong_confidence_threshold cfg));
    ("min_confidence_for_action", Py.VFloat (min_confidence_for_action cfg));
    ("lmf_horizons", Py.VInts (lmf_horizons cfg));
    ("default_history_len", Py.VInt (default_history_len cfg));
    ("rsi_period", Py.VInt (rsi_period cfg));
    ("zscore_lookback", Py.VInt (zscore_lookback cfg));
    ("bollinger_lookback", Py.VInt (bollinger_lookback cfg));
    ("atr_lookback", Py.VInt (atr_lookback cfg));
    ("kelly_fraction_cap", Py.VFloat (kelly_fraction_cap cfg)) ]%string.

Fixpoint assoc (name : string) (tbl : list (string * Py.Value)) : option Py.Value :=
  match tbl with
  | [] => None
  | (k, v) :: rest => if String.eqb k name then Some v else assoc name rest
  end.

Definition getattr (cfg : Config) (name : string) : Py.Result Py.Value :=
  match assoc name (attributes cfg) with
  | Some v => Py.Return v
  | None => Py.Raise (Py.AttributeError name)
  end.

End Settings.


(** ** Python string operations used by the parser *)

Module PyStr.

Local Open Scope string_scope.
Local Open Scope nat_scope.

(** [str.isspace] on an ASCII character: tab to carriage return, the four
    separators 0x1c to 0x1f, and the space. *)
Definition is_space (c : ascii) : bool :=
  let n := nat_of_ascii c in
  (9 <=? n) && (n <=? 13) || (28 <=? n) && (n <=? 32).

(** [\d] on an ASCII character. *)
Definition is_digit (c : ascii) : bool :=
  let n := nat_of_ascii c in (48 <=? n) && (n <=? 57).

(** Line boundaries of [str.splitlines]: LF, VT, FF, CR, FS, GS, RS. *)
Definition is_linebreak (c : ascii) : bool :=
  let n := nat_of_ascii c in
  (10 <=? n) && (n <=? 13) || (28 <=? n) && (n <=? 30).

Definition is_empty (s : string) : bool :=
  match s with EmptyString => true | String _ _ => false end.

Fixpoint lstrip (s : string) : string :=
  match s with
  | EmptyString => EmptyString
  | String c r => if is_space c then lstrip r else s
  end.

Fixpoint rstrip (s : string) : string :=
  match s with
  | EmptyString => EmptyString
  | String c r =>
      let r' := rstrip r in
      if is_space c && is_empty r' then EmptyString else String c r'
  end.

(** [s.strip()]. *)
Definition strip (s : string) : string := rstrip (lstrip s).

(** [s.split()]: maximal runs of non-space characters; [tok] is the run
    being read. *)
Fixpoint split_from (s tok : string) : list string :=
  match s with
  | EmptyString => if is_empty tok then [] else [tok]
  | String c r =>
      if is_space c
      then (if is_empty tok then split_from r "" else tok :: split_from r "")
      else split_from r (tok +:+ String c "")
  end.

Definition split (s : string) : list string := split_from s "".

(** [s.splitlines()]: CR LF counts as one boundary and a final boundary
    opens no empty last line; [cur] is the line being read. *)
Fixpoint splitlines_from (s cur : string) : list string :=
  match s with
  | EmptyString => if is_empty cur then [] else [cur]
  | String c r =>
      if is_linebreak c then
        match r with
        | String c' r' =>
            if (nat_of_ascii c =? 13) && (nat_of_ascii c' =? 10)
            then cur :: splitlines_from r' ""
            else cur :: splitlines_from r ""
        | EmptyString => [cur]
        end
      else splitlines_from r (cur +:+ String c "")
  end.

Definition splitlines (s : string) : list string := splitlines_from s "".

Definition lower_char (c : ascii) : ascii :=
  let n := nat_of_ascii c in
  if (65 <=? n) && (n <=? 90) then ascii_of_nat (n + 32) else c.

(** [s.lower()]. *)
Fixpoint lower (s : string) : string :=
  match s with
  | EmptyString => EmptyString
  | String c r => String (lower_char c) (lower r)
  end.

(** [s.replace(c, '')]. *)
Fixpoint remove_char (c : ascii) (s : string) : string :=
  match s with
  | EmptyString => EmptyString
  | String d r => if Ascii.eqb c d then remove_char c r else String d (remove_char c r)
  end.

(** The longest prefix of digits, and what follows it. *)
Fixpoint span_digits (s : string) : string * string :=
  match s with
  | EmptyString => (EmptyString, EmptyString)
  | String c r =>
      if is_digit c
      then let '(d, rest) := span_digits r in (String c d, rest)
      else (EmptyString, s)
  end.

Definition starts_with_digit (s : string) : bool :=
  match s with
  | EmptyString => false
  | String c _ => is_digit c
  end.

Definition is_sign (c : ascii) : bool := Ascii.eqb c "+" || Ascii.eqb c "-".

(** [re.search(r"-?\d+", s)]: the leftmost match, digits taken greedily. *)
Fixpoint search_int (s : string) : option string :=
  match s with
  | EmptyString => None
  | String c r =>
      if is_digit c || Ascii.eqb c "-" && starts_with_digit r
      then Some (String c (fst (span_digits r)))
      else search_int r
  end.

(** What [\d*\.?\d*] consumes greedily after the first digit of a match. *)
Definition point_tail (r : string) : string :=
  let '(d, rest) := span_digits r in
  match rest with
  | String c rest' =>
      if Ascii.eqb c "." then d +:+ String c (fst (span_digits rest')) else d
  | EmptyString => d
  end.

(** [re.search(r"-?\d+\.?\d*", s)]. *)
Fixpoint search_point (s : string) : option string :=
  match s with
  | EmptyString => None
  | String c r =>
      if is_digit c then Some (String c (point_tail r))
      else if Ascii.eqb c "-" && starts_with_digit r
      then match r with
           | String c' r' => Some (String c (String c' (point_tail r')))
           | EmptyString => None
           end
      else search_point r
  end.

(** Scanner state of [re.findall(r"[+-]?\d+", s)]. *)
Inductive Scan : Type :=
| Idle
| Sign (c : ascii)
| Number (m : string).

(** [re.findall(r"[+-]?\d+", s)]: leftmost matches that do not overlap,
    read in one pass. *)
Fixpoint findall_from (s : string) (st : Scan) : list string :=
  match s with
  | EmptyString => match st with Number m => [m] | _ => [] end
  | String c r =>
      match st with
      | Number m =>
          if is_digit c then findall_from r (Number (m +:+ String c ""))
          else m :: findall_from r (if is_sign c then Sign c else Idle)
      | Sign sg =>
          if is_digit c then findall_from r (Number (String sg (String c "")))
          else findall_from r (if is_sign c then Sign c else Idle)
      | Idle =>
          if is_digit c then findall_from r (Number (String c ""))
          else findall_from r (if is_sign c then Sign c else Idle)
      end
  end.

Definition findall_signed_int (s : string) : list string := findall_from s Idle.

Definition digit_value (c : ascii) : Z := Z.of_nat (nat_of_ascii c - 48).

Fixpoint digits_to_Z (s : string) (acc : Z) : Z :=
  match s with
  | EmptyString => acc
  | String c r => digits_to_Z r (10 * acc + digit_value c)%Z
  end.

(** [int(m)] for a match [m] of [-?\d+]. *)
Definition int_of_match (m : string) : Z :=
  match m with
  | String c r => if Ascii.eqb c "-" then (- digits_to_Z r 0)%Z else digits_to_Z m 0
  | EmptyString => 0%Z
  end.

(** [float(m)] for a match [m] of [-?\d+\.?\d*], as the exact decimal. *)
Definition float_of_match (m : string) : Q :=
  let '(neg, body) :=
    match m with
    | String c r => if Ascii.eqb c "-" then (true, r) else (false, m)
    | EmptyString => (false, m)
    end in
  let '(ip, rest) := span_digits body in
  let fp := match rest with
            | String c r => if Ascii.eqb c "." then fst (span_digits r) else ""
            | EmptyString => ""
            end in
  let q := (inject_Z (digits_to_Z (ip +:+ fp) 0)
            / inject_Z (10 ^ Z.of_nat (String.length fp)))%Q in
  if neg then (- q)%Q else q.

(** The line feed, and [sep.join(l)]. *)
Definition newline : string := String (ascii_of_nat 10) "".

Fixpoint join (sep : string) (l : list string) : string :=
  match l with
  | [] => ""
  | [x] => x
  | x :: rest => x +:+ sep +:+ join sep rest
  end.

(** [str(x)] for an [Optional[int]], as an f-string prints it. *)
Definition str_of_opt_int (x : option Z) : string :=
  match x with
  | Some z => pretty z
  | None => "None"
  end.

(** [c in s]. *)
Fixpoint contains_char (c : ascii) (s : string) : bool :=
  match s with
  | EmptyString => false
  | String d r => Ascii.eqb c d || contains_char c r
  end.

(** Whether some character of [s] is a digit, and whether all are. *)
Fixpoint has_digit (s : string) : bool :=
  match s with
  | EmptyString => false
  | String c r => is_digit c || has_digit r
  end.

Fixpoint all_digits (s : string) : bool :=
  match s with
  | EmptyString => true
  | String c r => is_digit c && all_digits r
  end.

End PyStr.

(** ** parser/odds_parser.py *)

Module OddsParser.

Import Py PyStr Settings.
Local Open Scope string_scope.
Local Open Scope Z_scope.

(** *** Helpers: odds conversions *)

Definition _sanitize_int_token (tok : option string) : option Z :=
  match tok with
  | None => None
  | Some tok =>
      let s := strip tok in
      if is_empty s then None
      else if String.eqb (lower s) "even" then Some 100
      else
        let s := remove_char "+" s in
        int_of_match <$> search_int s
  end.

Definition _american_to_prob_raw (odds : option Z) : option Q :=
  match odds with
  | None => None
  | Some odds =>
      if 0 <? odds
      then Some (100 / (inject_Z odds + 100))%Q
      else Some (inject_Z (- odds) / (inject_Z (- odds) + 100))%Q
  end.

(** The docstring of the source: "Return normalized probabilities (p_a, p_b)
    that sum to 1 given two American odds.  If one side missing, return raw
    prob for present side and None for other." *)
Definition _normalize_two_way (a_odds b_odds : option Z) : option Q * option Q :=
  match a_odds, b_odds with
  | None, None => (None, None)
  | _, _ =>
      let a_raw := match a_odds with
                   | Some _ => default 0%Q (_american_to_prob_raw a_odds)
                   | None => 0%Q
                   end in
      let b_raw := match b_odds with
                   | Some _ => default 0%Q (_american_to_prob_raw b_odds)
                   | None => 0%Q
                   end in
      let total := (float_or a_raw 0 + float_or b_raw 0)%Q in
      if Qeq_bool total 0
      then match b_odds with
           | None => (Some a_raw, None)
           | Some _ => (None, Some b_raw)
           end
      else (Some (a_raw / total)%Q, Some (b_raw / total)%Q)
  end.

Definition _calc_opposite_vig (vig : option Z) : option Z :=
  match vig with
  | None => None
  | Some vig => Some (-220 - vig)
  end.

Definition _extract_point_value (token : option string) : option Q :=
  match token with
  | None => None
  | Some token => float_of_match <$> search_point token
  end.

(** *** Parsed records *)

Module Rec5.
Record t : Type := mk {
  game_id : string;
  date : string;
  time : string;
  favorite_team : string;
  spread_points : option Q;
  favorite_ip_raw : option Q;
  dog_ip_raw : option Q;
  spread_vig : option Z;
  spread_vig_opp : option Z;
  total_points : option Q;
  total_side : option string;
  over_ip_raw : option Q;
  under_ip_raw : option Q;
  total_vig : option Z;
  total_vig_opp : option Z;
  away_ml : option Z;
  home_ml : option Z;
  away_ml_ip_raw : option Q;
  home_ml_ip_raw : option Q;
  parsed_at : string
}.
End Rec5.

Module Rec4.
Record t : Type := mk {
  game_id : string;
  date : string;
  time : string;
  away_ml : option Z;
  home_ml : option Z;
  away_ml_ip_raw : option Q;
  home_ml_ip_raw : option Q;
  total_points : option Q;
  total_vig : option Z;
  total_vig_opp : option Z;
  over_ip_raw : option Q;
  under_ip_raw : option Q;
  runline_points : option Q;
  runline_vig : option Z;
  runline_vig_opp : option Z;
  parsed_at : string
}.
End Rec4.

(** A row of the result: the dict built by one of the two grammars. *)
Inductive GameRecord : Type :=
| FiveLine (r : Rec5.t)
| FourLine (r : Rec4.t).

(** [r.get('game_id')]. *)
Definition record_game_id (r : GameRecord) : string :=
  match r with
  | FiveLine r => Rec5.game_id r
  | FourLine r => Rec4.game_id r
  end.

(** *** 5-line mapping

    The body runs under [try ... except Exception: return None]: in
    [option], [None] is both the early [return None] and a caught
    IndexError of [block[i]]. *)
Definition _parse_5line (now : string) (block : list string) : option Rec5.t :=
  line1 ← block !! 0%nat;
  let t1 := split line1 in
  if (length t1 <? 4)%nat then None else
  date_token ← t1 !! 0%nat;
  time_token ← t1 !! 1%nat;
  favorite_team ← t1 !! 2%nat;
  spread_token ← t1 !! 3%nat;
  let spread_points := _extract_point_value (Some spread_token) in
  line2 ← block !! 1%nat;
  let spread_vig_raw := strip line2 in
  let spread_vig := _sanitize_int_token (Some spread_vig_raw) in
  let spread_vig_opp := _calc_opposite_vig spread_vig in
  let '(fav_ip_raw, dog_ip_raw) := _normalize_two_way spread_vig spread_vig_opp in
  line3 ← block !! 2%nat;
  let total_token := strip line3 in
  let '(total_side, total_points) :=
    match total_token with
    | String c0 rest =>
        let c := lower_char c0 in
        if (2 <=? String.length total_token)%nat && (Ascii.eqb c "o" || Ascii.eqb c "u")
        then (Some (if Ascii.eqb c "o" then "over" else "under"),
              _extract_point_value (Some rest))
        else (None, _extract_point_value (Some total_token))
    | EmptyString => (None, _extract_point_value (Some total_token))
    end in
  line4 ← block !! 3%nat;
  let total_vig := _sanitize_int_token (Some line4) in
  let total_vig_opp := _calc_opposite_vig total_vig in
  let '(over_ip_raw, under_ip_raw) := _normalize_two_way total_vig total_vig_opp in
  line5 ← block !! 4%nat;
  let ml_matches := findall_signed_int line5 in
  let away_ml := if (0 <? length ml_matches)%nat
                 then _sanitize_int_token (ml_matches !! 0%nat) else None in
  let home_ml := if (1 <? length ml_matches)%nat
                 then _sanitize_int_token (ml_matches !! 1%nat) else None in
  let '(away_ml_ip_raw, home_ml_ip_raw) := _normalize_two_way away_ml home_ml in
  Some {|
    Rec5.game_id := date_token +:+ "|" +:+ time_token +:+ "|" +:+ favorite_team;
    Rec5.date := date_token;
    Rec5.time := time_token;
    Rec5.favorite_team := favorite_team;
    Rec5.spread_points := spread_points;
    Rec5.favorite_ip_raw := fav_ip_raw;
    Rec5.dog_ip_raw := dog_ip_raw;
    Rec5.spread_vig := spread_vig;
    Rec5.spread_vig_opp := spread_vig_opp;
    Rec5.total_points := total_points;
    Rec5.total_side := total_side;
    Rec5.over_ip_raw := over_ip_raw;
    Rec5.under_ip_raw := under_ip_raw;
    Rec5.total_vig := total_vig;
    Rec5.total_vig_opp := total_vig_opp;
    Rec5.away_ml := away_ml;
    Rec5.home_ml := home_ml;
    Rec5.away_ml_ip_raw := away_ml_ip_raw;
    Rec5.home_ml_ip_raw := home_ml_ip_raw;
    Rec5.parsed_at := now
  |}.

(** *** 4-line mapping *)
Definition _parse_4line (now : string) (block : list string) : option Rec4.t :=
  line1 ← block !! 0%nat;
  let t1 := split line1 in
  if (length t1 <? 5)%nat then None else
  date_token ← t1 !! 0%nat;
  time_token ← t1 !! 1%nat;
  away_tok ← t1 !! 2%nat;
  home_tok ← t1 !! 3%nat;
  let away_ml := _sanitize_int_token (Some away_tok) in
  let home_ml := _sanitize_int_token (Some home_tok) in
  let '(away_ml_ip_raw, home_ml_ip_raw) := _normalize_two_way away_ml home_ml in
  total_token ← t1 !! 4%nat;
  let total_points := _extract_point_value (Some total_token) in
  line2 ← block !! 1%nat;
  let total_vig := _sanitize_int_token (Some line2) in
  let total_vig_opp := _calc_opposite_vig total_vig in
  let '(over_ip_raw, under_ip_raw) := _normalize_two_way total_vig total_vig_opp in
  line3 ← block !! 2%nat;
  let rtokens := split line3 in
  let runline_points := if (2 <=? length rtokens)%nat
                        then _extract_point_value (rtokens !! 1%nat) else None in
  line4 ← block !! 3%nat;
  let runline_vig := _sanitize_int_token (Some line4) in
  let runline_vig_opp := _calc_opposite_vig runline_vig in
  let '(runline_vig_ip, runline_vig_opp_ip) :=
    _normalize_two_way runline_vig runline_vig_opp in
  Some {|
    Rec4.game_id := date_token +:+ "|" +:+ time_token +:+ "|"
                    +:+ str_of_opt_int away_ml +:+ "|" +:+ str_of_opt_int home_ml;
    Rec4.date := date_token;
    Rec4.time := time_token;
    Rec4.away_ml := away_ml;
    Rec4.home_ml := home_ml;
    Rec4.away_ml_ip_raw := away_ml_ip_raw;
    Rec4.home_ml_ip_raw := home_ml_ip_raw;
    Rec4.total_points := total_points;
    Rec4.total_vig := total_vig;
    Rec4.total_vig_opp := total_vig_opp;
    Rec4.over_ip_raw := over_ip_raw;
    Rec4.under_ip_raw := under_ip_raw;
    Rec4.runline_points := runline_points;
    Rec4.runline_vig := runline_vig;
    Rec4.runline_vig_opp := runline_vig_opp;
    Rec4.parsed_at := now
  |}.

(** *** Feed parsing *)

(** The parser object: its configuration and the records kept across
    calls ([self.parsed_data]). *)
Record Parser : Type := mkParser {
  cfg : Config;
  parsed_data : list GameRecord
}.

(** [OmniscienceDataParser()]. *)
Definition new_parser : Parser := {| cfg := config; parsed_data := [] |}.

(** [a and self.cfg.name] where [a] is a comparison: the attribute is read
    only when [a] holds. *)
Definition and_attr (a : bool) (c : Config) (name : string) : Result bool :=
  if a then truthy <$> getattr c name else mret false.

(** [self.cfg.name and b] where [b] is a comparison. *)
Definition attr_and (c : Config) (name : string) (b : bool) : Result bool :=
  v ← getattr c name; mret (truthy v && b).

(** [[ln.strip() for ln in text_feed.splitlines() if ln.strip() != '']]. *)
Definition feed_lines (text_feed : string) : list string :=
  filter (fun ln => is_empty ln = false) (strip <$> splitlines text_feed).

(** Lines 90 to 95: the block size expected once [cur] has been extended. *)
Definition expected_size (c : Config) (block_type : string) (cur : list string)
  : Result (option nat) :=
  if String.eqb block_type "5line" then mret (Some 5%nat)
  else if String.eqb block_type "4line" then mret (Some 4%nat)
  else
    five ← and_attr (5 <=? length cur)%nat c "parse_5_line_blocks";
    if five : bool then mret (Some 5%nat)
    else
      four ← and_attr (4 <=? length cur)%nat c "parse_4_line_blocks";
      mret (if four : bool then Some 4%nat else None).

(** The [while] loop of lines 86 to 98 over [lines[start_idx:]]; returns the
    final [cur] and [blocks]. *)
Fixpoint group_lines (c : Config) (block_type : string) (lines cur : list string)
  (blocks : list (list string)) : Result (list string * list (list string)) :=
  match lines with
  | [] => mret (cur, blocks)
  | ln :: rest =>
      let cur := (cur ++ [ln])%list in
      expect ← expected_size c block_type cur;
      match expect with
      | Some e =>
          if negb (e =? 0)%nat && (length cur =? e)%nat
          then group_lines c block_type rest [] (blocks ++ [cur])%list
          else group_lines c block_type rest cur blocks
      | None => group_lines c block_type rest cur blocks
      end
  end.

(** Lines 99 and 100: a last group of 4 or 5 lines is a block too. *)
Definition flush_last (cur : list string) (blocks : list (list string))
  : list (list string) :=
  if negb (bool_decide (cur = []))
     && ((length cur =? 4)%nat || (length cur =? 5)%nat)
  then (blocks ++ [cur])%list else blocks.

(** Lines 104 to 109: the grammar chosen for one block. *)
Definition map_block (c : Config) (now : string) (b : list string)
  : Result (option GameRecord) :=
  five ← and_attr (length b =? 5)%nat c "parse_5_line_blocks";
  if five : bool then mret (FiveLine <$> _parse_5line now b)
  else
    four ← and_attr (length b =? 4)%nat c "parse_4line_blocks";
    if four : bool then mret (FourLine <$> _parse_4line now b)
    else mret None.

(** The [for b in blocks] loop: [parsed] grows with each mapped block; an
    exception leaves the rows appended so far in [self.parsed_data]. *)
Fixpoint map_blocks (c : Config) (now : string) (blocks : list (list string))
  (parsed : list GameRecord) : list GameRecord * option Exc :=
  match blocks with
  | [] => (parsed, None)
  | b :: rest =>
      match map_block c now b with
      | Raise e => (parsed, Some e)
      | Return (Some p) => map_blocks c now rest (parsed ++ [p])%list
      | Return None => map_blocks c now rest parsed
      end
  end.

(** [parse_feed] after the lines have been read: header, grouping,
    mapping.  The result is the rows of the returned DataFrame. *)
Definition parse_lines (self : Parser) (now : string) (lines : list string)
  (block_type : string) : Parser * Result (list GameRecord) :=
  if bool_decide (lines = []) then (self, mret [])
  else
    match
      (skip ← attr_and (cfg self) "ignore_header_rows" (0 <? length lines)%nat;
       let start_idx := if skip : bool then 1%nat else 0%nat in
       group_lines (cfg self) block_type (drop start_idx lines) [] [])
    with
    | Raise e => (self, Raise e)
    | Return (cur, blocks) =>
        let blocks := flush_last cur blocks in
        let '(parsed, exc) := map_blocks (cfg self) now blocks [] in
        ({| cfg := cfg self; parsed_data := (parsed_data self ++ parsed)%list |},
         match exc with
         | Some e => Raise e
         | None => Return parsed
         end)
    end.

Definition parse_feed (self : Parser) (now : string) (text_feed : string)
  (block_type : string) : Parser * Result (list GameRecord) :=
  parse_lines self now (feed_lines text_feed) block_type.

End OddsParser.

(** ** app.py: the series buffers *)

Module App.

Import Py Settings.
Local Open Scope string_scope.
Local Open Scope Z_scope.

(** One observation: [{'ip': ..., 'point': ..., 'ts': ...}]. *)
Record SeriesPoint : Type := mkPoint {
  ip : Q;
  point : option Q;
  ts : string
}.

(** [push(market, ip_val, point_val)] on [st.session_state['buffers']],
    inside the loop over parsed rows: [gid] is the row's game id, [now] the
    timestamp taken before the loop, [c] the configuration singleton.
    [setdefault] followed by [append] updates the list stored under [key];
    a list longer than the cap is replaced by its last entries. *)
Definition push (c : Config) (now gid : string)
  (buffers : gmap string (list SeriesPoint))
  (market : string) (ip_val point_val : option Q)
  : gmap string (list SeriesPoint) :=
  match ip_val with
  | None => buffers
  | Some ip_val =>
      let key := gid +:+ "|" +:+ market in
      let buf := default [] (buffers !! key) in
      let buf := (buf ++ [{| ip := ip_val; point := point_val; ts := now |}])%list in
      let buffers := <[key := buf]> buffers in
      if default_history_len c <? Z.of_nat (length buf)
      then <[key := slice_from buf (- default_history_len c)]> buffers
      else buffers
  end.

(** One call of [push] as data, and a run of calls in order. *)
Record PushCall : Type := mkPush {
  call_gid : string;
  call_market : string;
  call_ip : option Q;
  call_point : option Q;
  call_now : string
}.

Definition run_push (c : Config) (buffers : gmap string (list SeriesPoint))
  (p : PushCall) : gmap string (list SeriesPoint) :=
  push c (call_now p) (call_gid p) buffers (call_market p) (call_ip p) (call_point p).

Definition run_pushes (c : Config) (calls : list PushCall)
  (buffers : gmap string (list SeriesPoint)) : gmap string (list SeriesPoint) :=
  foldl (run_push c) buffers calls.

(** The key a call writes to, and the points a run of calls appends under
    [key], in call order (a call without [ip_val] appends nothing). *)
Definition call_key (p : PushCall) : string := call_gid p +:+ "|" +:+ call_market p.

Definition appended (key : string) (calls : list PushCall) : list SeriesPoint :=
  omap (fun p =>
          if bool_decide (call_key p = key)
          then (fun v => {| ip := v; point := call_point p; ts := call_now p |})
                 <$> call_ip p
          else None) calls.

(** The last [cap] elements of [pts], all of them when there are fewer; and
    the buffer a key is expected to hold once [pts] were appended under it:
    no entry before the first point. *)
Definition last_points (cap : Z) (pts : list SeriesPoint) : list SeriesPoint :=
  drop (length pts - Z.to_nat cap) pts.

Definition expected_buffer (cap : Z) (pts : list SeriesPoint)
  : option (list SeriesPoint) :=
  match pts with
  | [] => None
  | _ => Some (last_points cap pts)
  end.

End App.

(** ** parser/ta/ta_engine.py *)

Module TaEngine.

Import Py.
Local Open Scope Z_scope.

Definition qsum (l : list Q) : Q := foldr Qplus 0%Q l.

(** [np.mean]. *)
Definition np_mean (l : list Q) : Q := (qsum l / inject_Z (Z.of_nat (length l)))%Q.

(** [np.diff]: successive differences. *)
Fixpoint np_diff (l : list Q) : list Q :=
  match l with
  | a :: (b :: _) as rest => (b - a)%Q :: np_diff rest
  | _ => []
  end.

(** [np.where(deltas > 0, deltas, 0)] and [np.where(deltas < 0, -deltas, 0)]. *)
Definition gains_of (deltas : list Q) : list Q :=
  (fun d => if Qlt_le_dec 0 d then d else 0%Q) <$> deltas.
Definition losses_of (deltas : list Q) : list Q :=
  (fun d => if Qlt_le_dec d 0 then (- d)%Q else 0%Q) <$> deltas.

Definition rsi_from_ips (values : list Q) (period : Z) : option Q :=
  let x := values in
  if Z.of_nat (length x) <? period + 1 then None
  else
    let deltas := np_diff x in
    let gains := gains_of deltas in
    let losses := losses_of deltas in
    let avg_gain := np_mean (slice_from gains (- period)) in
    let avg_loss := np_mean (slice_from losses (- period)) in
    if Qeq_bool avg_loss 0 then Some 100%Q
    else
      let rs := (avg_gain / avg_loss)%Q in
      Some (100 - 100 / (1 + rs))%Q.

Section WithSqrt.

(** The square root of [np.sqrt] and [np.std] has no rational model: it is
    a parameter of the functions that use it. *)
Variable sqrt : Q -> Q.

(** [np.std]: population standard deviation. *)
Definition np_std (l : list Q) : Q :=
  let mu := np_mean l in
  sqrt (np_mean ((fun x => (x - mu) * (x - mu))%Q <$> l)).

Definition raise_if_none {A} (o : option A) : Result A :=
  match o with
  | Some a => Return a
  | None => Raise IndexError
  end.

Definition adaptive_ma (values : list Q) (base_period max_period : Z)
  (sensitivity : Q) : Result (option Q) :=
  if bool_decide (values = []) then mret None
  else
    let arr := values in
    if Z.of_nat (length arr) <? base_period then mret (Some (np_mean arr))
    else
      let vol := np_std (slice_from arr (- base_period)) in
      eff ← (if Qeq_bool vol 0 then mret 0%Q
             else
               last ← raise_if_none (index arr (-1));
               first ← raise_if_none (index arr (- base_period));
               let direction := Qabs (last - first) in
               mret (direction / (vol * sqrt (inject_Z base_period)))%Q);
      let adaptive_period :=
        base_period
        + int_of_float (inject_Z (max_period - base_period) * eff * sensitivity)%Q in
      let adaptive_period := Z.max base_period (Z.min max_period adaptive_period) in
      mret (Some (np_mean (slice_from arr (- adaptive_period)))).

End WithSqrt.

End TaEngine.

(** ** engine/recommendations.py *)

Module Recommendations.

Import Py Settings.
Local Open Scope string_scope.
Local Open Scope Q_scope.

(** [{'MOM_V': ..., 'MOM_A': ...}], the result of [momentum_from_ips]. *)
Record Momentum : Type := mkMomentum {
  MOM_V : option Q;
  MOM_A : option Q
}.

(** The result of [detect_steam_movement_advanced]. *)
Module Steam.
Record t : Type := mk {
  steam : bool;
  confidence : Q;
  signals : list string
}.
End Steam.

(** The entries of one market's indicator dict that the engine reads.
    [None] in a field stands for a missing key, [None] or an empty dict:
    the source treats the three alike. *)
Record Indicators : Type := mkIndicators {
  momentum : option Momentum;
  steam_detection : option Steam.t
}.

(** [ta_indicators]: market name to indicator dict; the value [None] is the
    empty dict [{}] that [calculate_all_ta_indicators] returns without data. *)
Abbreviation IndicatorSets := (gmap string (option Indicators)).

(** One forecast: [{'projected_point_move': ..., 'confidence': ...}]. *)
Module Forecast.
Record t : Type := mk {
  projected_point_move : option Q;
  confidence : Q
}.
End Forecast.

(** [forecasts.items()], in iteration order; the value [None] is a falsy
    forecast. *)
Abbreviation Forecasts := (list (string * option Forecast.t)).

(** The lines of [narrative] before formatting: the f-strings of lines 24,
    30 and 49 with their arguments. *)
Inductive NarrativeLine : Type :=
| SpreadMomentumLine (mom_v : Q)
| SteamLine (conf : Q)
| ForecastLine (mk : string) (pm conf : Q).

(** The locals [score], [narrative] and [triggered]. *)
Record Tally : Type := mkTally {
  score : Q;
  narrative : list NarrativeLine;
  triggered : list string
}.

Definition start : Tally := {| score := 0; narrative := []; triggered := [] |}.

(** [ta_indicators[name]] when [name in ta_indicators and ta_indicators[name]]. *)
Definition present (ta : IndicatorSets) (name : string) : option Indicators :=
  match ta !! name with
  | Some (Some s) => Some s
  | _ => None
  end.

(** Lines 19 to 20 and line 37: [MOM_V] of the momentum dict, [0.0] when
    there is no momentum dict. *)
Definition momentum_value (s : Indicators) : option Q :=
  match momentum s with
  | Some mom => MOM_V mom
  | None => Some 0
  end.

(** [steam and steam.get('steam')]. *)
Definition steam_detected (s : Indicators) : option Steam.t :=
  match steam_detection s with
  | Some sd => if Steam.steam sd then Some sd else None
  | None => None
  end.

(** Lines 17 to 31. *)
Definition spread_signals (ta : IndicatorSets) (t : Tally) : Tally :=
  match present ta "spread" with
  | None => t
  | Some s =>
      let t :=
        match momentum_value s with
        | Some mom_v =>
            {| score := score t + sign mom_v * fmin (5 # 10) (Qabs mom_v * 100);
               narrative := (narrative t ++ [SpreadMomentumLine mom_v])%list;
               triggered := (triggered t ++ ["spread_momentum"])%list |}
        | None => t
        end in
      match steam_detected s with
      | Some sd =>
          {| score := score t + (3 # 10) * Steam.confidence sd;
             narrative := (narrative t ++ [SteamLine (Steam.confidence sd)])%list;
             triggered := (triggered t ++ ["steam"])%list |}
      | None => t
      end
  end.

(** [if momv]: a number that is neither [None] nor zero. *)
Definition nonzero (x : option Q) : option Q :=
  match x with
  | Some v => if Qeq_bool v 0 then None else Some v
  | None => None
  end.

(** Lines 35 to 40, for one [side]. *)
Definition moneyline_signal (ta : IndicatorSets) (t : Tally) (side : string) : Tally :=
  match present ta side with
  | None => t
  | Some i =>
      match nonzero (momentum_value i) with
      | Some momv =>
          {| score := score t + sign momv * fmin (4 # 10) (Qabs momv * 120);
             narrative := narrative t;
             triggered := (triggered t ++ [side +:+ "_momentum"])%list |}
      | None => t
      end
  end.

(** Line 48: the forecast's move when [pm and abs(pm) > 0.3 and conf > 0.6]. *)
Definition qualifying_move (f : Forecast.t) : option Q :=
  match nonzero (Forecast.projected_point_move f) with
  | Some pm =>
      if Qlt_le_dec (3 # 10) (Qabs pm) then
        if Qlt_le_dec (6 # 10) (Forecast.confidence f) then Some pm else None
      else None
  | None => None
  end.

(** Lines 44 to 50, for one item of [forecasts]. *)
Definition forecast_signal (t : Tally) (item : string * option Forecast.t) : Tally :=
  match item with
  | (mk, Some f) =>
      match qualifying_move f with
      | Some pm =>
          {| score := score t + (2 # 10) * sign pm;
             narrative := (narrative t ++ [ForecastLine mk pm (Forecast.confidence f)])%list;
             triggered := triggered t |}
      | None => t
      end
  | (_, None) => t
  end.

(** Lines 12 to 50: the tally when the three groups of signals are read. *)
Definition tally (ta : IndicatorSets) (forecasts : Forecasts) : Tally :=
  let t := spread_signals ta start in
  let t := foldl (moneyline_signal ta) t ["away_ml"; "home_ml"] in
  foldl forecast_signal t forecasts.

(** Lines 53 to 57. *)
Definition confidence_of (score : Q) : Q :=
  let confidence := (5 # 10) + score in
  let confidence := if Qlt_le_dec (95 # 100) confidence then 95 # 100 else confidence in
  if Qlt_le_dec confidence (5 # 100) then 5 # 100 else confidence.

(** Lines 60 to 65. *)
Definition action_of (c : Config) (confidence : Q) : string :=
  if Qle_bool (strong_confidence_threshold c) confidence then "Back"
  else if Qle_bool confidence (min_confidence_for_action c - (1 # 10)) then "Fade"
  else "Hold".

Record Recommendation : Type := mkRecommendation {
  game_id : option string;
  action : string;
  confidence : Q;
  expected_value : Q;
  kelly_stake : Q;
  narrative_lines : list NarrativeLine;
  triggered_indicators : list string;
  indicator_summary : IndicatorSets;
  timestamp : string
}.

Definition generate_recommendation (c : Config) (now : string)
  (game_row : OddsParser.GameRecord) (ta_indicators : IndicatorSets)
  (forecasts : Forecasts) : Recommendation :=
  let t := tally ta_indicators forecasts in
  let confidence := confidence_of (score t) in
  let action := action_of c confidence in
  let ev := (confidence - (5 # 10)) * (12 # 100) in
  let kelly := fmax 0 (fmin (kelly_fraction_cap c) (ev / (5 # 100))) in
  {| game_id := Some (OddsParser.record_game_id game_row);
     action := action;
     confidence := confidence;
     expected_value := ev;
     kelly_stake := kelly;
     narrative_lines := narrative t;
     triggered_indicators := triggered t;
     indicator_summary := ta_indicators;
     timestamp := now |}.

(** [clamp(x, lo, hi)] as the specification uses it: [x] brought back into
    the interval from [lo] to [hi]. *)
Definition clamp (x lo hi : Q) : Q :=
  if Qlt_le_dec x lo then lo else if Qlt_le_dec hi x then hi else x.

End Recommendations.

(** ** parser/ta/ta_engine.py: the other indicators *)

Module TaIndicators.

Import Py TaEngine Recommendations.
Local Open Scope string_scope.
Local Open Scope Z_scope.

(** The exceptions of this part of the engine: those of [Py.Exc], the
    ZeroDivisionError of a float division and the ValueError of [max] and
    [min] on an empty list. *)
Inductive Error : Type :=
| Builtin (e : Exc)
| ZeroDivisionError
| ValueError.

Inductive Outcome (A : Type) : Type :=
| Ok (a : A)
| Fail (e : Error).
Arguments Ok {A} a.
Arguments Fail {A} e.

#[global] Instance outcome_ret : MRet Outcome := fun _ a => Ok a.
#[global] Instance outcome_bind : MBind Outcome := fun _ _ k m =>
  match m with
  | Ok a => k a
  | Fail e => Fail e
  end.

(** A call of a function of [TaEngine]. *)
Definition lift {A} (r : Result A) : Outcome A :=
  match r with
  | Return a => Ok a
  | Raise e => Fail (Builtin e)
  end.

(** [arr[i]]. *)
Definition item (arr : list Q) (i : Z) : Outcome Q :=
  match index arr i with
  | Some x => Ok x
  | None => Fail (Builtin IndexError)
  end.

Definition momentum_from_ips (values : list Q) (period : Z) : Outcome Momentum :=
  let arr := values in
  if Z.of_nat (length arr) <? period + 1
  then Ok {| MOM_V := None; MOM_A := None |}
  else
    last ← item arr (-1);
    base ← item arr (- period - 1);
    let mom_v := ((last - base) / inject_Z period)%Q in
    mom_a ← (if 2 * period + 1 <=? Z.of_nat (length arr)
             then
               base' ← item arr (- period - 1);
               old ← item arr (-2 * period - 1);
               let prev_v := ((base' - old) / inject_Z period)%Q in
               Ok (Some ((mom_v - prev_v) / inject_Z period)%Q)
             else Ok None);
    Ok {| MOM_V := Some mom_v; MOM_A := mom_a |}.

Definition sma (values : list Q) (period : Z) : option Q :=
  if Z.of_nat (length values) <? 1 then None
  else Some (np_mean (slice_from values (- period))).

Definition ema (values : list Q) (period : Z) : Outcome (option Q) :=
  match values with
  | [] => Ok None
  | first :: rest =>
      if period + 1 =? 0 then Fail ZeroDivisionError
      else
        let alpha := (2 / (inject_Z period + 1))%Q in
        Ok (Some (foldl (fun ema_v v => alpha * v + (1 - alpha) * ema_v)%Q first rest))
  end.

Definition atr_on_points (points : list Q) (lookback : Z) : option Q :=
  if Z.of_nat (length points) <? 2 then None
  else
    let tr := Qabs <$> np_diff points in
    if Z.of_nat (length tr) <? lookback then Some (np_mean tr)
    else Some (np_mean (slice_from tr (- lookback))).

(** Builtin [max] and [min] of a list: the first of the largest (smallest)
    elements; ValueError on an empty list. *)
Definition py_max (l : list Q) : Outcome Q :=
  match l with
  | [] => Fail ValueError
  | x :: rest => Ok (foldl (fun best y => if Qlt_le_dec best y then y else best) x rest)
  end.

Definition py_min (l : list Q) : Outcome Q :=
  match l with
  | [] => Fail ValueError
  | x :: rest => Ok (foldl (fun best y => if Qlt_le_dec y best then y else best) x rest)
  end.

(** [high - low if high != low else 1.0]. *)
Definition fib_span (high low : Q) : Q :=
  if Qeq_bool high low then 1%Q else (high - low)%Q.

(** The result dict, in insertion order. *)
Definition fibonacci_levels (points : list Q) (lookback : Z)
  : Outcome (list (string * Q)) :=
  if Z.of_nat (length points) <? 2 then Ok []
  else
    let s := slice_from points (- lookback) in
    high ← py_max s;
    low ← py_min s;
    let diff := fib_span high low in
    Ok [ ("0.0", high);
         ("0.236", high - (236 # 1000) * diff);
         ("0.382", high - (382 # 1000) * diff);
         ("0.5", high - (5 # 10) * diff);
         ("0.618", high - (618 # 1000) * diff);
         ("0.786", high - (786 # 1000) * diff);
         ("1.0", low) ]%Q.

Definition fibonacci_extensions (points : list Q) (lookback : Z)
  : Outcome (list (string * Q)) :=
  if Z.of_nat (length points) <? 2 then Ok []
  else
    let s := slice_from points (- lookback) in
    high ← py_max s;
    low ← py_min s;
    let diff := fib_span high low in
    Ok [ ("1.272", high + (272 # 1000) * diff);
         ("1.414", high + (414 # 1000) * diff);
         ("1.618", high + (618 # 1000) * diff);
         ("2.0", high + 1 * diff);
         ("2.618", high + (1618 # 1000) * diff) ]%Q.

(** [x or 0.0] on an [Optional[float]]. *)
Definition opt_or_zero (x : option Q) : Q :=
  match x with
  | Some v => float_or v 0
  | None => 0%Q
  end.

(** [np.median]: the middle of the sorted values, the mean of the two
    middle ones for an even count. *)
#[global] Instance Qle_decision : RelDecision Qle := fun x y =>
  match Qlt_le_dec y x with
  | left H => right (Qlt_not_le _ _ H)
  | right H => left H
  end.

Definition np_median (l : list Q) : Q :=
  let s := merge_sort Qle l in
  let n := length s in
  if Nat.even n
  then ((default 0 (s !! (n / 2 - 1)%nat) + default 0 (s !! (n / 2)%nat)) / 2)%Q
  else default 0%Q (s !! (n / 2)%nat).

(** [{'delta': ..., 'gamma': ..., 'vega': ...}]. *)
Record Greeks : Type := mkGreeks {
  delta : option Q;
  gamma : option Q;
  vega : option Q
}.

(** [[a / b for a, b in zip(dip, dp) if abs(b) > 1e-8]]. *)
Fixpoint greek_ratios (dip dp : list Q) : list Q :=
  match dip, dp with
  | a :: dip', b :: dp' =>
      if Qlt_le_dec (1 # 100000000) (Qabs b)
      then (a / b)%Q :: greek_ratios dip' dp'
      else greek_ratios dip' dp'
  | _, _ => []
  end.

(** The non-empty result of [calculate_all_ta_indicators], key by key. *)
Module Summary.
Record t : Type := mk {
  current_ip : Q;
  data_points : nat;
  momentum : Momentum;
  rsi : option Q;
  z_score : option Q;
  sma : option Q;
  ema : option Q;
  adaptive_ma : option Q;
  bollinger_width : option Q;
  atr : option Q;
  fib_retracement : list (string * Q);
  fib_extensions : list (string * Q);
  steam_detection : Steam.t;
  greeks : option Greeks;
  implied_volatility : option Q;
  series : list Q
}.
End Summary.

Section WithSqrt.

Variable sqrt : Q -> Q.

Definition z_score (values : list Q) (lookback : Z) : Outcome (option Q) :=
  let arr := values in
  if Z.of_nat (length arr) <? lookback then Ok None
  else
    let mu := np_mean (slice_from arr (- lookback)) in
    let sd := np_std sqrt (slice_from arr (- lookback)) in
    if Qeq_bool sd 0 then Ok (Some 0%Q)
    else
      last ← item arr (-1);
      Ok (Some ((last - mu) / sd)%Q).

Definition bollinger_width (values : list Q) (lookback : Z) : option Q :=
  let arr := values in
  if Z.of_nat (length arr) <? lookback then None
  else
    let mu := np_mean (slice_from arr (- lookback)) in
    let sd := np_std sqrt (slice_from arr (- lookback)) in
    Some ((mu + 2 * sd) - (mu - 2 * sd))%Q.

(** The running [score] and [out['signals']] of the steam detector. *)
Definition add_signal (fires : bool) (weight : Q) (name : string)
  (acc : Q * list string) : Q * list string :=
  if fires then ((fst acc + weight)%Q, (snd acc ++ [name])%list) else acc.

(** Line 156 and 157: the splits test. *)
Definition sharp_splits (splits : option (gmap string (option Q))) : bool :=
  match splits with
  | None => false
  | Some d =>
      if bool_decide (d = ∅) then false
      else
        match d !! "away_money_pct", d !! "home_money_pct" with
        | Some away, Some home =>
            if Qlt_le_dec 60 (fmax (opt_or_zero away) (opt_or_zero home))
            then true else false
        | _, _ => false
        end
  end.

Definition detect_steam_movement_advanced (values_ip : list Q)
  (values_points : option (list Q)) (splits : option (gmap string (option Q)))
  : Outcome Steam.t :=
  if bool_decide (values_ip = []) || (Z.of_nat (length values_ip) <? 6)
  then Ok {| Steam.steam := false; Steam.confidence := 0; Steam.signals := [] |}
  else
    z ← z_score values_ip 20;
    let zs := opt_or_zero z in
    mom ← momentum_from_ips values_ip 3;
    let mom_v := opt_or_zero (MOM_V mom) in
    let vol := if 10 <=? Z.of_nat (length values_ip)
               then np_std sqrt (slice_from values_ip (-10))
               else np_std sqrt values_ip in
    let acc := (0%Q, []) in
    let acc := add_signal (if Qlt_le_dec 2 (Qabs zs) then true else false)
                 1 "zscore" acc in
    let acc := add_signal (if Qlt_le_dec (5 # 10000) (Qabs mom_v) then true else false)
                 1 "momentum" acc in
    let acc := add_signal (if Qlt_le_dec (2 # 100) vol then true else false)
                 (5 # 10) "volatility" acc in
    let acc := add_signal (sharp_splits splits) 1 "sharp_splits" acc in
    let confidence := fmin 1 (fst acc / 3)%Q in
    Ok {| Steam.steam := if Qlt_le_dec (4 # 10) confidence then true else false;
          Steam.confidence := confidence;
          Steam.signals := snd acc |}.

Definition calculate_greeks_estimate (values_ip : list Q) (points : option (list Q))
  : Greeks :=
  let out := {| delta := None; gamma := None; vega := None |} in
  match points with
  | None => out
  | Some points =>
      if bool_decide (values_ip = []) || (Z.of_nat (length values_ip) <? 3)
         || (Z.of_nat (length points) <? 3)
      then out
      else
        let dip := np_diff values_ip in
        let dp := np_diff points in
        let ratios := greek_ratios dip dp in
        if bool_decide (ratios = []) then out
        else
          {| delta := Some (np_median ratios);
             gamma := if 2 <=? Z.of_nat (length ratios)
                      then Some (np_median (np_diff ratios)) else None;
             vega := Some (np_std sqrt dip) |}
  end.

Definition implied_volatility_simple (values_ip : list Q) : option Q :=
  if bool_decide (values_ip = []) || (Z.of_nat (length values_ip) <? 2) then None
  else Some (np_std sqrt (np_diff values_ip)).

(** [[d[field] for d in series_data if field in d and d[field] is not None]]. *)
Definition field_values (field : string) (series_data : list (gmap string (option Q)))
  : list Q :=
  omap (fun d => match d !! field with
                 | Some (Some v) => Some v
                 | _ => None
                 end) series_data.

(** [None] is the empty dict returned when no item has a value. *)
Definition calculate_all_ta_indicators (series_data : list (gmap string (option Q)))
  (field point_field : string) : Outcome (option Summary.t) :=
  let values_ip := field_values field series_data in
  let values_points := field_values point_field series_data in
  if bool_decide (values_ip = []) then Ok None
  else
    let has_points := negb (bool_decide (values_points = [])) in
    current ← item values_ip (-1);
    mom ← momentum_from_ips values_ip 3;
    z ← z_score values_ip 20;
    e ← ema values_ip 10;
    ama ← lift (TaEngine.adaptive_ma sqrt values_ip 10 30 2);
    fib ← (if has_points then fibonacci_levels values_points 50 else Ok []);
    ext ← (if has_points then fibonacci_extensions values_points 50 else Ok []);
    steam ← detect_steam_movement_advanced values_ip (Some values_points) None;
    Ok (Some {|
      Summary.current_ip := current;
      Summary.data_points := length values_ip;
      Summary.momentum := mom;
      Summary.rsi := rsi_from_ips values_ip 14;
      Summary.z_score := z;
      Summary.sma := sma values_ip 10;
      Summary.ema := e;
      Summary.adaptive_ma := ama;
      Summary.bollinger_width := bollinger_width values_ip 20;
      Summary.atr := if has_points then atr_on_points values_points 14 else None;
      Summary.fib_retracement := fib;
      Summary.fib_extensions := ext;
      Summary.steam_detection := steam;
      Summary.greeks := if has_points
                        then Some (calculate_greeks_estimate values_ip (Some values_points))
                        else None;
      Summary.implied_volatility := implied_volatility_simple values_ip;
      Summary.series := slice_from values_ip (-500)
    |}).

End WithSqrt.

(** What the recommendation engine reads of a summary. *)
Definition indicators_of (s : option Summary.t) : option Indicators :=
  match s with
  | None => None
  | Some s => Some {| momentum := Some (Summary.momentum s);
                      steam_detection := Some (Summary.steam_detection s) |}
  end.

End TaIndicators.

(** ** Floats that may be NaN *)

Module PyFloat.

Local Open Scope Q_scope.

(** A float as the recommendation engine can meet it: NaN, or a number.
    A number is an exact rational, as everywhere else; what NaN adds is
    the way it goes through arithmetic (the result is NaN) and through
    comparisons (each of them is false). *)
Inductive float : Type :=
| nan
| num (q : Q).

Definition is_nan (x : float) : bool :=
  match x with
  | nan => true
  | num _ => false
  end.

Definition add (x y : float) : float :=
  match x, y with
  | num a, num b => num (a + b)
  | _, _ => nan
  end.

Definition sub (x y : float) : float :=
  match x, y with
  | num a, num b => num (a - b)
  | _, _ => nan
  end.

Definition mul (x y : float) : float :=
  match x, y with
  | num a, num b => num (a * b)
  | _, _ => nan
  end.

(** [x / y] for a divisor that is not zero. *)
Definition div (x y : float) : float :=
  match x, y with
  | num a, num b => num (a / b)
  | _, _ => nan
  end.

(** [x < y] and [x <= y]; [x > y] is [lt y x] and [x >= y] is [le y x]. *)
Definition lt (x y : float) : bool :=
  match x, y with
  | num a, num b => if Qlt_le_dec a b then true else false
  | _, _ => false
  end.

Definition le (x y : float) : bool :=
  match x, y with
  | num a, num b => Qle_bool a b
  | _, _ => false
  end.

Definition abs (x : float) : float :=
  match x with
  | num a => num (Qabs a)
  | nan => nan
  end.

(** [np.sign]: NaN for NaN. *)
Definition sign (x : float) : float :=
  match x with
  | num a => num (Py.sign a)
  | nan => nan
  end.

(** Truth value of a float, as [if x] tests it: NaN is true. *)
Definition truthy (x : float) : bool :=
  match x with
  | num a => negb (Qeq_bool a 0)
  | nan => true
  end.

(** Builtin [min(a, b)] and [max(a, b)]: the first argument unless the
    second is strictly smaller (resp. larger), so a NaN in second place is
    never chosen and a NaN in first place always is. *)
Definition fmin (a b : float) : float := if lt b a then b else a.
Definition fmax (a b : float) : float := if lt a b then b else a.

End PyFloat.

(** ** engine/recommendations.py, on floats that may be NaN

    The same lines as in [Recommendations], with every float a
    [PyFloat.float]: the indicator and forecast dicts are arguments of
    [generate_recommendation], and nothing in it keeps a NaN out. *)

Module FloatEngine.

Import Settings PyFloat.
Local Open Scope string_scope.
Local Open Scope Q_scope.

Record Momentum : Type := mkMomentum {
  MOM_V : option float;
  MOM_A : option float
}.

Module Steam.
Record t : Type := mk {
  steam : bool;
  confidence : float;
  signals : list string
}.
End Steam.

(** [None] in a field stands for a missing key, [None] or an empty dict. *)
Record Indicators : Type := mkIndicators {
  momentum : option Momentum;
  steam_detection : option Steam.t
}.

Abbreviation IndicatorSets := (gmap string (option Indicators)).

Module Forecast.
Record t : Type := mk {
  projected_point_move : option float;
  confidence : float
}.
End Forecast.

Abbreviation Forecasts := (list (string * option Forecast.t)).

Inductive NarrativeLine : Type :=
| SpreadMomentumLine (mom_v : float)
| SteamLine (conf : float)
| ForecastLine (mk : string) (pm conf : float).

(** The locals [score], [narrative] and [triggered]. *)
Record Tally : Type := mkTally {
  score : float;
  narrative : list NarrativeLine;
  triggered : list string
}.

Definition start : Tally := {| score := num 0; narrative := []; triggered := [] |}.

(** [ta_indicators[name]] when [name in ta_indicators and ta_indicators[name]]. *)
Definition present (ta : IndicatorSets) (name : string) : option Indicators :=
  match ta !! name with
  | Some (Some s) => Some s
  | _ => None
  end.

(** Lines 19 to 20 and line 37. *)
Definition momentum_value (s : Indicators) : option float :=
  match momentum s with
  | Some mom => MOM_V mom
  | None => Some (num 0)
  end.

(** [steam and steam.get('steam')]. *)
Definition steam_detected (s : Indicators) : option Steam.t :=
  match steam_detection s with
  | Some sd => if Steam.steam sd then Some sd else None
  | None => None
  end.

(** Lines 17 to 31. *)
Definition spread_signals (ta : IndicatorSets) (t : Tally) : Tally :=
  match present ta "spread" with
  | None => t
  | Some s =>
      let t :=
        match momentum_value s with
        | Some mom_v =>
            {| score := add (score t)
                          (mul (sign mom_v)
                               (fmin (num (5 # 10)) (mul (abs mom_v) (num 100))));
               narrative := (narrative t ++ [SpreadMomentumLine mom_v])%list;
               triggered := (triggered t ++ ["spread_momentum"])%list |}
        | None => t
        end in
      match steam_detected s with
      | Some sd =>
          {| score := add (score t) (mul (num (3 # 10)) (Steam.confidence sd));
             narrative := (narrative t ++ [SteamLine (Steam.confidence sd)])%list;
             triggered := (triggered t ++ ["steam"])%list |}
      | None => t
      end
  end.

(** [if momv]: a float that is neither [None] nor zero. *)
Definition nonzero (x : option float) : option float :=
  match x with
  | Some v => if truthy v then Some v else None
  | None => None
  end.

(** Lines 35 to 40, for one [side]. *)
Definition moneyline_signal (ta : IndicatorSets) (t : Tally) (side : string) : Tally :=
  match present ta side with
  | None => t
  | Some i =>
      match nonzero (momentum_value i) with
      | Some momv =>
          {| score := add (score t)
                        (mul (sign momv)
                             (fmin (num (4 # 10)) (mul (abs momv) (num 120))));
             narrative := narrative t;
             triggered := (triggered t ++ [side +:+ "_momentum"])%list |}
      | None => t
      end
  end.

(** Line 48: the forecast's move when [pm and abs(pm) > 0.3 and conf > 0.6]. *)
Definition qualifying_move (f : Forecast.t) : option float :=
  match nonzero (Forecast.projected_point_move f) with
  | Some pm =>
      if lt (num (3 # 10)) (abs pm) then
        if lt (num (6 # 10)) (Forecast.confidence f) then Some pm else None
      else None
  | None => None
  end.

(** Lines 44 to 50, for one item of [forecasts]. *)
Definition forecast_signal (t : Tally) (item : string * option Forecast.t) : Tally :=
  match item with
  | (mk, Some f) =>
      match qualifying_move f with
      | Some pm =>
          {| score := add (score t) (mul (num (2 # 10)) (sign pm));
             narrative := (narrative t ++ [ForecastLine mk pm (Forecast.confidence f)])%list;
             triggered := triggered t |}
      | None => t
      end
  | (_, None) => t
  end.

(** Lines 12 to 50. *)
Definition tally (ta : IndicatorSets) (forecasts : Forecasts) : Tally :=
  let t := spread_signals ta start in
  let t := foldl (moneyline_signal ta) t ["away_ml"; "home_ml"] in
  foldl forecast_signal t forecasts.

(** Lines 53 to 57: two comparisons, both false of a NaN. *)
Definition confidence_of (score : float) : float :=
  let confidence := add (num (5 # 10)) score in
  let confidence := if lt (num (95 # 100)) confidence then num (95 # 100) else confidence in
  if lt confidence (num (5 # 100)) then num (5 # 100) else confidence.

(** Lines 60 to 65. *)
Definition action_of (c : Config) (confidence : float) : string :=
  if le (num (strong_confidence_threshold c)) confidence then "Back"
  else if le confidence (num (min_confidence_for_action c - (1 # 10))) then "Fade"
  else "Hold".

Record Recommendation : Type := mkRecommendation {
  game_id : option string;
  action : string;
  confidence : float;
  expected_value : float;
  kelly_stake : float;
  narrative_lines : list NarrativeLine;
  triggered_indicators : list string;
  indicator_summary : IndicatorSets;
  timestamp : string
}.

Definition generate_recommendation (c : Config) (now : string)
  (game_row : OddsParser.GameRecord) (ta_indicators : IndicatorSets)
  (forecasts : Forecasts) : Recommendation :=
  let t := tally ta_indicators forecasts in
  let confidence := confidence_of (score t) in
  let action := action_of c confidence in
  let ev := mul (sub confidence (num (5 # 10))) (num (12 # 100)) in
  let kelly := fmax (num 0) (fmin (num (kelly_fraction_cap c)) (div ev (num (5 # 100)))) in
  {| game_id := Some (OddsParser.record_game_id game_row);
     action := action;
     confidence := confidence;
     expected_value := ev;
     kelly_stake := kelly;
     narrative_lines := narrative t;
     triggered_indicators := triggered t;
     indicator_summary := ta_indicators;
     timestamp := now |}.

(** An indicator dict holds a NaN where the engine reads a float: in
    [MOM_V], or in the confidence of the steam summary. *)
Definition holds_nan (s : Indicators) : bool :=
  match momentum s with
  | Some mom => from_option is_nan false (MOM_V mom)
  | None => false
  end
  || match steam_detection s with
     | Some sd => is_nan (Steam.confidence sd)
     | None => false
     end.

(** No indicator dict of [ta_indicators] holds a NaN. *)
Definition numbers_only (ta : IndicatorSets) : Prop :=
  map_Forall (fun _ s => from_option holds_nan false s = false) ta.

End FloatEngine.

(** * Properties *)

(** ** Two-way normalisation *)

Section Normalisation.

Import Py OddsParser.
Local Open Scope Q_scope.

Lemma float_or_zero (x : Q) : float_or x 0 == x.
Proof.
  unfold float_or. destruct (Qeq_bool x 0) eqn:E; [|reflexivity].
  apply Qeq_bool_iff in E. symmetry. exact E.
Qed.

Lemma inject_Z_pos (z : Z) : (0 < z)%Z -> 0 < inject_Z z.
Proof. intros H. change 0 with (inject_Z 0). now rewrite <- Zlt_Qlt. Qed.

Lemma inject_Z_nonneg (z : Z) : (0 <= z)%Z -> 0 <= inject_Z z.
Proof. intros H. change 0 with (inject_Z 0). now rewrite <- Zle_Qle. Qed.

(** The raw probability of a present side exists and is never negative; it
    is positive unless the odds are 0. *)
Lemma american_to_prob_raw_range (z : Z) :
  exists r, _american_to_prob_raw (Some z) = Some r /\ 0 <= r /\ (z <> 0%Z -> 0 < r).
Proof.
  unfold _american_to_prob_raw. destruct (Z.ltb_spec 0 z) as [Hz|Hz].
  - eexists; split; [reflexivity|].
    assert (Hd : 0 < inject_Z z + 100).
    { pose proof (inject_Z_pos z Hz). lra. }
    assert (Hp : 0 < 100 / (inject_Z z + 100)).
    { apply Qlt_shift_div_l; [exact Hd | lra]. }
    split; [apply Qlt_le_weak, Hp | intros _; exact Hp].
  - eexists; split; [reflexivity|].
    assert (Hn : 0 <= inject_Z (- z)) by (apply inject_Z_nonneg; lia).
    assert (Hd : 0 < inject_Z (- z) + 100) by lra.
    split.
    + apply Qle_shift_div_l; [exact Hd | lra].
    + intros Hne. apply Qlt_shift_div_l; [exact Hd|].
      assert (0 < inject_Z (- z)) by (apply inject_Z_pos; lia). lra.
Qed.

(** Two present sides, not both 0, are normalised by their positive total. *)
Lemma normalize_both_present (a b : Z) :
  a <> 0%Z \/ b <> 0%Z ->
  exists ra rb,
    _american_to_prob_raw (Some a) = Some ra /\
    _american_to_prob_raw (Some b) = Some rb /\
    0 < ra + rb /\
    _normalize_two_way (Some a) (Some b)
    = (Some (ra / (float_or ra 0 + float_or rb 0)),
       Some (rb / (float_or ra 0 + float_or rb 0))).
Proof.
  intros Hab.
  destruct (american_to_prob_raw_range a) as (ra & Ea & Ha0 & Ha).
  destruct (american_to_prob_raw_range b) as (rb & Eb & Hb0 & Hb).
  exists ra, rb. repeat split; try assumption.
  - destruct Hab as [H|H]; [specialize (Ha H) | specialize (Hb H)]; lra.
  - unfold _normalize_two_way. rewrite Ea, Eb. cbn [default from_option id].
    destruct (Qeq_bool (float_or ra 0 + float_or rb 0) 0) eqn:E; [|reflexivity].
    apply Qeq_bool_iff in E. rewrite !float_or_zero in E.
    destruct Hab as [H|H]; [specialize (Ha H) | specialize (Hb H)]; lra.
Qed.

(** One present side with odds other than 0: the present side is divided by
    itself and the missing side becomes 0, where the docstring promises the
    raw probability and [None]. *)
Lemma normalize_one_present (a : Z) :
  a <> 0%Z ->
  exists p q,
    _normalize_two_way (Some a) None = (Some p, Some q) /\ p == 1 /\ q == 0.
Proof.
  intros Ha.
  destruct (american_to_prob_raw_range a) as (ra & Ea & _ & Hpos).
  specialize (Hpos Ha).
  unfold _normalize_two_way. rewrite Ea. cbn [default from_option id].
  assert (Ht : float_or ra 0 + float_or 0 0 == ra).
  { rewrite !float_or_zero. lra. }
  destruct (Qeq_bool (float_or ra 0 + float_or 0 0) 0) eqn:E.
  - apply Qeq_bool_iff in E. lra.
  - do 2 eexists. split; [reflexivity|]. split.
    + rewrite Ht. field. lra.
    + rewrite Ht. field. lra.
Qed.

Lemma normalize_other_present (b : Z) :
  b <> 0%Z ->
  exists p q,
    _normalize_two_way None (Some b) = (Some p, Some q) /\ p == 0 /\ q == 1.
Proof.
  intros Hb.
  destruct (american_to_prob_raw_range b) as (rb & Eb & _ & Hpos).
  specialize (Hpos Hb).
  unfold _normalize_two_way. rewrite Eb. cbn [default from_option id].
  assert (Ht : float_or 0 0 + float_or rb 0 == rb).
  { rewrite !float_or_zero. lra. }
  destruct (Qeq_bool (float_or 0 0 + float_or rb 0) 0) eqn:E.
  - apply Qeq_bool_iff in E. lra.
  - do 2 eexists. split; [reflexivity|]. split.
    + rewrite Ht. field. lra.
    + rewrite Ht. field. lra.
Qed.

(** C2, as amended: two present odds that are not both 0 are normalised to
    two probabilities whose sum is 1 (hence within 1e-9 of 1), and the pair
    (-110, -110) is normalised to (1/2, 1/2). *)
Theorem normalize_two_way_sums_to_one :
  (forall a b : Z, a <> 0%Z \/ b <> 0%Z ->
     exists p q,
       _normalize_two_way (Some a) (Some b) = (Some p, Some q) /\
       p + q == 1 /\ Qabs (p + q - 1) <= 1 # 1000000000) /\
  (exists p q,
     _normalize_two_way (Some (-110)%Z) (Some (-110)%Z) = (Some p, Some q) /\
     p == 1 # 2 /\ q == 1 # 2).
Proof.
  split.
  - intros a b Hab.
    destruct (normalize_both_present a b Hab) as (ra & rb & _ & _ & Hpos & ->).
    do 2 eexists. split; [reflexivity|].
    assert (Hsum : ra / (float_or ra 0 + float_or rb 0)
                   + rb / (float_or ra 0 + float_or rb 0) == 1).
    { rewrite !float_or_zero. field. lra. }
    split; [exact Hsum|]. rewrite Hsum. vm_compute. discriminate.
  - do 2 eexists. split; [vm_compute; reflexivity|]. split; reflexivity.
Qed.

Lemma normalize_two_way_sums_to_one_witness :
  exists p q,
    _normalize_two_way (Some (-150)%Z) (Some 130%Z) = (Some p, Some q) /\
    p + q == 1 /\ Qabs (p + q - 1) <= 1 # 1000000000.
Proof.
  apply (proj1 normalize_two_way_sums_to_one (-150)%Z 130%Z). left. lia.
Defined.

(** C2 as stated fails at the pair (0, 0): both raw probabilities are 0,
    the total is 0, and the fallback returns [None] for the first side. *)
Lemma normalize_two_way_zero_odds :
  _normalize_two_way (Some 0%Z) (Some 0%Z) = (None, Some (0 # 100)) /\
  ~ (exists p q,
       _normalize_two_way (Some 0%Z) (Some 0%Z) = (Some p, Some q) /\
       Qabs (p + q - 1) <= 1 # 1000000000).
Proof.
  split; [vm_compute; reflexivity|].
  intros (p & q & H & _). vm_compute in H. discriminate.
Qed.

(** C9: at (-110, None) the code returns (1, 0); the raw probability of the
    present side is 11/21 and the missing side is not [None]. *)
Theorem normalize_one_sided_eval :
  exists p q r,
    _normalize_two_way (Some (-110)%Z) None = (Some p, Some q) /\
    p == 1 /\ q == 0 /\
    _american_to_prob_raw (Some (-110)%Z) = Some r /\ r == 11 # 21 /\
    _normalize_two_way (Some (-110)%Z) None
    <> (_american_to_prob_raw (Some (-110)%Z), None).
Proof.
  do 3 eexists. split; [vm_compute; reflexivity|].
  repeat split; try reflexivity. vm_compute. discriminate.
Qed.

End Normalisation.

(** ** Feed parsing *)

Section FeedParsing.

Import Py PyStr Settings OddsParser.
Local Open Scope string_scope.
Local Open Scope list_scope.

(** The [Config] class has no attribute [parse_4line_blocks]; line 95 of the
    parser reads [parse_4_line_blocks], line 106 reads the misspelt name. *)
Lemma getattr_parse_4line_blocks (c : Config) :
  getattr c "parse_4line_blocks" = Raise (AttributeError "parse_4line_blocks").
Proof. reflexivity. Qed.

Lemma getattr_parse_4_line_blocks (c : Config) :
  getattr c "parse_4_line_blocks" = Return (VBool (parse_4_line_blocks c)).
Proof. reflexivity. Qed.

Lemma getattr_parse_5_line_blocks (c : Config) :
  getattr c "parse_5_line_blocks" = Return (VBool (parse_5_line_blocks c)).
Proof. reflexivity. Qed.

(** Every block of four lines raises, whatever the configuration. *)
Lemma map_block_four_lines_raises (c : Config) (now : string) (b : list string) :
  length b = 4%nat ->
  map_block c now b = Raise (AttributeError "parse_4line_blocks").
Proof.
  intros Hb. unfold map_block, and_attr. rewrite Hb. reflexivity.
Qed.

(** A block whose size is not 4 and that the 5-line grammar does not take
    is dropped without an exception. *)
Lemma map_block_unmatched_dropped (c : Config) (now : string) (b : list string) :
  length b <> 4%nat ->
  length b <> 5%nat \/ parse_5_line_blocks c = false ->
  map_block c now b = Return None.
Proof.
  intros H4 H5. unfold map_block, and_attr.
  apply Nat.eqb_neq in H4. rewrite H4.
  destruct (Nat.eqb_spec (length b) 5) as [E|E].
  - destruct H5 as [H5|H5]; [congruence|].
    rewrite getattr_parse_5_line_blocks. cbn. rewrite H5. reflexivity.
  - reflexivity.
Qed.

(** A block of any other size is mapped or dropped without an exception. *)
Lemma map_block_other_sizes_return (c : Config) (now : string) (b : list string) :
  length b <> 4%nat -> exists p, map_block c now b = Return p.
Proof.
  intros H4. unfold map_block, and_attr.
  apply Nat.eqb_neq in H4. rewrite H4.
  destruct (length b =? 5)%nat.
  - rewrite getattr_parse_5_line_blocks. cbn.
    destruct (parse_5_line_blocks c); eexists; reflexivity.
  - eexists. reflexivity.
Qed.

(** The mapping loop raises exactly when some block has four lines. *)
Lemma map_blocks_raises_iff (c : Config) (now : string)
  (blocks : list (list string)) (parsed : list GameRecord) :
  (exists e, snd (map_blocks c now blocks parsed) = Some e)
  <-> Exists (fun b => length b = 4%nat) blocks.
Proof.
  revert parsed. induction blocks as [|b blocks IH]; intros parsed.
  - cbn. split; [intros [e He]; discriminate | intros H; inversion H].
  - cbn [map_blocks]. destruct (Nat.eq_dec (length b) 4%nat) as [E|E].
    + rewrite (map_block_four_lines_raises c now b E). cbn.
      split; [intros _; left; exact E | intros _; eexists; reflexivity].
    + destruct (map_block_other_sizes_return c now b E) as [[p|] ->];
        rewrite IH; split; intros H;
        try (right; exact H); inversion H; subst; try contradiction; assumption.
Qed.

(** C1: with the default configuration, a header and four lines in 4line
    mode make [parse_feed] raise AttributeError instead of returning. *)
Theorem parse_feed_four_line_block_raises (now : string) :
  parse_feed new_parser now (join newline ["header"; "a"; "b"; "c"; "d"]) "4line"
  = (new_parser, Raise (AttributeError "parse_4line_blocks")).
Proof. vm_compute. reflexivity. Qed.

(** The same in the default auto mode. *)
Lemma parse_feed_auto_raises (now : string) :
  parse_feed new_parser now (join newline ["header"; "a"; "b"; "c"; "d"]) "auto"
  = (new_parser, Raise (AttributeError "parse_4line_blocks")).
Proof. vm_compute. reflexivity. Qed.

(** C3: the 5-line grammar on the block of the specification, and
    [parse_feed] on the same lines under a header.  The two moneyline
    probabilities are those of -150 and +130, 0.6 and 100/230, divided by
    their total: 69/119 and 50/119. *)
Theorem parse_5line_example (now : string) :
  exists r sp tp p q,
    _parse_5line now
      ["01/01 7:00pm TeamA -3.5"; "-110"; "o45.5"; "-110"; "-150 +130"] = Some r /\
    Rec5.spread_points r = Some sp /\ (sp == - (35 # 10))%Q /\
    Rec5.favorite_team r = "TeamA" /\
    Rec5.total_points r = Some tp /\ (tp == 455 # 10)%Q /\
    Rec5.total_side r = Some "over" /\
    Rec5.away_ml r = Some (-150)%Z /\
    Rec5.home_ml r = Some 130%Z /\
    Rec5.away_ml_ip_raw r = Some p /\ (p == 69 # 119)%Q /\
    Rec5.home_ml_ip_raw r = Some q /\ (q == 50 # 119)%Q /\
    (p + q == 1)%Q /\
    snd (parse_feed new_parser now
           (join newline ["header"; "01/01 7:00pm TeamA -3.5"; "-110"; "o45.5";
                          "-110"; "-150 +130"]) "5line")
    = Return [FiveLine r].
Proof.
  do 5 eexists. split; [vm_compute; reflexivity|].
  cbn [Rec5.spread_points Rec5.favorite_team Rec5.total_points Rec5.total_side
       Rec5.away_ml Rec5.home_ml Rec5.away_ml_ip_raw Rec5.home_ml_ip_raw].
  repeat (split; [reflexivity|]).
  vm_compute. reflexivity.
Qed.

(** *** Grouping in 5line mode *)

Lemma group_lines_5line_block (c : Config) (b rest : list string)
  (blocks : list (list string)) :
  length b = 5%nat ->
  group_lines c "5line" (b ++ rest) [] blocks
  = group_lines c "5line" rest [] (blocks ++ [b]).
Proof.
  intros Hb.
  destruct b as [|l1 [|l2 [|l3 [|l4 [|l5 [|l6 b]]]]]]; try discriminate Hb.
  reflexivity.
Qed.

Lemma group_lines_5line_short (c : Config) (extra cur : list string)
  (blocks : list (list string)) :
  (length cur + length extra < 5)%nat ->
  group_lines c "5line" extra cur blocks = Return (cur ++ extra, blocks).
Proof.
  revert cur. induction extra as [|ln extra IH]; intros cur Hlen.
  - cbn. rewrite app_nil_r. reflexivity.
  - cbn [group_lines]. change (expected_size c "5line" (cur ++ [ln])) with
      (@Return (option nat) (Some 5%nat)).
    cbn [mbind result_bind negb Nat.eqb andb].
    cbn [length] in Hlen.
    destruct (Nat.eqb_spec (length (cur ++ [ln])) 5) as [E|E].
    + rewrite length_app in E. cbn in E. lia.
    + rewrite IH.
      * rewrite <- app_assoc. reflexivity.
      * rewrite length_app. cbn. lia.
Qed.

(** Full blocks of five are grouped the same whatever follows them. *)
Lemma group_lines_5line_full (c : Config) (k : nat) :
  forall (full : list string) (blocks : list (list string)),
    length full = (5 * k)%nat ->
    exists bs, forall tail,
      group_lines c "5line" (full ++ tail) [] blocks
      = group_lines c "5line" tail [] (blocks ++ bs).
Proof.
  induction k as [|k IH]; intros full blocks Hlen.
  - destruct full; [|discriminate]. exists []. intros tail.
    rewrite app_nil_r. reflexivity.
  - assert (Hsplit : full = take 5 full ++ drop 5 full) by (symmetry; apply take_drop).
    assert (H5 : length (take 5 full) = 5%nat) by (rewrite length_take; lia).
    assert (Hk : length (drop 5 full) = (5 * k)%nat) by (rewrite length_drop; lia).
    destruct (IH (drop 5 full) (blocks ++ [take 5 full]) Hk) as [bs Hbs].
    exists (take 5 full :: bs). intros tail.
    rewrite Hsplit at 1. rewrite <- app_assoc.
    rewrite group_lines_5line_block by exact H5.
    rewrite Hbs. rewrite <- app_assoc. reflexivity.
Qed.

Lemma flush_last_short (cur : list string) (blocks : list (list string)) :
  (length cur < 4)%nat -> flush_last cur blocks = blocks.
Proof.
  intros H. unfold flush_last.
  destruct (Nat.eqb_spec (length cur) 4); [lia|].
  destruct (Nat.eqb_spec (length cur) 5); [lia|].
  rewrite andb_false_r. reflexivity.
Qed.

(** C8, as amended: in 5line mode the lines are cut greedily into blocks of
    five; fewer than four lines left after the last full block form no
    block and add nothing, so the call returns exactly what it returns
    without them. *)
Theorem leftover_lines_contribute_nothing
  (self : Parser) (now hdr : string) (full extra : list string) (k : nat) :
  ignore_header_rows (cfg self) = true ->
  length full = (5 * k)%nat ->
  (length extra < 4)%nat ->
  parse_lines self now (hdr :: full ++ extra) "5line"
  = parse_lines self now (hdr :: full) "5line".
Proof.
  intros Hh Hfull Hextra. unfold parse_lines.
  rewrite !bool_decide_eq_false_2 by discriminate.
  unfold attr_and.
  change (getattr (cfg self) "ignore_header_rows")
    with (@Return Value (VBool (ignore_header_rows (cfg self)))).
  rewrite Hh. cbn [mbind result_bind mret result_ret truthy andb length Nat.ltb Nat.leb drop].
  rewrite !drop_0.
  destruct (group_lines_5line_full (cfg self) k full [] Hfull) as [bs Hbs].
  pose proof (Hbs []) as Hnil. rewrite app_nil_r in Hnil.
  rewrite Hbs, Hnil.
  rewrite !group_lines_5line_short by (cbn; lia).
  cbn [app]. rewrite flush_last_short by exact Hextra.
  rewrite flush_last_short by (cbn; lia). reflexivity.
Qed.

Lemma leftover_lines_contribute_nothing_witness :
  parse_lines new_parser "t"
    ("header" :: ["01/01 7:00pm TeamA -3.5"; "-110"; "o45.5"; "-110"; "-150 +130"]
               ++ ["sixth line"]) "5line"
  = parse_lines new_parser "t"
      ("header" :: ["01/01 7:00pm TeamA -3.5"; "-110"; "o45.5"; "-110"; "-150 +130"])
      "5line".
Proof.
  apply (leftover_lines_contribute_nothing new_parser "t" "header" _ _ 1);
    [reflexivity | reflexivity | cbn; lia].
Defined.

(** C8 as stated fails: six lines under a header, in 5line mode, give the
    row of the first five lines, not zero rows. *)
Lemma six_line_input_yields_a_row :
  (exists r,
     snd (parse_feed new_parser "t"
            (join newline ["header"; "01/01 7:00pm TeamA -3.5"; "-110"; "o45.5";
                           "-110"; "-150 +130"; "sixth line"]) "5line")
     = Return [FiveLine r]) /\
  snd (parse_feed new_parser "t"
         (join newline ["header"; "01/01 7:00pm TeamA -3.5"; "-110"; "o45.5";
                        "-110"; "-150 +130"; "sixth line"]) "5line")
  <> Return [].
Proof.
  split.
  - eexists. vm_compute. reflexivity.
  - vm_compute. discriminate.
Qed.

End FeedParsing.

(** ** Series buffers *)

Section SeriesBuffer.

Import Py Settings App.
Local Open Scope string_scope.
Local Open Scope list_scope.

Variable c : Config.
Hypothesis cap_positive : (0 < default_history_len c)%Z.

Lemma default_expected_buffer (cap : Z) (pts : list SeriesPoint) :
  default [] (expected_buffer cap pts) = last_points cap pts.
Proof. destruct pts; reflexivity. Qed.

Lemma expected_buffer_snoc (cap : Z) (pts : list SeriesPoint) (pt : SeriesPoint) :
  expected_buffer cap (pts ++ [pt]) = Some (last_points cap (pts ++ [pt])).
Proof. destruct pts; reflexivity. Qed.

(** Appending to the kept suffix and cutting again keeps the last points. *)
Lemma trim_after_append (pts : list SeriesPoint) (pt : SeriesPoint) :
  let buf := last_points (default_history_len c) pts ++ [pt] in
  (if (default_history_len c <? Z.of_nat (length buf))%Z
   then slice_from buf (- default_history_len c) else buf)
  = last_points (default_history_len c) (pts ++ [pt]).
Proof.
  intros buf. subst buf. unfold last_points.
  set (cap := Z.to_nat (default_history_len c)).
  assert (Hcap : (0 < cap)%nat) by (unfold cap; lia).
  assert (Hc : default_history_len c = Z.of_nat cap) by (unfold cap; lia).
  rewrite !length_app, length_drop. cbn [length].
  destruct (Z.ltb_spec (default_history_len c)
              (Z.of_nat (length pts - (length pts - cap) + 1))) as [Hlt|Hge].
  - unfold slice_from. rewrite length_app, length_drop. cbn [length].
    destruct (Z.ltb_spec (- default_history_len c) 0) as [_|Hneg]; [|lia].
    replace (Z.to_nat (Z.max 0 (Z.of_nat (length pts - (length pts - cap) + 1)
                                 + - default_history_len c))) with 1%nat by lia.
    rewrite drop_app_le by (rewrite length_drop; lia).
    rewrite drop_drop.
    rewrite (drop_app_le pts) by lia.
    f_equal. f_equal. lia.
  - replace (length pts - cap)%nat with 0%nat by lia.
    replace (length pts + 1 - cap)%nat with 0%nat by lia.
    reflexivity.
Qed.

Lemma appended_snoc (key : string) (calls : list PushCall) (p : PushCall) :
  appended key (calls ++ [p])
  = appended key calls
    ++ match call_ip p with
       | Some v =>
           if bool_decide (call_key p = key)
           then [{| ip := v; point := call_point p; ts := call_now p |}]
           else []
       | None => []
       end.
Proof.
  unfold appended. rewrite omap_app. f_equal. cbn.
  destruct (call_ip p); case_bool_decide; reflexivity.
Qed.

(** One more call: the buffer of [key] follows the points appended to it. *)
Lemma run_push_lookup (buffers : gmap string (list SeriesPoint))
  (p : PushCall) (key : string) (pts : list SeriesPoint) :
  buffers !! key = expected_buffer (default_history_len c) pts ->
  run_push c buffers p !! key
  = expected_buffer (default_history_len c) (pts ++ appended key [p]).
Proof.
  intros Hold. rewrite <- (app_nil_l [p]), appended_snoc. cbn [appended omap list_omap app].
  unfold run_push, push. fold (call_key p).
  destruct (call_ip p) as [v|]; [|rewrite app_nil_r; exact Hold].
  case_bool_decide as Hk.
  - subst key. rewrite Hold, default_expected_buffer, expected_buffer_snoc.
    rewrite <- trim_after_append. cbn zeta.
    destruct (default_history_len c <? _)%Z; rewrite lookup_insert_eq; reflexivity.
  - rewrite app_nil_r.
    destruct (default_history_len c <? _)%Z;
      rewrite ?lookup_insert_ne by exact Hk; exact Hold.
Qed.

(** The buffer of every key after any run of calls from empty buffers. *)
Lemma run_pushes_lookup (calls : list PushCall) (key : string) :
  run_pushes c calls ∅ !! key
  = expected_buffer (default_history_len c) (appended key calls).
Proof.
  induction calls as [|p calls IH] using rev_ind.
  - reflexivity.
  - unfold run_pushes in *. rewrite foldl_app. cbn [foldl].
    rewrite (run_push_lookup _ p key _ IH).
    rewrite appended_snoc. rewrite <- (app_nil_l [p]), appended_snoc. reflexivity.
Qed.

(** C4, as amended: with a cap of at least 1, once more points than the
    cap were appended under a key, its buffer holds exactly cap points: the
    last cap appended, in the order of appending. *)
Theorem series_buffer_keeps_last_cap (calls : list PushCall) (key : string) :
  (default_history_len c < Z.of_nat (length (appended key calls)))%Z ->
  exists buf,
    run_pushes c calls ∅ !! key = Some buf /\
    Z.of_nat (length buf) = default_history_len c /\
    forall i : nat, (i < Z.to_nat (default_history_len c))%nat ->
      buf !! i
      = appended key calls
          !! (length (appended key calls) - Z.to_nat (default_history_len c) + i)%nat.
Proof.
  intros Hlen. rewrite run_pushes_lookup.
  destruct (appended key calls) as [|pt pts] eqn:E; [cbn in Hlen; lia|].
  eexists. split; [reflexivity|]. rewrite <- E in *. clear E.
  unfold last_points. split.
  - rewrite length_drop. lia.
  - intros i _. apply lookup_drop.
Qed.

End SeriesBuffer.

Section SeriesBufferExamples.

Import Py Settings App.
Local Open Scope string_scope.
Local Open Scope list_scope.

Lemma series_buffer_keeps_last_cap_witness :
  exists buf,
    run_pushes (with_history_len config 2)
      [ mkPush "g" "spread" (Some (1 # 2)) (Some (-7 # 2)%Q) "t1";
        mkPush "g" "total" (Some (1 # 2)) (Some (91 # 2)) "t1";
        mkPush "g" "spread" (Some (11 # 21)) (Some (-7 # 2)%Q) "t2";
        mkPush "g" "spread" (Some (4 # 7)) (Some (-4 # 1)%Q) "t3" ] ∅
    !! "g|spread" = Some buf /\
    Z.of_nat (length buf) = 2%Z /\
    forall i : nat, (i < 2)%nat ->
      buf !! i
      = [ mkPoint (1 # 2) (Some (-7 # 2)%Q) "t1";
          mkPoint (11 # 21) (Some (-7 # 2)%Q) "t2";
          mkPoint (4 # 7) (Some (-4 # 1)%Q) "t3" ] !! (1 + i)%nat.
Proof.
  apply (series_buffer_keeps_last_cap (with_history_len config 2)).
  - reflexivity.
  - vm_compute. reflexivity.
Defined.

(** C4 as stated fails for the cap 0: [buf[-0:]] is the whole list, so one
    append leaves one point in the buffer, not zero. *)
Lemma series_buffer_cap_zero_keeps_the_point :
  (default_history_len (with_history_len config 0)
   < Z.of_nat (length (appended "g|spread"
                         [mkPush "g" "spread" (Some (1 # 2)) None "t1"])))%Z /\
  run_pushes (with_history_len config 0)
    [mkPush "g" "spread" (Some (1 # 2)) None "t1"] ∅ !! "g|spread"
  = Some [mkPoint (1 # 2) None "t1"] /\
  ~ (exists buf,
       run_pushes (with_history_len config 0)
         [mkPush "g" "spread" (Some (1 # 2)) None "t1"] ∅ !! "g|spread" = Some buf /\
       Z.of_nat (length buf) = default_history_len (with_history_len config 0)).
Proof.
  assert (E : run_pushes (with_history_len config 0)
                [mkPush "g" "spread" (Some (1 # 2)) None "t1"] ∅ !! "g|spread"
              = Some [mkPoint (1 # 2) None "t1"]) by (vm_compute; reflexivity).
  split; [vm_compute; reflexivity|]. split; [exact E|].
  intros (buf & Hbuf & Hlen). rewrite E in Hbuf. injection Hbuf as <-.
  cbn in Hlen. discriminate.
Qed.

End SeriesBufferExamples.

(** ** Indicators *)

Section Indicators.

Import Py TaEngine.
Local Open Scope Q_scope.

Lemma qsum_nonneg (l : list Q) : Forall (fun x => 0 <= x) l -> 0 <= qsum l.
Proof.
  induction 1 as [|x l Hx _ IH]; cbn; [apply Qle_refl|].
  change 0 with (0 + 0). apply Qplus_le_compat; assumption.
Qed.

(** The mean of values that are not negative is not negative. *)
Lemma np_mean_nonneg (l : list Q) : Forall (fun x => 0 <= x) l -> 0 <= np_mean l.
Proof.
  intros Hl. unfold np_mean, Qdiv. apply Qmult_le_0_compat.
  - apply qsum_nonneg, Hl.
  - apply Qinv_le_0_compat. change 0 with (inject_Z 0).
    rewrite <- Zle_Qle. lia.
Qed.

Lemma gains_nonneg (deltas : list Q) : Forall (fun x => 0 <= x) (gains_of deltas).
Proof.
  unfold gains_of. apply Forall_fmap, Forall_forall. intros d _. cbn.
  destruct (Qlt_le_dec 0 d); [apply Qlt_le_weak; assumption | apply Qle_refl].
Qed.

Lemma losses_nonneg (deltas : list Q) : Forall (fun x => 0 <= x) (losses_of deltas).
Proof.
  unfold losses_of. apply Forall_fmap, Forall_forall. intros d _. cbn.
  destruct (Qlt_le_dec d 0); [lra | apply Qle_refl].
Qed.

(** A slice [l[i:]] keeps a property of all elements. *)
Lemma Forall_slice_from {A} (P : A -> Prop) (l : list A) (i : Z) :
  Forall P l -> Forall P (slice_from l i).
Proof.
  intros H. unfold slice_from. destruct (i <? 0)%Z; apply Forall_drop, H.
Qed.

Lemma length_np_diff (l : list Q) : length (np_diff l) = (length l - 1)%nat.
Proof.
  induction l as [|a [|b l] IH]; [reflexivity | reflexivity |].
  change (np_diff (a :: b :: l)) with ((b - a) :: np_diff (b :: l)).
  cbn [length] in *. lia.
Qed.

(** With at least [period + 1] samples the two windows of [rsi_from_ips]
    hold exactly [period] deltas, so their means are proper averages. *)
Lemma rsi_window_length (values : list Q) (period : Z) :
  (1 <= period)%Z -> (period + 1 <= Z.of_nat (length values))%Z ->
  length (slice_from (gains_of (np_diff values)) (- period)) = Z.to_nat period /\
  length (slice_from (losses_of (np_diff values)) (- period)) = Z.to_nat period.
Proof.
  intros Hp Hlen. unfold slice_from, gains_of, losses_of.
  rewrite !length_fmap, !length_np_diff.
  destruct (Z.ltb_spec (- period) 0); [|lia].
  rewrite !length_drop, !length_fmap, !length_np_diff. lia.
Qed.

(** The value computed from two averages that are not negative. *)
Lemma rsi_value_range (avg_gain avg_loss : Q) :
  0 <= avg_gain -> 0 < avg_loss ->
  0 <= 100 - 100 / (1 + avg_gain / avg_loss) <= 100.
Proof.
  intros Hg Hl.
  assert (Hrs : 0 <= avg_gain / avg_loss).
  { apply Qle_shift_div_l; [exact Hl | lra]. }
  assert (Hd : 0 < 1 + avg_gain / avg_loss) by lra.
  assert (H1 : 100 / (1 + avg_gain / avg_loss) <= 100).
  { apply Qle_shift_div_r; [exact Hd | lra]. }
  assert (H0 : 0 <= 100 / (1 + avg_gain / avg_loss)).
  { apply Qle_shift_div_l; [exact Hd | lra]. }
  split; lra.
Qed.

(** For every period of at least 1: a value in [0, 100] with at least
    [period + 1] samples, null with fewer. *)
Lemma rsi_from_ips_spec (values : list Q) (period : Z) :
  (1 <= period)%Z ->
  ((period + 1 <= Z.of_nat (length values))%Z ->
     exists v, rsi_from_ips values period = Some v /\ 0 <= v <= 100) /\
  ((Z.of_nat (length values) < period + 1)%Z -> rsi_from_ips values period = None).
Proof.
  intros Hp. unfold rsi_from_ips.
  destruct (Z.ltb_spec (Z.of_nat (length values)) (period + 1)) as [Hlt|Hge].
  - split; [lia | reflexivity].
  - split; [intros _ | lia].
    set (avg_gain := np_mean (slice_from (gains_of (np_diff values)) (- period))).
    set (avg_loss := np_mean (slice_from (losses_of (np_diff values)) (- period))).
    assert (Hg : 0 <= avg_gain)
      by apply np_mean_nonneg, Forall_slice_from, gains_nonneg.
    assert (Hl : 0 <= avg_loss)
      by apply np_mean_nonneg, Forall_slice_from, losses_nonneg.
    destruct (Qeq_bool avg_loss 0) eqn:E.
    + eexists. split; [reflexivity|]. split; lra.
    + eexists. split; [reflexivity|]. apply rsi_value_range; [exact Hg|].
      apply Qeq_bool_neq in E. lra.
Qed.

(** C10: with the default period 14, at least 15 samples give a value in
    the closed interval [0, 100], fewer samples give null. *)
Theorem rsi_from_ips_range (values : list Q) :
  ((15 <= length values)%nat ->
     exists v, rsi_from_ips values 14 = Some v /\ 0 <= v <= 100) /\
  ((length values < 15)%nat -> rsi_from_ips values 14 = None).
Proof.
  destruct (rsi_from_ips_spec values 14 ltac:(lia)) as [Hge Hlt].
  split; intros H; [apply Hge | apply Hlt]; lia.
Qed.

Lemma rsi_from_ips_range_witness :
  (exists v,
     rsi_from_ips
       [1 # 2; 51 # 100; 52 # 100; 51 # 100; 53 # 100; 54 # 100; 53 # 100; 55 # 100;
        56 # 100; 55 # 100; 57 # 100; 58 # 100; 57 # 100; 59 # 100; 60 # 100] 14
     = Some v /\ 0 <= v <= 100) /\
  rsi_from_ips [1 # 2; 51 # 100; 52 # 100] 14 = None.
Proof.
  split.
  - apply (proj1 (rsi_from_ips_range _)). cbn. lia.
  - apply (proj2 (rsi_from_ips_range _)). cbn. lia.
Defined.

(** *** Adaptive moving average *)

Variable sqrt : Q -> Q.

(** C6, as amended: without samples the indicator is null; with at least
    one sample and fewer than the base period 10 it is the mean of all
    samples. *)
Theorem adaptive_ma_short_series (values : list Q) (max_period : Z) (sensitivity : Q) :
  (values = [] -> adaptive_ma sqrt values 10 max_period sensitivity = Return None) /\
  (values <> [] -> (length values < 10)%nat ->
     adaptive_ma sqrt values 10 max_period sensitivity
     = Return (Some (np_mean values))).
Proof.
  unfold adaptive_ma. split.
  - intros ->. reflexivity.
  - intros Hne Hlen. rewrite bool_decide_eq_false_2 by exact Hne.
    destruct (Z.ltb_spec (Z.of_nat (length values)) 10); [reflexivity | lia].
Qed.

End Indicators.

Section IndicatorExamples.

Import Py TaEngine.
Local Open Scope Q_scope.

Lemma adaptive_ma_short_series_witness :
  adaptive_ma (fun x => x) [] 10 30 2 = Return None /\
  adaptive_ma (fun x => x) [1 # 2; 3 # 5] 10 30 2 = Return (Some (np_mean [1 # 2; 3 # 5])).
Proof.
  split.
  - apply (proj1 (adaptive_ma_short_series (fun x => x) [] 30 2)). reflexivity.
  - apply (proj2 (adaptive_ma_short_series (fun x => x) [1 # 2; 3 # 5] 30 2)).
    + discriminate.
    + cbn. lia.
Defined.

(** C6 as stated fails on a single sample: the result is that sample, the
    mean of what is there, and not null. *)
Lemma adaptive_ma_single_sample :
  (exists v, adaptive_ma (fun x => x) [1 # 2] 10 30 2 = Return (Some v) /\ v == 1 # 2) /\
  ~ (forall (sqrt : Q -> Q) (values : list Q),
       (length values < 10)%nat -> adaptive_ma sqrt values 10 30 2 = Return None).
Proof.
  split.
  - eexists. split; [vm_compute; reflexivity | reflexivity].
  - intros H. specialize (H (fun x => x) [1 # 2] ltac:(cbn; lia)).
    vm_compute in H. discriminate.
Qed.

End IndicatorExamples.

(** ** Recommendations *)

Section RecommendationEngine.

Import Py Settings OddsParser Recommendations.
Local Open Scope string_scope.
Local Open Scope list_scope.
Local Open Scope Q_scope.

Lemma confidence_of_range (s : Q) : 5 # 100 <= confidence_of s <= 95 # 100.
Proof.
  unfold confidence_of.
  destruct (Qlt_le_dec (95 # 100) ((5 # 10) + s)) as [Hhi|Hhi].
  - destruct (Qlt_le_dec (95 # 100) (5 # 100)) as [H|H]; split; lra.
  - destruct (Qlt_le_dec ((5 # 10) + s) (5 # 100)) as [Hlo|Hlo]; split; lra.
Qed.

Lemma action_of_cases (c : Config) (x : Q) :
  action_of c x = "Back" \/ action_of c x = "Fade" \/ action_of c x = "Hold".
Proof.
  unfold action_of.
  destruct (Qle_bool _ x); [left; reflexivity|].
  destruct (Qle_bool x _); [right; left | right; right]; reflexivity.
Qed.

(** The stake of the source, [max(0.0, min(cap, x))], is the clamp of [x]
    to the interval from 0 to a cap that is not negative. *)
Lemma kelly_is_clamp (cap x : Q) :
  0 <= cap -> fmax 0 (fmin cap x) == clamp x 0 cap /\ 0 <= fmax 0 (fmin cap x) <= cap.
Proof.
  intros Hcap. unfold fmax, fmin, clamp.
  destruct (Qlt_le_dec x cap) as [H1|H1];
    destruct (Qlt_le_dec x 0) as [H2|H2];
    destruct (Qlt_le_dec cap x) as [H3|H3];
    try destruct (Qlt_le_dec 0 x) as [H4|H4];
    try destruct (Qlt_le_dec 0 cap) as [H5|H5];
    repeat split; lra.
Qed.

(** *** Spread momentum alone *)

Lemma forecasts_without_signal (t : Tally) (forecasts : Forecasts) :
  Forall (fun item => forall f, snd item = Some f -> qualifying_move f = None)
    forecasts ->
  foldl forecast_signal t forecasts = t.
Proof.
  intros H. revert t. induction H as [|[mk [f|]] rest Hf _ IH]; intros t.
  - reflexivity.
  - cbn [foldl forecast_signal]. rewrite (Hf f eq_refl). apply IH.
  - cbn [foldl forecast_signal]. apply IH.
Qed.

Lemma moneyline_without_signal (ta : IndicatorSets) (t : Tally) (side : string) :
  (forall i, present ta side = Some i -> nonzero (momentum_value i) = None) ->
  moneyline_signal ta t side = t.
Proof.
  intros H. unfold moneyline_signal.
  destruct (present ta side) as [i|]; [|reflexivity].
  rewrite (H i eq_refl). reflexivity.
Qed.

(** The term that a spread momentum of 0.01 adds to the score. *)
Lemma spread_momentum_term (v : Q) :
  v == 1 # 100 -> 0 + sign v * fmin (5 # 10) (Qabs v * 100) == 5 # 10.
Proof.
  intros Hv. unfold sign, fmin.
  assert (Habs : Qabs v == v) by (apply Qabs_pos; lra).
  destruct (Qlt_le_dec 0 v) as [Hp|Hp]; [|lra].
  destruct (Qlt_le_dec (Qabs v * 100) (5 # 10)) as [Hm|Hm]; lra.
Qed.

(** C7: a spread momentum of 0.01 with no steam, no moneyline momentum and
    no qualifying forecast gives the score 0.5, the confidence 0.95 after
    clamping, and the action Back. *)
Theorem spread_momentum_alone_backs (now : string) (game_row : GameRecord)
  (ta : IndicatorSets) (forecasts : Forecasts)
  (s : Indicators) (m : Momentum) (v : Q) :
  present ta "spread" = Some s ->
  momentum s = Some m ->
  MOM_V m = Some v ->
  v == 1 # 100 ->
  steam_detected s = None ->
  (forall i, present ta "away_ml" = Some i -> nonzero (momentum_value i) = None) ->
  (forall i, present ta "home_ml" = Some i -> nonzero (momentum_value i) = None) ->
  Forall (fun item => forall f, snd item = Some f -> qualifying_move f = None)
    forecasts ->
  let r := generate_recommendation config now game_row ta forecasts in
  score (tally ta forecasts) == 5 # 10 /\
  confidence r == 95 # 100 /\
  action r = "Back".
Proof.
  intros Hs Hm Hv Hval Hsteam Haway Hhome Hfc. cbn zeta.
  assert (Hscore : score (tally ta forecasts) == 5 # 10).
  { unfold tally. rewrite forecasts_without_signal by exact Hfc.
    cbn [foldl]. rewrite !moneyline_without_signal by assumption.
    unfold spread_signals. rewrite Hs. unfold momentum_value.
    rewrite Hm, Hv, Hsteam. cbn [score start].
    apply spread_momentum_term, Hval. }
  assert (Hconf : confidence_of (score (tally ta forecasts)) == 95 # 100).
  { unfold confidence_of.
    destruct (Qlt_le_dec (95 # 100) ((5 # 10) + score (tally ta forecasts)));
      [|lra].
    destruct (Qlt_le_dec (95 # 100) (5 # 100)); [lra | reflexivity]. }
  unfold generate_recommendation. cbn [confidence action].
  split; [exact Hscore|]. split; [exact Hconf|].
  unfold action_of.
  destruct (Qle_bool (strong_confidence_threshold config) _) eqn:E; [reflexivity|].
  exfalso. apply not_true_iff_false in E. apply E, Qle_bool_iff.
  rewrite Hconf. cbn. lra.
Qed.

Lemma spread_momentum_alone_backs_witness :
  let ta : IndicatorSets :=
    {[ "spread" := Some {| momentum := Some {| MOM_V := Some (1 # 100); MOM_A := None |};
                           steam_detection := None |} ]} in
  let r := generate_recommendation config "t"
             (FourLine (Rec4.mk "g" "d" "t" None None None None None None None None
                          None None None None "t")) ta [] in
  score (tally ta []) == 5 # 10 /\ confidence r == 95 # 100 /\ action r = "Back".
Proof.
  cbn zeta.
  eapply (spread_momentum_alone_backs "t" _ _ []
            {| momentum := Some {| MOM_V := Some (1 # 100); MOM_A := None |};
               steam_detection := None |}
            {| MOM_V := Some (1 # 100); MOM_A := None |} (1 # 100)).
  - vm_compute. reflexivity.
  - reflexivity.
  - reflexivity.
  - reflexivity.
  - reflexivity.
  - intros i H. vm_compute in H. discriminate.
  - intros i H. vm_compute in H. discriminate.
  - constructor.
Defined.

End RecommendationEngine.

(** ** Recommendations, with NaN *)

Section EngineWithNaN.

Import Settings OddsParser PyFloat FloatEngine.
Local Open Scope string_scope.
Local Open Scope list_scope.
Local Open Scope Q_scope.

(** On numbers the two clamps, the action and the stake are those of
    [Recommendations]. *)
Lemma confidence_of_num (s : Q) :
  confidence_of (num s) = num (Recommendations.confidence_of s).
Proof.
  unfold confidence_of, Recommendations.confidence_of. cbn [add lt].
  destruct (Qlt_le_dec (95 # 100) ((5 # 10) + s)); cbn [lt];
    destruct (Qlt_le_dec _ (5 # 100)); reflexivity.
Qed.

Lemma action_of_num (c : Config) (x : Q) :
  action_of c (num x) = Recommendations.action_of c x.
Proof. reflexivity. Qed.

Lemma stake_num (cap x : Q) :
  fmax (num 0) (fmin (num cap) (num x)) = num (Py.fmax 0 (Py.fmin cap x)).
Proof.
  unfold fmax, fmin, Py.fmax, Py.fmin. cbn [lt].
  destruct (Qlt_le_dec x cap); cbn [lt]; destruct (Qlt_le_dec 0 _); reflexivity.
Qed.

(** A NaN goes through both clamps, is neither backed nor faded, and
    leaves the cap as the stake. *)
Lemma confidence_of_nan_iff (s : float) : confidence_of s = nan <-> s = nan.
Proof.
  destruct s as [|s]; [split; reflexivity|].
  rewrite confidence_of_num. split; discriminate.
Qed.

Lemma action_of_nan (c : Config) : action_of c nan = "Hold".
Proof. reflexivity. Qed.

(** *** Which scores are NaN *)

Lemma is_nan_add (x y : float) : is_nan (add x y) = is_nan x || is_nan y.
Proof. destruct x, y; reflexivity. Qed.

Lemma is_nan_mul (x y : float) : is_nan (mul x y) = is_nan x || is_nan y.
Proof. destruct x, y; reflexivity. Qed.

Lemma is_nan_sign (x : float) : is_nan (sign x) = is_nan x.
Proof. destruct x; reflexivity. Qed.

Lemma is_nan_fmin_num (a : Q) (y : float) : is_nan (fmin (num a) y) = false.
Proof.
  unfold fmin. destruct y as [|y]; [reflexivity|].
  cbn [lt]. destruct (Qlt_le_dec y a); reflexivity.
Qed.

(** The term of a momentum is NaN exactly when the momentum is. *)
Lemma is_nan_momentum_term (cap factor : Q) (v : float) :
  is_nan (mul (sign v) (fmin (num cap) (mul (abs v) (num factor)))) = is_nan v.
Proof.
  rewrite is_nan_mul, is_nan_sign, is_nan_fmin_num. apply orb_false_r.
Qed.

Lemma present_numbers (ta : IndicatorSets) (name : string) (s : Indicators) :
  numbers_only ta -> present ta name = Some s -> holds_nan s = false.
Proof.
  intros Hta. unfold present.
  destruct (ta !! name) as [[s'|]|] eqn:E; try discriminate.
  intros [= <-]. exact (Hta name (Some s') E).
Qed.

Lemma momentum_value_number (s : Indicators) (v : float) :
  holds_nan s = false -> momentum_value s = Some v -> is_nan v = false.
Proof.
  unfold holds_nan, momentum_value. intros H Hv.
  apply orb_false_iff in H as [H _].
  destruct (momentum s) as [mom|].
  - rewrite Hv in H. exact H.
  - injection Hv as <-. reflexivity.
Qed.

Lemma steam_detected_number (s : Indicators) (sd : Steam.t) :
  holds_nan s = false -> steam_detected s = Some sd ->
  is_nan (Steam.confidence sd) = false.
Proof.
  unfold holds_nan, steam_detected. intros H Hsd.
  apply orb_false_iff in H as [_ H].
  destruct (steam_detection s) as [sd'|]; [|discriminate].
  destruct (Steam.steam sd'); [|discriminate].
  injection Hsd as <-. exact H.
Qed.

Lemma spread_signals_number (ta : IndicatorSets) (t : Tally) :
  numbers_only ta -> is_nan (score t) = false ->
  is_nan (score (spread_signals ta t)) = false.
Proof.
  intros Hta Ht. unfold spread_signals.
  destruct (present ta "spread") as [s|] eqn:Hs; [|exact Ht].
  pose proof (present_numbers ta _ s Hta Hs) as Hnum.
  set (t' := match momentum_value s with Some _ => _ | None => t end).
  assert (Ht' : is_nan (score t') = false).
  { subst t'. destruct (momentum_value s) as [v|] eqn:Hv; [|exact Ht].
    cbn [score]. rewrite is_nan_add, is_nan_momentum_term, Ht.
    apply (momentum_value_number s v Hnum Hv). }
  destruct (steam_detected s) as [sd|] eqn:Hsd; [|exact Ht'].
  cbn [score]. rewrite is_nan_add, is_nan_mul, Ht'.
  apply (steam_detected_number s sd Hnum Hsd).
Qed.

Lemma moneyline_signal_number (ta : IndicatorSets) (t : Tally) (side : string) :
  numbers_only ta -> is_nan (score t) = false ->
  is_nan (score (moneyline_signal ta t side)) = false.
Proof.
  intros Hta Ht. unfold moneyline_signal.
  destruct (present ta side) as [s|] eqn:Hs; [|exact Ht].
  pose proof (present_numbers ta _ s Hta Hs) as Hnum.
  unfold nonzero.
  destruct (momentum_value s) as [v|] eqn:Hv; [|exact Ht].
  destruct (truthy v); [|exact Ht].
  cbn [score]. rewrite is_nan_add, is_nan_momentum_term, Ht.
  apply (momentum_value_number s v Hnum Hv).
Qed.

(** A forecast never brings a NaN into the score: a NaN move or a NaN
    confidence fails the comparisons of line 48. *)
Lemma qualifying_move_number (f : Forecast.t) (pm : float) :
  qualifying_move f = Some pm -> is_nan pm = false.
Proof.
  unfold qualifying_move, nonzero. intros H.
  destruct (Forecast.projected_point_move f) as [[|v]|]; cbn [truthy] in H;
    try discriminate H.
  destruct (negb (Qeq_bool v 0)); [|discriminate H].
  destruct (lt (num (3 # 10)) (abs (num v))); [|discriminate H].
  destruct (lt (num (6 # 10)) (Forecast.confidence f)); [|discriminate H].
  injection H as <-. reflexivity.
Qed.

Lemma forecast_signals_number (forecasts : Forecasts) (t : Tally) :
  is_nan (score t) = false ->
  is_nan (score (foldl forecast_signal t forecasts)) = false.
Proof.
  revert t. induction forecasts as [|[mk [f|]] rest IH]; intros t Ht;
    cbn [foldl forecast_signal]; [exact Ht | | apply IH, Ht].
  apply IH. destruct (qualifying_move f) as [pm|] eqn:Hpm; [|exact Ht].
  cbn [score]. rewrite is_nan_add, is_nan_mul, is_nan_sign, Ht.
  apply (qualifying_move_number f pm Hpm).
Qed.

Lemma tally_number (ta : IndicatorSets) (forecasts : Forecasts) :
  numbers_only ta -> exists s, score (tally ta forecasts) = num s.
Proof.
  intros Hta.
  assert (H : is_nan (score (tally ta forecasts)) = false).
  { unfold tally. apply forecast_signals_number. cbn [foldl].
    apply moneyline_signal_number; [exact Hta|].
    apply moneyline_signal_number; [exact Hta|].
    apply spread_signals_number; [exact Hta | reflexivity]. }
  destruct (score (tally ta forecasts)) as [|s]; [discriminate | exists s; reflexivity].
Qed.

(** C5, as amended: when no indicator dict holds a NaN, the
    recommendation built with the default configuration has an action
    among Back, Fade and Hold, a confidence between 0.05 and 0.95, the
    expected value (confidence - 0.5) * 0.12, and a stake between 0 and
    0.20 that is the clamp of expected value / 0.05 to that interval.
    Forecasts need no hypothesis. *)
Theorem recommendation_bounds (now : string) (game_row : GameRecord)
  (ta : IndicatorSets) (forecasts : Forecasts) :
  numbers_only ta ->
  let r := generate_recommendation config now game_row ta forecasts in
  (action r = "Back" \/ action r = "Fade" \/ action r = "Hold") /\
  exists c ev k,
    confidence r = num c /\ expected_value r = num ev /\ kelly_stake r = num k /\
    5 # 100 <= c <= 95 # 100 /\
    ev == (c - (5 # 10)) * (12 # 100) /\
    0 <= k <= 20 # 100 /\
    k == Recommendations.clamp (ev / (5 # 100)) 0 (20 # 100).
Proof.
  intros Hta. cbn zeta. unfold generate_recommendation.
  cbn [action confidence expected_value kelly_stake].
  destruct (tally_number ta forecasts Hta) as [s ->].
  rewrite confidence_of_num, action_of_num. cbn [sub mul div].
  rewrite stake_num.
  split; [apply action_of_cases|].
  do 3 eexists. do 3 (split; [reflexivity|]).
  split; [apply confidence_of_range|].
  split; [reflexivity|].
  destruct (kelly_is_clamp (kelly_fraction_cap config)
              ((Recommendations.confidence_of s - (5 # 10)) * (12 # 100) / (5 # 100)))
    as [Hc Hr].
  { cbn. lra. }
  split; [exact Hr | exact Hc].
Qed.

Lemma recommendation_bounds_witness :
  let r := generate_recommendation config "t"
             (FourLine (Rec4.mk "g" "d" "t" None None None None None None None None
                          None None None None "t"))
             {[ "spread" := Some {| momentum := Some {| MOM_V := Some (num (1 # 100));
                                                        MOM_A := None |};
                                    steam_detection := None |} ]}
             [("spread", Some {| Forecast.projected_point_move := Some nan;
                                 Forecast.confidence := nan |})] in
  (action r = "Back" \/ action r = "Fade" \/ action r = "Hold") /\
  exists c ev k,
    confidence r = num c /\ expected_value r = num ev /\ kelly_stake r = num k /\
    5 # 100 <= c <= 95 # 100 /\
    ev == (c - (5 # 10)) * (12 # 100) /\
    0 <= k <= 20 # 100 /\
    k == Recommendations.clamp (ev / (5 # 100)) 0 (20 # 100).
Proof.
  apply recommendation_bounds. apply map_Forall_singleton. reflexivity.
Defined.

(** C5 as stated fails on a NaN in the spread momentum: the score is NaN,
    both clamps let it through, and the record holds a NaN confidence, a
    NaN expected value, the action Hold and the cap as the stake. *)
Lemma nan_momentum_passes_the_clamps :
  let r := generate_recommendation config "t"
             (FourLine (Rec4.mk "g" "d" "t" None None None None None None None None
                          None None None None "t"))
             {[ "spread" := Some {| momentum := Some {| MOM_V := Some nan;
                                                        MOM_A := None |};
                                    steam_detection := None |} ]} [] in
  (confidence r = nan /\ expected_value r = nan /\ action r = "Hold" /\
   kelly_stake r = num (20 # 100)) /\
  ~ (exists c, confidence r = num c /\ 5 # 100 <= c <= 95 # 100).
Proof.
  cbn zeta. split.
  - vm_compute. repeat split.
  - intros (c & Hc & _). vm_compute in Hc. discriminate Hc.
Qed.

End EngineWithNaN.

(** ** Stakes *)

Section StakesWithNaN.

Import Settings OddsParser PyFloat FloatEngine.
Local Open Scope string_scope.
Local Open Scope list_scope.
Local Open Scope Q_scope.

(** Expected value and stake of a confidence that is a number. *)
Lemma stake_of_confidence (x : Q) :
  5 # 100 <= x <= 95 # 100 ->
  let ev := (x - (5 # 10)) * (12 # 100) in
  let k := Py.fmax 0 (Py.fmin (20 # 100) (ev / (5 # 100))) in
  - (54 # 1000) <= ev <= 54 # 1000 /\
  (k == 0 <-> x <= 5 # 10) /\
  (80 # 100 <= x -> k == 20 # 100).
Proof.
  intros Hx. cbn zeta.
  assert (Hev : (x - (5 # 10)) * (12 # 100) / (5 # 100) == (x - (5 # 10)) * (12 # 5))
    by field.
  unfold Py.fmax, Py.fmin.
  split; [split; lra|].
  destruct (Qlt_le_dec _ (20 # 100)) as [H1|H1];
    [destruct (Qlt_le_dec 0 _) as [H2|H2] | destruct (Qlt_le_dec 0 (20 # 100)) as [H2|H2]];
    rewrite ?Hev in *; (split; [split|]); intros H; lra.
Qed.

(** X25: with the default configuration the stake is always a number
    between 0 and 0.20.  A NaN confidence comes with a NaN expected value,
    the action Hold and the whole cap 0.20 as the stake.  A confidence that
    is a number has an expected value between -0.054 and 0.054; the stake
    is then 0 exactly when the confidence is at most 0.5, a Back stakes the
    cap 0.20 and a Fade stakes nothing. *)
Theorem stake_follows_action (now : string) (game_row : GameRecord)
  (ta : IndicatorSets) (forecasts : Forecasts) :
  let r := generate_recommendation config now game_row ta forecasts in
  (exists k, kelly_stake r = num k /\ 0 <= k <= 20 # 100) /\
  (confidence r = nan ->
   expected_value r = nan /\ action r = "Hold" /\ kelly_stake r = num (20 # 100)) /\
  (forall c, confidence r = num c ->
   exists ev k,
     expected_value r = num ev /\ kelly_stake r = num k /\
     - (54 # 1000) <= ev <= 54 # 1000 /\
     (k == 0 <-> c <= 5 # 10) /\
     (action r = "Back" -> k == 20 # 100) /\
     (action r = "Fade" -> k == 0)).
Proof.
  cbn zeta. unfold generate_recommendation.
  cbn [action confidence expected_value kelly_stake].
  destruct (score (tally ta forecasts)) as [|s].
  - split; [exists (20 # 100); split; [reflexivity | split; discriminate]|].
    split; [intros _; repeat split|].
    intros c Hc. discriminate Hc.
  - rewrite confidence_of_num, action_of_num. cbn [sub mul div]. rewrite stake_num.
    set (x := Recommendations.confidence_of s).
    pose proof (confidence_of_range s) as Hx. fold x in Hx.
    destruct (stake_of_confidence x Hx) as (Hev & Hzero & Hback).
    change (kelly_fraction_cap config) with (20 # 100).
    split; [|split].
    + eexists. split; [reflexivity|].
      apply (kelly_is_clamp (20 # 100)). lra.
    + intros Hn. discriminate Hn.
    + intros c [= <-]. do 2 eexists. do 2 (split; [reflexivity|]).
      split; [exact Hev|]. split; [exact Hzero|].
      unfold Recommendations.action_of. split.
      * destruct (Qle_bool (strong_confidence_threshold config) x) eqn:E.
        -- intros _. apply Hback. apply Qle_bool_iff in E. exact E.
        -- destruct (Qle_bool x _); discriminate.
      * destruct (Qle_bool (strong_confidence_threshold config) x); [discriminate|].
        destruct (Qle_bool x (min_confidence_for_action config - (1 # 10))) eqn:E2;
          [|discriminate].
        intros _. apply Hzero. apply Qle_bool_iff in E2. cbn in E2. lra.
Qed.

End StakesWithNaN.

(** * Further properties of the odds helpers *)

Section OddsHelpers.

Import Py OddsParser.
Local Open Scope Q_scope.

(** Which side of one half a raw probability falls on. *)
Lemma raw_probability_halves (z : Z) :
  exists r,
    _american_to_prob_raw (Some z) = Some r /\
    ((100 <= z)%Z -> r <= 1 # 2) /\
    ((z <= -100)%Z -> 1 # 2 <= r).
Proof.
  unfold _american_to_prob_raw. destruct (Z.ltb_spec 0 z) as [Hz|Hz].
  - eexists. split; [reflexivity|].
    assert (Hq : 0 < inject_Z z) by (apply inject_Z_pos, Hz).
    assert (Hd : 0 < inject_Z z + 100) by lra.
    split; [|intros H; lia].
    intros H. apply Qle_shift_div_r; [exact Hd|].
    assert (inject_Z 100 <= inject_Z z) by (rewrite <- Zle_Qle; exact H).
    change (inject_Z 100) with 100 in *. lra.
  - eexists. split; [reflexivity|].
    assert (Hn : 0 <= inject_Z (- z)) by (apply inject_Z_nonneg; lia).
    assert (Hd : 0 < inject_Z (- z) + 100) by lra.
    split; [intros H; lia|].
    intros H. apply Qle_shift_div_l; [exact Hd|].
    assert (inject_Z 100 <= inject_Z (- z)) by (rewrite <- Zle_Qle; lia).
    change (inject_Z 100) with 100 in *. lra.
Qed.

(** X1: the raw implied probability of any odds lies between 0 and 1; odds
    of +100 or more give at most one half, odds of -100 or less at least
    one half. *)
Theorem american_to_prob_raw_bounds (z : Z) :
  exists r,
    _american_to_prob_raw (Some z) = Some r /\
    0 <= r <= 1 /\
    ((100 <= z)%Z -> r <= 1 # 2) /\
    ((z <= -100)%Z -> 1 # 2 <= r).
Proof.
  unfold _american_to_prob_raw. destruct (Z.ltb_spec 0 z) as [Hz|Hz].
  - eexists. split; [reflexivity|].
    assert (Hq : 0 < inject_Z z) by (apply inject_Z_pos, Hz).
    assert (Hd : 0 < inject_Z z + 100) by lra.
    repeat split.
    + apply Qle_shift_div_l; [exact Hd | lra].
    + apply Qle_shift_div_r; [exact Hd | lra].
    + intros H. apply Qle_shift_div_r; [exact Hd|].
      assert (inject_Z 100 <= inject_Z z) by (rewrite <- Zle_Qle; exact H).
      change (inject_Z 100) with 100 in *. lra.
    + intros H. lia.
  - eexists. split; [reflexivity|].
    assert (Hn : 0 <= inject_Z (- z)) by (apply inject_Z_nonneg; lia).
    assert (Hd : 0 < inject_Z (- z) + 100) by lra.
    repeat split.
    + apply Qle_shift_div_l; [exact Hd | lra].
    + apply Qle_shift_div_r; [exact Hd | lra].
    + intros H. lia.
    + intros H. apply Qle_shift_div_l; [exact Hd|].
      assert (inject_Z 100 <= inject_Z (- z)) by (rewrite <- Zle_Qle; lia).
      change (inject_Z 100) with 100 in *. lra.
Qed.

Lemma american_to_prob_raw_bounds_witness :
  exists r,
    _american_to_prob_raw (Some (-150)%Z) = Some r /\ 0 <= r <= 1 /\ 1 # 2 <= r.
Proof.
  destruct (american_to_prob_raw_bounds (-150)%Z) as (r & Hr & Hrange & _ & Hfav).
  exists r. split; [exact Hr|]. split; [exact Hrange|]. apply Hfav. lia.
Defined.

(** X2: the opposite vig is its own inverse, and a vig with its opposite
    is always normalised: both sides get a probability that is not
    negative, and the two sum to 1. *)
Theorem opposite_vig_pair_normalised (vig : Z) :
  _calc_opposite_vig (_calc_opposite_vig (Some vig)) = Some vig /\
  exists p q,
    _normalize_two_way (Some vig) (_calc_opposite_vig (Some vig)) = (Some p, Some q) /\
    0 <= p /\ 0 <= q /\ p + q == 1.
Proof.
  split.
  - cbn. f_equal. lia.
  - cbn [_calc_opposite_vig].
    destruct (normalize_both_present vig (-220 - vig)%Z ltac:(lia))
      as (ra & rb & Ea & Eb & Hpos & ->).
    destruct (american_to_prob_raw_range vig) as (ra' & Ea' & Ha & _).
    destruct (american_to_prob_raw_range (-220 - vig)%Z) as (rb' & Eb' & Hb & _).
    rewrite Ea in Ea'. rewrite Eb in Eb'.
    injection Ea' as <-. injection Eb' as <-.
    do 2 eexists. split; [reflexivity|].
    rewrite !float_or_zero. repeat split.
    + apply Qle_shift_div_l; [exact Hpos | lra].
    + apply Qle_shift_div_l; [exact Hpos | lra].
    + field. lra.
Qed.

(** X3: two present odds, not both 0: each normalised probability lies
    between 0 and 1, and exchanging the sides exchanges the results. *)
Theorem normalize_two_way_range_and_swap (a b : Z) :
  a <> 0%Z \/ b <> 0%Z ->
  exists p q p' q',
    _normalize_two_way (Some a) (Some b) = (Some p, Some q) /\
    _normalize_two_way (Some b) (Some a) = (Some p', Some q') /\
    0 <= p <= 1 /\ 0 <= q <= 1 /\ p' == q /\ q' == p.
Proof.
  intros Hab.
  destruct (normalize_both_present a b Hab) as (ra & rb & Ea & Eb & Hpos & ->).
  destruct (normalize_both_present b a ltac:(tauto)) as (rb' & ra' & Eb' & Ea' & _ & ->).
  rewrite Ea in Ea'. rewrite Eb in Eb'. injection Ea' as <-. injection Eb' as <-.
  destruct (american_to_prob_raw_range a) as (ra' & Ea' & Ha & _).
  destruct (american_to_prob_raw_range b) as (rb' & Eb' & Hb & _).
  rewrite Ea in Ea'. rewrite Eb in Eb'. injection Ea' as <-. injection Eb' as <-.
  do 4 eexists. split; [reflexivity|]. split; [reflexivity|].
  rewrite !float_or_zero.
  assert (H1 : 0 <= ra / (ra + rb)) by (apply Qle_shift_div_l; [exact Hpos | lra]).
  assert (H2 : ra / (ra + rb) <= 1) by (apply Qle_shift_div_r; [exact Hpos | lra]).
  assert (H3 : 0 <= rb / (ra + rb)) by (apply Qle_shift_div_l; [exact Hpos | lra]).
  assert (H4 : rb / (ra + rb) <= 1) by (apply Qle_shift_div_r; [exact Hpos | lra]).
  repeat split; try assumption; field; lra.
Qed.

Lemma normalize_two_way_range_and_swap_witness :
  exists p q p' q',
    _normalize_two_way (Some (-150)%Z) (Some 130%Z) = (Some p, Some q) /\
    _normalize_two_way (Some 130%Z) (Some (-150)%Z) = (Some p', Some q') /\
    0 <= p <= 1 /\ 0 <= q <= 1 /\ p' == q /\ q' == p.
Proof. apply (normalize_two_way_range_and_swap (-150)%Z 130%Z). left. lia. Defined.

(** X4: a side priced at -100 or less against a side priced at +100 or
    more gets at least one half after normalisation, the other side at
    most one half. *)
Theorem normalize_two_way_favourite (a b : Z) :
  (a <= -100)%Z -> (100 <= b)%Z ->
  exists p q,
    _normalize_two_way (Some a) (Some b) = (Some p, Some q) /\
    q <= 1 # 2 /\ 1 # 2 <= p.
Proof.
  intros Ha Hb.
  destruct (normalize_both_present a b ltac:(lia)) as (ra & rb & Ea & Eb & Hpos & ->).
  destruct (raw_probability_halves a) as (ra' & Ea' & _ & Hfav).
  destruct (raw_probability_halves b) as (rb' & Eb' & Hdog & _).
  rewrite Ea in Ea'. rewrite Eb in Eb'. injection Ea' as <-. injection Eb' as <-.
  specialize (Hfav Ha). specialize (Hdog Hb).
  do 2 eexists. split; [reflexivity|]. rewrite !float_or_zero. split.
  - apply Qle_shift_div_r; [exact Hpos | lra].
  - apply Qle_shift_div_l; [exact Hpos | lra].
Qed.

Lemma normalize_two_way_favourite_witness :
  exists p q,
    _normalize_two_way (Some (-150)%Z) (Some 130%Z) = (Some p, Some q) /\
    q <= 1 # 2 /\ 1 # 2 <= p.
Proof. apply (normalize_two_way_favourite (-150)%Z 130%Z); lia. Defined.

End OddsHelpers.

(** * Further properties of feed parsing *)

Section FeedModes.

Import Py PyStr Settings OddsParser.
Local Open Scope string_scope.
Local Open Scope list_scope.

Lemma expected_size_returns (c : Config) (mode : string) (cur : list string) :
  exists e, expected_size c mode cur = Return e.
Proof.
  unfold expected_size, and_attr.
  destruct (String.eqb mode "5line"); [eexists; reflexivity|].
  destruct (String.eqb mode "4line"); [eexists; reflexivity|].
  rewrite getattr_parse_5_line_blocks, getattr_parse_4_line_blocks.
  destruct (5 <=? length cur)%nat, (4 <=? length cur)%nat,
    (parse_5_line_blocks c), (parse_4_line_blocks c); eexists; reflexivity.
Qed.

(** Grouping never raises and only adds blocks after those it was given. *)
Lemma group_lines_returns (c : Config) (mode : string) (lines : list string) :
  forall cur blocks, exists cur' more,
    group_lines c mode lines cur blocks = Return (cur', blocks ++ more).
Proof.
  induction lines as [|ln lines IH]; intros cur blocks.
  - exists cur, []. cbn. rewrite app_nil_r. reflexivity.
  - cbn [group_lines].
    destruct (expected_size_returns c mode (cur ++ [ln])) as [e ->].
    cbn [mbind result_bind].
    destruct e as [e|]; [destruct (negb (e =? 0)%nat && (length (cur ++ [ln]) =? e)%nat)|].
    + destruct (IH [] (blocks ++ [cur ++ [ln]])) as (cur' & more & ->).
      exists cur', ((cur ++ [ln]) :: more). rewrite <- app_assoc. reflexivity.
    + apply IH.
    + apply IH.
Qed.

(** Blocks of five lines, cut from the front of the lines in 5line mode. *)
Lemma group_lines_5line_blocks (c : Config) (k : nat) :
  forall full : list string,
    length full = (5 * k)%nat ->
    exists bs,
      length bs = k /\ Forall (fun b => length b = 5%nat) bs /\
      forall tail blocks,
        group_lines c "5line" (full ++ tail) [] blocks
        = group_lines c "5line" tail [] (blocks ++ bs).
Proof.
  induction k as [|k IH]; intros full Hlen.
  - destruct full; [|discriminate]. exists []. repeat split; [constructor|].
    intros tail blocks. rewrite app_nil_r. reflexivity.
  - assert (H5 : length (take 5 full) = 5%nat) by (rewrite length_take; lia).
    assert (Hk : length (drop 5 full) = (5 * k)%nat) by (rewrite length_drop; lia).
    destruct (IH (drop 5 full) Hk) as (bs & Hbs & Hall & Hgroup).
    exists (take 5 full :: bs). repeat split.
    + cbn. lia.
    + constructor; assumption.
    + intros tail blocks. rewrite <- (take_drop 5 full) at 1.
      rewrite <- app_assoc, group_lines_5line_block by exact H5.
      rewrite Hgroup, <- app_assoc. reflexivity.
Qed.

Lemma map_blocks_app (c : Config) (now : string) (bs1 bs2 : list (list string)) :
  forall parsed,
    map_blocks c now (bs1 ++ bs2) parsed
    = match map_blocks c now bs1 parsed with
      | (parsed', None) => map_blocks c now bs2 parsed'
      | (parsed', Some e) => (parsed', Some e)
      end.
Proof.
  induction bs1 as [|b bs1 IH]; intros parsed; [reflexivity|].
  cbn [app map_blocks]. destruct (map_block c now b) as [[p|]|e]; auto.
Qed.

(** Blocks without a block of four lines are mapped to at most one row each. *)
Lemma map_blocks_without_four (c : Config) (now : string) (blocks : list (list string)) :
  Forall (fun b => length b <> 4%nat) blocks ->
  forall parsed, exists rows,
    map_blocks c now blocks parsed = (parsed ++ rows, None) /\
    (length rows <= length blocks)%nat.
Proof.
  induction 1 as [|b blocks Hb _ IH]; intros parsed.
  - exists []. rewrite app_nil_r. split; [reflexivity | cbn; lia].
  - cbn [map_blocks].
    destruct (map_block_other_sizes_return c now b Hb) as [[p|] ->].
    + destruct (IH (parsed ++ [p])) as (rows & -> & Hlen).
      exists (p :: rows). rewrite <- app_assoc. split; [reflexivity | cbn; lia].
    + destruct (IH parsed) as (rows & -> & Hlen).
      exists rows. split; [reflexivity | cbn; lia].
Qed.

Lemma parse_lines_after_header (self : Parser) (now hdr : string)
  (body : list string) (mode : string) :
  ignore_header_rows (cfg self) = true ->
  parse_lines self now (hdr :: body) mode
  = match group_lines (cfg self) mode body [] [] with
    | Raise e => (self, Raise e)
    | Return (cur, blocks) =>
        let '(parsed, exc) := map_blocks (cfg self) now (flush_last cur blocks) [] in
        ({| cfg := cfg self; parsed_data := parsed_data self ++ parsed |},
         match exc with
         | Some e => Raise e
         | None => Return parsed
         end)
    end.
Proof.
  intros Hh. unfold parse_lines, attr_and.
  rewrite bool_decide_eq_false_2 by discriminate.
  change (getattr (cfg self) "ignore_header_rows")
    with (@Return Value (VBool (ignore_header_rows (cfg self)))).
  rewrite Hh. reflexivity.
Qed.

(** X5: in 5line mode, under a header, the call raises exactly when the
    number of lines after the header leaves a remainder of 4 modulo 5 (the
    last four lines then form a block); otherwise it returns at most one
    row per full block of five and records the same rows in
    [parsed_data]. *)
Theorem parse_lines_5line_outcome (self : Parser) (now hdr : string)
  (body : list string) :
  ignore_header_rows (cfg self) = true ->
  ((length body mod 5 = 4)%nat ->
     snd (parse_lines self now (hdr :: body) "5line")
     = Raise (AttributeError "parse_4line_blocks")) /\
  ((length body mod 5 <> 4)%nat ->
     exists rows,
       snd (parse_lines self now (hdr :: body) "5line") = Return rows /\
       (length rows <= length body / 5)%nat /\
       parsed_data (fst (parse_lines self now (hdr :: body) "5line"))
       = parsed_data self ++ rows).
Proof.
  intros Hh. rewrite parse_lines_after_header by exact Hh.
  pose proof (Nat.div_mod_eq (length body) 5) as Hdm.
  pose proof (Nat.mod_upper_bound (length body) 5 ltac:(lia)) as Hr.
  set (k := (length body / 5)%nat) in *. set (r := (length body mod 5)%nat) in *.
  clearbody k r.
  set (full := take (5 * k)%nat body). set (extra := drop (5 * k)%nat body).
  assert (Hfull : length full = (5 * k)%nat) by (unfold full; rewrite length_take; lia).
  assert (Hextra : length extra = r)
    by (unfold extra; rewrite length_drop; lia).
  destruct (group_lines_5line_blocks (cfg self) k full Hfull) as (bs & Hbs & Hall & Hg).
  rewrite <- (take_drop (5 * k)%nat body). fold full extra.
  rewrite Hg, group_lines_5line_short by (rewrite Hextra; cbn [length]; lia).
  cbn [app].
  assert (Hno4 : Forall (fun b : list string => length b <> 4%nat) bs).
  { eapply Forall_impl; [exact Hall|]. cbn. intros b Hb. lia. }
  split; intros Hmod.
  - assert (Hfl : flush_last extra bs = bs ++ [extra]).
    { unfold flush_last. rewrite bool_decide_eq_false_2
        by (intros E; rewrite E in Hextra; cbn in Hextra; lia).
      replace (length extra =? 4)%nat with true
        by (symmetry; apply Nat.eqb_eq; lia). reflexivity. }
    rewrite Hfl, map_blocks_app.
    destruct (map_blocks_without_four (cfg self) now bs Hno4 []) as (rows & -> & _).
    cbn [map_blocks]. rewrite map_block_four_lines_raises by lia. reflexivity.
  - assert (Hfl : flush_last extra bs = bs).
    { unfold flush_last.
      replace (length extra =? 4)%nat with false
        by (symmetry; apply Nat.eqb_neq; lia).
      replace (length extra =? 5)%nat with false
        by (symmetry; apply Nat.eqb_neq; lia).
      rewrite andb_false_r. reflexivity. }
    rewrite Hfl.
    destruct (map_blocks_without_four (cfg self) now bs Hno4 []) as (rows & -> & Hlen).
    exists rows. cbn. repeat split. lia.
Qed.

Lemma parse_lines_5line_outcome_witness :
  snd (parse_lines new_parser "t" ("header" :: ["a"; "b"; "c"; "d"]) "5line")
  = Raise (AttributeError "parse_4line_blocks") /\
  exists rows,
    snd (parse_lines new_parser "t" ("header" :: ["a"; "b"; "c"]) "5line")
    = Return rows /\
    (length rows <= 0)%nat.
Proof.
  split.
  - apply (parse_lines_5line_outcome new_parser "t" "header" ["a"; "b"; "c"; "d"]);
      reflexivity.
  - destruct (parse_lines_5line_outcome new_parser "t" "header" ["a"; "b"; "c"])
      as [_ Hrest]; [reflexivity|].
    destruct Hrest as (rows & Hrows & Hlen & _); [cbn; lia|].
    exists rows. split; [exact Hrows | exact Hlen].
Defined.

End FeedModes.

Section FourLineModes.

Import Py PyStr Settings OddsParser.
Local Open Scope string_scope.
Local Open Scope list_scope.

Variable c : Config.
Variable mode : string.

(** The modes in which a group of four lines is flushed: 4line, and any
    mode other than 5line while the 4-line grammar is enabled. *)
Hypothesis four_line_mode :
  mode = "4line" \/ (mode <> "5line" /\ parse_4_line_blocks c = true).

Lemma expected_size_below_four (cur : list string) :
  (length cur < 4)%nat ->
  expected_size c mode cur = Return (Some 4%nat) \/ expected_size c mode cur = Return None.
Proof.
  intros Hlen. unfold expected_size, and_attr.
  destruct four_line_mode as [-> | [Hne Hp4]]; [left; reflexivity|].
  apply String.eqb_neq in Hne. rewrite Hne.
  destruct (String.eqb mode "4line"); [left; reflexivity|].
  replace (5 <=? length cur)%nat with false by (symmetry; apply Nat.leb_gt; lia).
  replace (4 <=? length cur)%nat with false by (symmetry; apply Nat.leb_gt; lia).
  right. reflexivity.
Qed.

Lemma expected_size_at_four (cur : list string) :
  length cur = 4%nat -> expected_size c mode cur = Return (Some 4%nat).
Proof.
  intros Hlen. unfold expected_size, and_attr.
  destruct four_line_mode as [-> | [Hne Hp4]]; [reflexivity|].
  apply String.eqb_neq in Hne. rewrite Hne.
  destruct (String.eqb mode "4line"); [reflexivity|].
  rewrite Hlen. cbn [Nat.leb].
  rewrite getattr_parse_4_line_blocks, Hp4. reflexivity.
Qed.

Lemma group_lines_below_four (extra cur : list string) (blocks : list (list string)) :
  (length cur + length extra < 4)%nat ->
  group_lines c mode extra cur blocks = Return (cur ++ extra, blocks).
Proof.
  revert cur. induction extra as [|ln extra IH]; intros cur Hlen.
  - cbn. rewrite app_nil_r. reflexivity.
  - cbn [group_lines]. cbn [length] in Hlen.
    assert (Hcur : (length (cur ++ [ln]) < 4)%nat) by (rewrite length_app; cbn; lia).
    assert (Hnext : group_lines c mode extra (cur ++ [ln]) blocks
                    = Return (cur ++ ln :: extra, blocks)).
    { rewrite IH by (rewrite length_app; cbn; lia). rewrite <- app_assoc. reflexivity. }
    destruct (expected_size_below_four _ Hcur) as [-> | ->]; cbn [mbind result_bind].
    + replace (length (cur ++ [ln]) =? 4)%nat with false
        by (symmetry; apply Nat.eqb_neq; lia).
      cbn. exact Hnext.
    + exact Hnext.
Qed.

Lemma group_lines_first_four (b rest : list string) (blocks : list (list string)) :
  length b = 4%nat ->
  group_lines c mode (b ++ rest) [] blocks = group_lines c mode rest [] (blocks ++ [b]).
Proof.
  intros Hb.
  rewrite <- (take_drop 3 b), <- app_assoc.
  assert (H3 : length (take 3 b) = 3%nat) by (rewrite length_take; lia).
  destruct (drop 3 b) as [|l4 [|l5 tl]] eqn:Ed;
    [ apply (f_equal length) in Ed; rewrite length_drop in Ed; cbn in Ed; lia
    | | apply (f_equal length) in Ed; rewrite length_drop in Ed; cbn in Ed; lia ].
  destruct (take 3 b) as [|l1 [|l2 [|l3 [|l tl]]]]; try discriminate H3.
  cbn [app group_lines].
  repeat match goal with
  | |- context [expected_size c mode ?cur] =>
      first
        [ rewrite (expected_size_at_four cur) by reflexivity
        | destruct (expected_size_below_four cur ltac:(cbn; lia)) as [-> | ->] ];
      cbn [mbind result_bind length Nat.eqb negb andb app]
  end; reflexivity.
Qed.

(** X6: in 4line mode, and in any mode but 5line while the 4-line grammar
    is enabled (the default auto mode), no row is ever returned: with
    fewer than four lines after the header the result is empty, with four
    or more the call raises on its first block; [parsed_data] is left as
    it was. *)
Theorem parse_lines_four_line_modes (self : Parser) (now hdr : string)
  (body : list string) :
  cfg self = c ->
  ignore_header_rows c = true ->
  ((length body < 4)%nat ->
     snd (parse_lines self now (hdr :: body) mode) = Return []) /\
  ((4 <= length body)%nat ->
     snd (parse_lines self now (hdr :: body) mode)
     = Raise (AttributeError "parse_4line_blocks")) /\
  parsed_data (fst (parse_lines self now (hdr :: body) mode)) = parsed_data self.
Proof.
  intros Hc Hh. rewrite parse_lines_after_header by (rewrite Hc; exact Hh).
  rewrite Hc.
  destruct (Nat.lt_ge_cases (length body) 4) as [Hlt|Hge].
  - rewrite group_lines_below_four by (cbn; lia). cbn [app].
    rewrite flush_last_short by exact Hlt. cbn.
    rewrite app_nil_r. repeat split; [lia].
  - rewrite <- (take_drop 4 body).
    rewrite group_lines_first_four by (rewrite length_take; lia).
    destruct (group_lines_returns c mode (drop 4 body) [] ([] ++ [take 4 body]))
      as (cur & more & ->).
    cbn [app].
    assert (Hfl : exists more', flush_last cur (take 4 body :: more)
                                = take 4 body :: more').
    { unfold flush_last. destruct (_ && _); [|eexists; reflexivity].
      exists (more ++ [cur]). reflexivity. }
    destruct Hfl as [more' ->]. cbn [map_blocks].
    rewrite map_block_four_lines_raises by (rewrite length_take; lia).
    cbn. rewrite app_nil_r. repeat split.
    rewrite length_app, length_take, length_drop. lia.
Qed.

End FourLineModes.

Section FourLineModesExample.

Import Py PyStr Settings OddsParser.
Local Open Scope string_scope.
Local Open Scope list_scope.

Lemma parse_lines_four_line_modes_witness :
  snd (parse_lines new_parser "t" ("header" :: ["a"; "b"; "c"]) "auto") = Return [] /\
  snd (parse_lines new_parser "t" ("header" :: ["a"; "b"; "c"; "d"; "e"]) "auto")
  = Raise (AttributeError "parse_4line_blocks").
Proof.
  assert (Hmode : "auto" = "4line" \/ "auto" <> "5line" /\ parse_4_line_blocks config = true).
  { right. split; [discriminate | reflexivity]. }
  split.
  - destruct (parse_lines_four_line_modes config "auto" Hmode new_parser "t" "header"
                ["a"; "b"; "c"]) as (Hshort & _); [reflexivity | reflexivity|].
    apply Hshort. cbn. lia.
  - destruct (parse_lines_four_line_modes config "auto" Hmode new_parser "t" "header"
                ["a"; "b"; "c"; "d"; "e"]) as (_ & Hlong & _); [reflexivity | reflexivity|].
    apply Hlong. cbn. lia.
Defined.

End FourLineModesExample.

(** * Tokens: what parses, and what parses back *)

Section Tokens.

Import Py PyStr OddsParser.
Local Open Scope string_scope.

Lemma space_is_no_digit (c : ascii) : is_space c = true -> is_digit c = false.
Proof.
  destruct c as [[] [] [] [] [] [] [] []]; cbn; intros H;
    first [reflexivity | discriminate H].
Qed.

Lemma has_digit_lstrip (s : string) : has_digit (lstrip s) = has_digit s.
Proof.
  induction s as [|c r IH]; [reflexivity|]. cbn [lstrip].
  destruct (is_space c) eqn:E; [|reflexivity].
  cbn [has_digit]. rewrite (space_is_no_digit c E). exact IH.
Qed.

Lemma has_digit_rstrip (s : string) : has_digit (rstrip s) = has_digit s.
Proof.
  induction s as [|c r IH]; [reflexivity|]. cbn [rstrip has_digit].
  destruct (is_space c) eqn:E; cbn [andb].
  - rewrite (space_is_no_digit c E). cbn [orb].
    destruct (rstrip r) as [|c' r'] eqn:Er; cbn [is_empty].
    + rewrite <- IH. reflexivity.
    + cbn [has_digit]. rewrite (space_is_no_digit c E). exact IH.
  - cbn [has_digit]. rewrite IH. reflexivity.
Qed.

Lemma has_digit_strip (s : string) : has_digit (strip s) = has_digit s.
Proof. unfold strip. rewrite has_digit_rstrip. apply has_digit_lstrip. Qed.

Lemma has_digit_remove_plus (s : string) :
  has_digit (remove_char "+" s) = has_digit s.
Proof.
  induction s as [|c r IH]; [reflexivity|]. cbn [remove_char].
  destruct (Ascii.eqb "+" c) eqn:E.
  - apply Ascii.eqb_eq in E. subst c. cbn [has_digit]. rewrite IH. reflexivity.
  - cbn [has_digit]. rewrite IH. reflexivity.
Qed.

Lemma starts_with_digit_has_digit (s : string) :
  starts_with_digit s = true -> has_digit s = true.
Proof. destruct s as [|c r]; [discriminate|]. cbn. intros ->. reflexivity. Qed.

(** [re.search(r"-?\d+", s)] finds nothing exactly when [s] has no digit. *)
Lemma search_int_none_iff (s : string) :
  search_int s = None <-> has_digit s = false.
Proof.
  induction s as [|c r IH]; [cbn; tauto|]. cbn [search_int has_digit].
  destruct (is_digit c) eqn:Ed; cbn [orb]; [split; discriminate|].
  destruct (Ascii.eqb c "-" && starts_with_digit r) eqn:Em.
  - apply andb_true_iff in Em as [_ Hs].
    rewrite (starts_with_digit_has_digit r Hs). split; discriminate.
  - exact IH.
Qed.

(** [re.search(r"-?\d+\.?\d*", s)] likewise. *)
Lemma search_point_none_iff (s : string) :
  search_point s = None <-> has_digit s = false.
Proof.
  induction s as [|c r IH]; [cbn; tauto|]. cbn [search_point has_digit].
  destruct (is_digit c) eqn:Ed; cbn [orb]; [split; discriminate|].
  destruct (Ascii.eqb c "-" && starts_with_digit r) eqn:Em.
  - apply andb_true_iff in Em as [_ Hs].
    rewrite (starts_with_digit_has_digit r Hs).
    destruct r; [discriminate Hs | split; discriminate].
  - exact IH.
Qed.

(** X7: an odds token is read as null exactly when it has no digit and is
    not the word "even" (in any case, with any surrounding blanks). *)
Theorem sanitize_int_token_none_iff (tok : string) :
  _sanitize_int_token (Some tok) = None
  <-> has_digit tok = false /\ lower (strip tok) <> "even".
Proof.
  unfold _sanitize_int_token.
  destruct (strip tok) as [|c r] eqn:Es; cbn [is_empty].
  - rewrite <- has_digit_strip, Es. cbn. split; [intros _; split; [reflexivity|discriminate] | reflexivity].
  - destruct (String.eqb_spec (lower (String c r)) "even") as [E|E].
    + split; [discriminate | intros [_ H]; contradiction].
    + rewrite <- has_digit_strip, Es.
      rewrite <- (has_digit_remove_plus (String c r)).
      rewrite <- search_int_none_iff.
      destruct (search_int (remove_char "+" (String c r))); cbn;
        split; try discriminate; try tauto.
      intros [H _]. discriminate H.
Qed.

(** X8: a point token is read as null exactly when it has no digit. *)
Theorem extract_point_value_none_iff (token : string) :
  _extract_point_value (Some token) = None <-> has_digit token = false.
Proof.
  unfold _extract_point_value. rewrite <- search_point_none_iff.
  destruct (search_point token); cbn; split; try discriminate; tauto.
Qed.

End Tokens.

Section RoundTrip.

Import Py PyStr OddsParser.
Local Open Scope string_scope.

Lemma string_app_cons (c : ascii) (a b : string) :
  String c a +:+ b = String c (a +:+ b).
Proof. reflexivity. Qed.

Lemma string_app_nil (b : string) : "" +:+ b = b.
Proof. reflexivity. Qed.

Lemma string_app_assoc (a b d : string) : (a +:+ b) +:+ d = a +:+ (b +:+ d).
Proof.
  induction a as [|c a IH]; [reflexivity|].
  rewrite !string_app_cons, IH. reflexivity.
Qed.

Lemma string_app_empty_r (a : string) : a +:+ "" = a.
Proof.
  induction a as [|c a IH]; [reflexivity|].
  rewrite string_app_cons, IH. reflexivity.
Qed.

Lemma string_length_app (a b : string) :
  String.length (a +:+ b) = (String.length a + String.length b)%nat.
Proof.
  induction a as [|c a IH]; [reflexivity|].
  rewrite string_app_cons. cbn [String.length]. rewrite IH. reflexivity.
Qed.

Lemma all_digits_app (a b : string) :
  all_digits (a +:+ b) = all_digits a && all_digits b.
Proof.
  induction a as [|c a IH]; [reflexivity|].
  rewrite string_app_cons. cbn [all_digits]. rewrite IH, andb_assoc. reflexivity.
Qed.

Lemma pretty_N_char_digit (d : N) :
  (d < 10)%N ->
  is_digit (pretty_N_char d) = true /\ digit_value (pretty_N_char d) = Z.of_N d.
Proof.
  intros Hd.
  assert (H : d = 0%N \/ d = 1%N \/ d = 2%N \/ d = 3%N \/ d = 4%N \/ d = 5%N
              \/ d = 6%N \/ d = 7%N \/ d = 8%N \/ d = 9%N) by lia.
  repeat (destruct H as [-> | H]; [split; reflexivity|]). subst d. split; reflexivity.
Qed.

(** The decimal digits that [pretty_N_go x] puts before [s]: all digits,
    some unless [x] is 0, and read back as [x]. *)
Lemma pretty_N_go_digits (x : N) :
  forall s, exists digs,
    pretty_N_go x s = digs +:+ s /\
    all_digits digs = true /\
    (x <> 0%N -> digs <> "") /\
    forall r acc,
      digits_to_Z (digs +:+ r) acc
      = digits_to_Z r (acc * 10 ^ Z.of_nat (String.length digs) + Z.of_N x)%Z.
Proof.
  induction x as [x IH] using (well_founded_induction N.lt_wf_0). intros s.
  destruct (N.eq_dec x 0%N) as [->|Hx].
  - exists "". rewrite pretty_N_go_0. repeat split; [congruence|].
    intros r acc. cbn. f_equal. lia.
  - rewrite pretty_N_go_step by lia.
    assert (Hlt : (x `div` 10 < x)%N) by (apply N.div_lt; lia).
    destruct (IH _ Hlt (String (pretty_N_char (x `mod` 10)) s))
      as (digs & Hgo & Hall & _ & Hval).
    destruct (pretty_N_char_digit (x `mod` 10)%N) as [Hd Hv];
      [apply N.mod_lt; lia|].
    exists (digs +:+ String (pretty_N_char (x `mod` 10)) "").
    repeat split.
    + rewrite Hgo, string_app_assoc. reflexivity.
    + rewrite all_digits_app, Hall. cbn. rewrite Hd. reflexivity.
    + intros _. destruct digs; discriminate.
    + intros r acc. rewrite string_app_assoc, string_app_cons, string_app_nil.
      rewrite Hval. cbn [digits_to_Z]. rewrite Hv. f_equal.
      rewrite string_length_app. cbn [String.length].
      rewrite Nat2Z.inj_add, Z.pow_add_r by lia.
      change (10 ^ Z.of_nat 1)%Z with 10%Z.
      pose proof (N.div_mod x 10%N ltac:(lia)) as Hdm.
      assert (Hz : Z.of_N x = (10 * Z.of_N (x `div` 10) + Z.of_N (x `mod` 10))%Z) by lia.
      rewrite Hz. ring.
Qed.

(** The decimal form of a positive number. *)
Lemma pretty_positive_digits (p : positive) :
  exists c digs,
    pretty (Zpos p) = String c digs /\
    is_digit c = true /\ all_digits digs = true /\
    digits_to_Z (String c digs) 0 = Zpos p.
Proof.
  destruct (pretty_N_go_digits (Npos p) "") as (digs & Hgo & Hall & Hne & Hval).
  assert (Hp : pretty (Zpos p) = digs).
  { change (pretty (Zpos p)) with (pretty_N_go (Npos p) ""). rewrite Hgo.
    apply string_app_empty_r. }
  destruct digs as [|c digs]; [exfalso; apply Hne; [discriminate | reflexivity]|].
  exists c, digs. cbn in Hall. apply andb_true_iff in Hall as [Hc Hds].
  repeat split; try assumption.
  specialize (Hval "" 0%Z). rewrite string_app_empty_r in Hval.
  rewrite Hval. cbn [digits_to_Z]. change (Z.of_N (N.pos p)) with (Z.pos p). lia.
Qed.

Lemma span_all_digits (s : string) :
  all_digits s = true -> span_digits s = (s, "").
Proof.
  induction s as [|c r IH]; [reflexivity|]. cbn. intros H.
  apply andb_true_iff in H as [-> Hr]. rewrite (IH Hr). reflexivity.
Qed.

Lemma digit_facts (c : ascii) :
  is_digit c = true ->
  is_space c = false /\ lower_char c = c /\ Ascii.eqb "+" c = false
  /\ Ascii.eqb c "-" = false /\ Ascii.eqb c "e" = false.
Proof.
  destruct c as [[] [] [] [] [] [] [] []]; cbn; intros H;
    first [discriminate H | repeat split].
Qed.

Lemma all_digits_plain (s : string) :
  all_digits s = true ->
  rstrip s = s /\ lower s = s /\ remove_char "+" s = s.
Proof.
  induction s as [|c r IH]; [repeat split|]. cbn [all_digits]. intros H.
  apply andb_true_iff in H as [Hc Hr].
  destruct (digit_facts c Hc) as (Hsp & Hlo & Hplus & _).
  destruct (IH Hr) as (IH1 & IH2 & IH3).
  cbn [rstrip lower remove_char]. rewrite Hsp, Hlo, Hplus, IH1, IH2, IH3.
  repeat split.
Qed.

(** The token of an integer in decimal form, as [str] prints it. *)
Lemma sanitize_decimal (z : Z) : _sanitize_int_token (Some (pretty z)) = Some z.
Proof.
  destruct z as [|p|p].
  - reflexivity.
  - destruct (pretty_positive_digits p) as (c & digs & -> & Hc & Hds & Hval).
    destruct (digit_facts c Hc) as (Hsp & Hlo & Hplus & Hminus & He).
    destruct (all_digits_plain digs Hds) as (H1 & H2 & H3).
    unfold _sanitize_int_token, strip. cbn [lstrip]. rewrite Hsp.
    cbn [rstrip]. rewrite Hsp, H1. cbn [andb is_empty lower].
    rewrite Hlo, H2. cbn [String.eqb]. rewrite He.
    cbn [remove_char]. rewrite Hplus, H3.
    cbn [search_int]. rewrite Hc. cbn [orb fmap option_fmap option_map].
    rewrite (span_all_digits digs Hds). cbn [fst].
    unfold int_of_match. rewrite Hminus, Hval. reflexivity.
  - change (pretty (Z.neg p)) with ("-" +:+ pretty (Z.pos p)).
    destruct (pretty_positive_digits p) as (c & digs & -> & Hc & Hds & Hval).
    destruct (digit_facts c Hc) as (Hsp & Hlo & Hplus & Hminus & He).
    destruct (all_digits_plain digs Hds) as (H1 & H2 & H3).
    unfold _sanitize_int_token, strip. rewrite string_app_cons, string_app_nil.
    cbn [lstrip].
    change (is_space "-") with false. cbn iota.
    cbn [rstrip]. change (is_space "-") with false. rewrite Hsp, H1.
    cbn [andb is_empty lower]. rewrite Hlo, H2.
    change (String.eqb (String (lower_char "-") (String c digs)) "even") with false.
    cbn iota. cbn [remove_char]. change (Ascii.eqb "+" "-") with false.
    rewrite Hplus, H3. cbn iota.
    cbn [search_int starts_with_digit]. change (is_digit "-") with false.
    rewrite Hc. change (Ascii.eqb "-" "-") with true.
    cbn [orb andb fmap option_fmap option_map span_digits].
    rewrite Hc, (span_all_digits digs Hds). cbn [fst].
    unfold int_of_match. change (Ascii.eqb "-" "-") with true. cbn iota.
    rewrite Hval. reflexivity.
Qed.

Lemma sanitize_plus_decimal (z : Z) :
  _sanitize_int_token (Some ("+" +:+ pretty z)) = Some z.
Proof.
  destruct z as [|p|p].
  - reflexivity.
  - destruct (pretty_positive_digits p) as (c & digs & -> & Hc & Hds & Hval).
    destruct (digit_facts c Hc) as (Hsp & Hlo & Hplus & Hminus & He).
    destruct (all_digits_plain digs Hds) as (H1 & H2 & H3).
    unfold _sanitize_int_token, strip. rewrite string_app_cons, string_app_nil.
    cbn [lstrip]. change (is_space "+") with false. cbn iota.
    cbn [rstrip]. change (is_space "+") with false. rewrite Hsp, H1.
    cbn [andb is_empty lower]. rewrite Hlo, H2.
    change (String.eqb (String (lower_char "+") (String c digs)) "even") with false.
    cbn iota. cbn [remove_char]. change (Ascii.eqb "+" "+") with true.
    rewrite Hplus, H3. cbn iota.
    cbn [search_int]. rewrite Hc. cbn [orb fmap option_fmap option_map].
    rewrite (span_all_digits digs Hds). cbn [fst].
    unfold int_of_match. rewrite Hminus, Hval. reflexivity.
  - change (pretty (Z.neg p)) with ("-" +:+ pretty (Z.pos p)).
    destruct (pretty_positive_digits p) as (c & digs & -> & Hc & Hds & Hval).
    destruct (digit_facts c Hc) as (Hsp & Hlo & Hplus & Hminus & He).
    destruct (all_digits_plain digs Hds) as (H1 & H2 & H3).
    unfold _sanitize_int_token, strip. rewrite !string_app_cons, !string_app_nil.
    cbn [lstrip]. change (is_space "+") with false. cbn iota.
    cbn [rstrip]. change (is_space "+") with false.
    change (is_space "-") with false. rewrite Hsp, H1.
    cbn [andb is_empty lower]. rewrite Hlo, H2.
    change (String.eqb (String (lower_char "+")
                          (String (lower_char "-") (String c digs))) "even")
      with false.
    cbn iota. cbn [remove_char]. change (Ascii.eqb "+" "+") with true.
    change (Ascii.eqb "+" "-") with false.
    rewrite Hplus, H3. cbn iota.
    cbn [search_int starts_with_digit]. change (is_digit "-") with false.
    rewrite Hc. change (Ascii.eqb "-" "-") with true.
    cbn [orb andb fmap option_fmap option_map span_digits].
    rewrite Hc, (span_all_digits digs Hds). cbn [fst].
    unfold int_of_match. change (Ascii.eqb "-" "-") with true. cbn iota.
    rewrite Hval. reflexivity.
Qed.

Lemma float_of_digits (c : ascii) (digs : string) :
  is_digit c = true -> all_digits digs = true ->
  (float_of_match (String c digs) == inject_Z (digits_to_Z (String c digs) 0))%Q.
Proof.
  intros Hc Hds. destruct (digit_facts c Hc) as (_ & _ & _ & Hminus & _).
  unfold float_of_match. rewrite Hminus.
  rewrite (span_all_digits (String c digs))
    by (cbn [all_digits]; rewrite Hc, Hds; reflexivity).
  rewrite string_app_empty_r.
  change (inject_Z (10 ^ Z.of_nat (String.length ""))) with 1%Q.
  field.
Qed.

Lemma point_tail_digits (digs : string) :
  all_digits digs = true -> point_tail digs = digs.
Proof. intros H. unfold point_tail. rewrite (span_all_digits digs H). reflexivity. Qed.

Lemma extract_decimal (z : Z) :
  exists q, _extract_point_value (Some (pretty z)) = Some q /\ (q == inject_Z z)%Q.
Proof.
  destruct z as [|p|p].
  - eexists. split; [vm_compute; reflexivity | reflexivity].
  - destruct (pretty_positive_digits p) as (c & digs & -> & Hc & Hds & Hval).
    unfold _extract_point_value. cbn [search_point]. rewrite Hc.
    rewrite (point_tail_digits digs Hds). cbn [fmap option_fmap option_map].
    eexists. split; [reflexivity|].
    rewrite (float_of_digits c digs Hc Hds), Hval. reflexivity.
  - change (pretty (Z.neg p)) with ("-" +:+ pretty (Z.pos p)).
    destruct (pretty_positive_digits p) as (c & digs & -> & Hc & Hds & Hval).
    rewrite string_app_cons, string_app_nil.
    unfold _extract_point_value. cbn [search_point starts_with_digit].
    change (is_digit "-") with false. rewrite Hc.
    change (Ascii.eqb "-" "-") with true. cbn [andb].
    rewrite (point_tail_digits digs Hds). cbn [fmap option_fmap option_map].
    eexists. split; [reflexivity|].
    unfold float_of_match. change (Ascii.eqb "-" "-") with true. cbn iota.
    rewrite (span_all_digits (String c digs))
      by (cbn [all_digits]; rewrite Hc, Hds; reflexivity).
    rewrite string_app_empty_r, Hval.
    change (inject_Z (10 ^ Z.of_nat (String.length ""))) with 1%Q.
    change (inject_Z (Z.neg p)) with (- inject_Z (Z.pos p))%Q.
    field.
Qed.

(** X9: an integer of size at most 2^53, printed in decimal with or
    without a leading plus sign, is read back as itself by the odds
    sanitizer, and as the same number by the point extractor.  Within
    that bound [int] accepts the digits and [float] is exact. *)
Theorem decimal_tokens_read_back (z : Z) :
  (Z.abs z <= 2 ^ 53)%Z ->
  _sanitize_int_token (Some (pretty z)) = Some z /\
  _sanitize_int_token (Some ("+" +:+ pretty z)) = Some z /\
  exists q, _extract_point_value (Some (pretty z)) = Some q /\ (q == inject_Z z)%Q.
Proof.
  intros _.
  split; [apply sanitize_decimal|]. split; [apply sanitize_plus_decimal|].
  apply extract_decimal.
Qed.

Lemma decimal_tokens_read_back_witness :
  _sanitize_int_token (Some (pretty (-150)%Z)) = Some (-150)%Z /\
  _sanitize_int_token (Some ("+" +:+ pretty (-150)%Z)) = Some (-150)%Z /\
  exists q, _extract_point_value (Some (pretty (-150)%Z)) = Some q /\
            (q == inject_Z (-150))%Q.
Proof. apply decimal_tokens_read_back. apply Z.leb_le. reflexivity. Defined.

End RoundTrip.

(** * The grammars: when a block is dropped *)

Section Grammars.

Import Py PyStr OddsParser.
Local Open Scope string_scope.
Local Open Scope list_scope.

(** Runs the body of a grammar on a block of known shape. *)
Ltac run_grammar :=
  repeat first
    [ reflexivity
    | progress cbn [lookup list_lookup mbind option_bind length Nat.ltb Nat.leb]
    | match goal with
      | |- context [let '(_, _) := ?p in _] => destruct p
      end ].

(** X10: the 5-line grammar drops a block only for its shape: a block with
    fewer than five lines, or whose first line has fewer than four tokens,
    gives nothing; any other block whose lines have at most 300 characters
    gives a record whose date, time, team and game id are the first three
    tokens of the first line, whatever the other lines hold. *)
Theorem parse_5line_dropped_by_shape (now : string) (block : list string) :
  ((length block < 5)%nat \/
   (exists line1, block !! 0%nat = Some line1 /\ (length (split line1) < 4)%nat) ->
   _parse_5line now block = None) /\
  (forall line1 d t f sp rest,
     (5 <= length block)%nat ->
     block !! 0%nat = Some line1 ->
     split line1 = d :: t :: f :: sp :: rest ->
     Forall (fun ln => (String.length ln <= 300)%nat) block ->
     exists r,
       _parse_5line now block = Some r /\
       Rec5.date r = d /\ Rec5.time r = t /\ Rec5.favorite_team r = f /\
       Rec5.game_id r = d +:+ "|" +:+ t +:+ "|" +:+ f /\
       Rec5.spread_points r = _extract_point_value (Some sp) /\
       Rec5.parsed_at r = now).
Proof.
  split.
  - intros [Hlen | (line1 & H0 & Htok)].
    + destruct block as [|l1 [|l2 [|l3 [|l4 [|l5 tl]]]]]; cbn in Hlen; try lia;
        unfold _parse_5line; cbn [lookup list_lookup mbind option_bind];
        try reflexivity;
        destruct (split l1) as [|d [|t [|f [|sp rest]]]];
        run_grammar.
    + destruct block as [|l1 tl]; [discriminate|]. injection H0 as ->.
      unfold _parse_5line. cbn [lookup list_lookup mbind option_bind].
      apply Nat.ltb_lt in Htok. rewrite Htok. reflexivity.
  - intros line1 d t f sp rest Hlen H0 Hsplit _.
    destruct block as [|l1 [|l2 [|l3 [|l4 [|l5 tl]]]]]; cbn in Hlen; try lia.
    injection H0 as ->.
    unfold _parse_5line. cbn [lookup list_lookup mbind option_bind].
    rewrite Hsplit. cbn [length Nat.ltb Nat.leb lookup list_lookup mbind option_bind].
    repeat match goal with
           | |- context [let '(_, _) := ?p in _] => destruct p
           end.
    eexists. split; [reflexivity|]. repeat split.
Qed.

Lemma parse_5line_dropped_by_shape_witness :
  _parse_5line "t" ["01/01 7:00pm TeamA"; "-110"; "o45.5"; "-110"; "-150 +130"] = None /\
  exists r,
    _parse_5line "t" ["01/01 7:00pm TeamA pk"; "n/a"; "?"; ""; "off"] = Some r /\
    Rec5.date r = "01/01" /\ Rec5.time r = "7:00pm" /\ Rec5.favorite_team r = "TeamA" /\
    Rec5.game_id r = "01/01" +:+ "|" +:+ "7:00pm" +:+ "|" +:+ "TeamA" /\
    Rec5.spread_points r = _extract_point_value (Some "pk") /\
    Rec5.parsed_at r = "t".
Proof.
  split.
  - apply (proj1 (parse_5line_dropped_by_shape "t" _)). right.
    eexists. split; [reflexivity | apply Nat.ltb_lt; vm_compute; reflexivity].
  - apply (proj2 (parse_5line_dropped_by_shape "t" _)
             "01/01 7:00pm TeamA pk" "01/01" "7:00pm" "TeamA" "pk" []).
    + apply Nat.leb_le. reflexivity.
    + reflexivity.
    + vm_compute. reflexivity.
    + repeat constructor; apply Nat.leb_le; vm_compute; reflexivity.
Defined.

End Grammars.

(** * Series buffers: bounds and keys *)

Section BufferBounds.

Import Py PyStr Settings App.
Local Open Scope string_scope.
Local Open Scope list_scope.

(** X11: from empty buffers, with a cap of at least 1, after any run of
    calls: a key has a buffer exactly when a point was appended under it;
    the buffer is never empty, never longer than the cap, and is the end
    of the points appended under the key; up to the cap nothing is lost. *)
Theorem series_buffer_bounded (c : Config) (calls : list PushCall) (key : string) :
  (0 < default_history_len c)%Z ->
  (run_pushes c calls ∅ !! key = None <-> appended key calls = []) /\
  forall buf,
    run_pushes c calls ∅ !! key = Some buf ->
    buf <> [] /\
    (Z.of_nat (length buf) <= default_history_len c)%Z /\
    exists dropped,
      appended key calls = dropped ++ buf /\
      ((Z.of_nat (length (appended key calls)) <= default_history_len c)%Z ->
       dropped = []).
Proof.
  intros Hcap. rewrite (run_pushes_lookup c Hcap calls key).
  destruct (appended key calls) as [|pt pts] eqn:E.
  - split; [split; reflexivity | discriminate].
  - split; [split; discriminate|]. rewrite <- E. clear E pt pts.
    intros buf Hbuf.
    assert (Hb : buf = last_points (default_history_len c) (appended key calls)).
    { destruct (appended key calls); [discriminate | injection Hbuf as <-; reflexivity]. }
    assert (Hne : appended key calls <> [])
      by (intros E; rewrite E in Hbuf; discriminate).
    unfold last_points in Hb. subst buf.
    set (pts := appended key calls) in *.
    assert (Hlen : (0 < length pts)%nat) by (destruct pts; [congruence | cbn; lia]).
    repeat split.
    + intros E. apply (f_equal length) in E. rewrite length_drop in E.
      cbn in E. lia.
    + rewrite length_drop. lia.
    + exists (take (length pts - Z.to_nat (default_history_len c)) pts).
      split; [symmetry; apply take_drop|].
      intros Hle. replace (length pts - Z.to_nat (default_history_len c))%nat
        with 0%nat by lia. reflexivity.
Qed.

Lemma series_buffer_bounded_witness :
  run_pushes config [mkPush "g" "spread" (Some (1 # 2)) None "t1"] ∅ !! "g|total" = None /\
  forall buf,
    run_pushes config [mkPush "g" "spread" (Some (1 # 2)) None "t1"] ∅ !! "g|spread"
    = Some buf ->
    appended "g|spread" [mkPush "g" "spread" (Some (1 # 2)) None "t1"] = buf.
Proof.
  split.
  - apply (series_buffer_bounded config); reflexivity.
  - intros buf Hbuf.
    destruct (series_buffer_bounded config
                [mkPush "g" "spread" (Some (1 # 2)) None "t1"] "g|spread")
      as [_ Hkept]; [reflexivity|].
    destruct (Hkept buf Hbuf) as (_ & _ & dropped & Happ & Hnone).
    rewrite Happ, Hnone; [reflexivity|]. vm_compute. discriminate.
Defined.

Lemma contains_char_app_bar (g m : string) :
  contains_char "|" (g +:+ String "|" m) = true.
Proof.
  induction g as [|d g IH]; [reflexivity|].
  rewrite string_app_cons. cbn [contains_char]. rewrite IH. apply orb_true_r.
Qed.

Lemma key_suffix_without_bar (g1 g2 m1 m2 : string) :
  contains_char "|" m1 = false -> contains_char "|" m2 = false ->
  g1 +:+ "|" +:+ m1 = g2 +:+ "|" +:+ m2 -> g1 = g2 /\ m1 = m2.
Proof.
  intros H1 H2. revert g2. induction g1 as [|a g1 IH]; intros [|b g2] E;
    rewrite ?string_app_cons, ?string_app_nil in E.
  - injection E as Em. split; [reflexivity | exact Em].
  - injection E as Ea Em. rewrite Em, contains_char_app_bar in H1. discriminate.
  - injection E as Ea Em. rewrite <- Em, contains_char_app_bar in H2. discriminate.
  - injection E as Ea Em. subst b. destruct (IH g2 Em) as [-> ->]. split; reflexivity.
Qed.

(** X12: two calls whose market names have no bar write to the same key
    only for the same game id and the same market; the four market names
    of the application have none, so two games or two markets never share
    a buffer, even though game ids contain bars themselves. *)
Theorem call_key_injective (p q : PushCall) :
  contains_char "|" (call_market p) = false ->
  contains_char "|" (call_market q) = false ->
  call_key p = call_key q ->
  call_gid p = call_gid q /\ call_market p = call_market q.
Proof. intros Hp Hq. unfold call_key. apply key_suffix_without_bar; assumption. Qed.

Lemma call_key_injective_witness :
  call_gid (mkPush "01/01|7:00pm|TeamA" "spread" None None "t")
  = call_gid (mkPush "01/01|7:00pm|TeamA" "spread" (Some (1 # 2)) None "u") /\
  call_market (mkPush "01/01|7:00pm|TeamA" "spread" None None "t")
  = call_market (mkPush "01/01|7:00pm|TeamA" "spread" (Some (1 # 2)) None "u").
Proof. apply call_key_injective; reflexivity. Defined.

End BufferBounds.

(** * The other indicators *)

Section Averages.

Import Py TaEngine TaIndicators.
Local Open Scope Q_scope.

(** A window [l[-n:]] with [n] of at least 1 keeps the end of a non-empty
    list: it is not empty and has at most [n] elements. *)
Lemma slice_from_window {A} (l : list A) (n : Z) :
  l <> [] -> (1 <= n)%Z ->
  slice_from l (- n) <> [] /\
  (Z.of_nat (length (slice_from l (- n))) <= n)%Z /\
  exists before, l = before ++ slice_from l (- n).
Proof.
  intros Hne Hn. unfold slice_from.
  destruct (Z.ltb_spec (- n) 0) as [_|H]; [|lia].
  assert (Hlen : (0 < length l)%nat) by (destruct l; [congruence | cbn; lia]).
  repeat split.
  - intros E. apply (f_equal length) in E. rewrite length_drop in E. cbn in E. lia.
  - rewrite length_drop. lia.
  - eexists. symmetry. apply take_drop.
Qed.

(** With the weight 1 each smoothing step forgets what came before. *)
Lemma ema_fold_weight_one (alpha : Q) (rest : list Q) :
  alpha == 1 ->
  forall e, foldl (fun ema_v v => alpha * v + (1 - alpha) * ema_v) e rest
            == default e (last rest).
Proof.
  intros Ha. induction rest as [|v rest IH]; intros e; [reflexivity|].
  cbn [foldl]. rewrite IH. destruct rest as [|v' rest].
  - cbn [last default from_option id]. rewrite Ha. ring.
  - change (last (v :: v' :: rest)) with (last (v' :: rest)).
    destruct (last (v' :: rest)) as [x|] eqn:E; [reflexivity|].
    apply last_None in E. discriminate E.
Qed.

(** X14: the exponential average of an empty list is null, whatever the
    period.  A non-empty list raises ZeroDivisionError exactly at the
    period -1, where alpha is 2.0 / 0.0, and gives a value at every other
    period.  A single value is its own average, and at the period 1, where
    alpha is 1, the average of values that lie between two bounds is the
    last of them. *)
Theorem ema_edge_cases (values : list Q) (period : Z) (lo hi : Q) :
  ema [] period = Ok None /\
  (values <> [] ->
   (ema values period = Fail ZeroDivisionError <-> period = (-1)%Z) /\
   (period <> (-1)%Z -> exists e, ema values period = Ok (Some e))) /\
  (forall v, period <> (-1)%Z -> ema [v] period = Ok (Some v)) /\
  (values <> [] -> Forall (fun x => lo <= x <= hi) values ->
   exists e x, ema values 1 = Ok (Some e) /\ last values = Some x /\ e == x).
Proof.
  split; [reflexivity|]. split; [|split].
  - intros Hne. destruct values as [|first rest]; [congruence|].
    unfold ema. destruct (Z.eqb_spec (period + 1) 0) as [H|H].
    + split; [split; [lia | reflexivity] | lia].
    + split; [split; [discriminate | lia] | eexists; reflexivity].
  - intros v Hp. unfold ema.
    destruct (Z.eqb_spec (period + 1) 0) as [H|H]; [lia | reflexivity].
  - intros Hne _. destruct values as [|first rest]; [congruence|].
    unfold ema. change (1 + 1 =? 0)%Z with false. cbn iota.
    eexists. exists (default first (last rest)).
    split; [reflexivity|]. split; [|apply ema_fold_weight_one; reflexivity].
    destruct rest as [|v rest]; [reflexivity|].
    change (last (first :: v :: rest)) with (last (v :: rest)).
    destruct (last (v :: rest)) as [x|] eqn:E; [reflexivity|].
    apply last_None in E. discriminate E.
Qed.

Lemma ema_edge_cases_witness :
  ema [1 # 2; 3 # 5] (-1) = Fail ZeroDivisionError /\
  (exists e, ema [1 # 2; 3 # 5] 10 = Ok (Some e)) /\
  exists e x, ema [1 # 2; 3 # 5] 1 = Ok (Some e) /\ last [1 # 2; 3 # 5] = Some x /\ e == x.
Proof.
  destruct (ema_edge_cases [1 # 2; 3 # 5] (-1) (1 # 2) (3 # 5)) as (_ & Hz & _ & Hone).
  destruct (ema_edge_cases [1 # 2; 3 # 5] 10 (1 # 2) (3 # 5)) as (_ & Hv & _ & _).
  split; [|split].
  - apply Hz; [discriminate | reflexivity].
  - apply Hv; [discriminate | lia].
  - apply Hone; [discriminate | repeat constructor; cbn; lra].
Defined.

End Averages.

Section Steps.

Import Py TaEngine TaIndicators Recommendations.
Local Open Scope Q_scope.

Lemma np_diff_cons2 (a b : Q) (l : list Q) :
  np_diff (a :: b :: l) = (b - a) :: np_diff (b :: l).
Proof. reflexivity. Qed.

(** *** Momentum *)

Lemma index_from_end {A} (l : list A) (k : Z) :
  (1 <= k <= Z.of_nat (length l))%Z ->
  index l (- k) = l !! (length l - Z.to_nat k)%nat.
Proof.
  intros Hk. unfold index.
  destruct (Z.ltb_spec (- k) 0); [|lia].
  destruct (Z.leb_spec 0 (Z.of_nat (length l) + - k)); [|lia].
  f_equal. lia.
Qed.

Lemma item_from_end (l : list Q) (k : Z) :
  (1 <= k <= Z.of_nat (length l))%Z ->
  exists x, item l (- k) = Ok x /\ l !! (length l - Z.to_nat k)%nat = Some x.
Proof.
  intros Hk. unfold item. rewrite index_from_end by exact Hk.
  destruct (l !! (length l - Z.to_nat k)%nat) as [x|] eqn:E.
  - exists x. split; reflexivity.
  - apply lookup_ge_None in E. lia.
Qed.

Lemma np_diff_drop (n : nat) (l : list Q) : np_diff (drop n l) = drop n (np_diff l).
Proof.
  revert l. induction n as [|n IH]; intros l; [rewrite !drop_0; reflexivity|].
  destruct l as [|a [|b l]]; [reflexivity | destruct n; reflexivity |].
  rewrite np_diff_cons2. cbn [drop]. apply IH.
Qed.

(** The steps of a list add up to the way from its first to its last value. *)
Lemma qsum_np_diff (x : Q) (rest : list Q) :
  qsum (np_diff (x :: rest)) == default x (last (x :: rest)) - x.
Proof.
  revert x. induction rest as [|y rest IH]; intros x.
  - cbn. ring.
  - rewrite np_diff_cons2. unfold qsum. cbn [foldr]. fold (qsum (np_diff (y :: rest))).
    rewrite IH. rewrite last_cons_cons.
    destruct (last (y :: rest)) as [z|] eqn:E; cbn [default from_option id].
    + ring.
    + apply last_None in E. discriminate.
Qed.

(** For a period of at least 1 momentum never raises. *)
Lemma momentum_returns (values : list Q) (period : Z) :
  (1 <= period)%Z -> exists m, momentum_from_ips values period = Ok m.
Proof.
  intros Hp. unfold momentum_from_ips.
  destruct (Z.ltb_spec (Z.of_nat (length values)) (period + 1)); [eexists; reflexivity|].
  destruct (item_from_end values 1 ltac:(lia)) as (lst & Hitem & _).
  change (item values (-1)%Z = Ok lst) in Hitem. rewrite Hitem.
  replace (- period - 1)%Z with (- (period + 1))%Z by lia.
  destruct (item_from_end values (period + 1) ltac:(lia)) as (base & -> & _).
  cbn [mbind outcome_bind].
  destruct (Z.leb_spec (2 * period + 1) (Z.of_nat (length values))) as [H2|H2].
  - replace (-2 * period - 1)%Z with (- (2 * period + 1))%Z by lia.
    destruct (item_from_end values (2 * period + 1) ltac:(lia)) as (old & -> & _).
    eexists. reflexivity.
  - eexists. reflexivity.
Qed.

(** X16: for a period of at least 1, momentum never raises; below
    [period + 1] values both entries are null; from there on MOM_V is the
    mean of the last [period] steps of the series, and MOM_A is null
    exactly below [2 * period + 1] values. *)
Theorem momentum_is_mean_step (values : list Q) (period : Z) :
  (1 <= period)%Z ->
  ((Z.of_nat (length values) < period + 1)%Z ->
   momentum_from_ips values period = Ok {| MOM_V := None; MOM_A := None |}) /\
  ((period + 1 <= Z.of_nat (length values))%Z ->
   exists v a,
     momentum_from_ips values period = Ok {| MOM_V := Some v; MOM_A := a |} /\
     v == np_mean (slice_from (np_diff values) (- period)) /\
     (a = None <-> (Z.of_nat (length values) < 2 * period + 1)%Z)).
Proof.
  intros Hp. unfold momentum_from_ips. split.
  - intros H. destruct (Z.ltb_spec (Z.of_nat (length values)) (period + 1));
      [reflexivity | lia].
  - intros Hlen.
    destruct (Z.ltb_spec (Z.of_nat (length values)) (period + 1)); [lia|].
    destruct (item_from_end values 1 ltac:(lia)) as (lst & Hitem & Hlst).
    change (item values (-1)%Z = Ok lst) in Hitem. rewrite Hitem. clear Hitem.
    replace (- period - 1)%Z with (- (period + 1))%Z by lia.
    destruct (item_from_end values (period + 1) ltac:(lia)) as (base & -> & Hbase).
    cbn [mbind outcome_bind].
    assert (Hv : (lst - base) / inject_Z period
                 == np_mean (slice_from (np_diff values) (- period))).
    { unfold slice_from, np_mean. rewrite length_np_diff.
      destruct (Z.ltb_spec (- period) 0); [|lia].
      replace (Z.to_nat (Z.max 0 (Z.of_nat (length values - 1) + - period)))
        with (length values - Z.to_nat (period + 1))%nat by lia.
      set (n := (length values - Z.to_nat (period + 1))%nat) in *.
      rewrite <- np_diff_drop. rewrite length_np_diff, length_drop.
      replace (Z.of_nat (length values - n - 1)) with period by lia.
      destruct (drop n values) as [|x rest] eqn:Ed.
      { apply (f_equal length) in Ed. rewrite length_drop in Ed. cbn in Ed. lia. }
      rewrite qsum_np_diff.
      assert (Hx : x = base).
      { pose proof (lookup_drop values n 0) as Hd0. rewrite Ed, Nat.add_0_r in Hd0.
        rewrite Hbase in Hd0. cbn in Hd0. congruence. }
      assert (Hl : last (x :: rest) = Some lst).
      { rewrite <- Ed, last_lookup, lookup_drop, length_drop, <- Hlst.
        f_equal. unfold n. lia. }
      rewrite Hl, Hx. reflexivity. }
    destruct (Z.leb_spec (2 * period + 1) (Z.of_nat (length values))) as [H2|H2].
    + replace (-2 * period - 1)%Z with (- (2 * period + 1))%Z by lia.
      destruct (item_from_end values (2 * period + 1) ltac:(lia)) as (old & -> & _).
      cbn [mbind outcome_bind]. do 2 eexists. split; [reflexivity|].
      split; [exact Hv|]. split; [discriminate | lia].
    + cbn [mbind outcome_bind]. do 2 eexists. split; [reflexivity|].
      split; [exact Hv|]. split; [lia | reflexivity].
Qed.

Lemma momentum_is_mean_step_witness :
  momentum_from_ips [1 # 2; 3 # 5] 3 = Ok {| MOM_V := None; MOM_A := None |} /\
  exists v a,
    momentum_from_ips [1 # 2; 3 # 5; 1 # 2; 7 # 10] 3
    = Ok {| MOM_V := Some v; MOM_A := a |} /\
    v == np_mean (slice_from (np_diff [1 # 2; 3 # 5; 1 # 2; 7 # 10]) (- 3)) /\
    (a = None <-> (Z.of_nat (length [1 # 2; 3 # 5; 1 # 2; 7 # 10]) < 2 * 3 + 1)%Z).
Proof.
  split.
  - apply (proj1 (momentum_is_mean_step [1 # 2; 3 # 5] 3 ltac:(lia))). cbn. lia.
  - apply (proj2 (momentum_is_mean_step [1 # 2; 3 # 5; 1 # 2; 7 # 10] 3 ltac:(lia))).
    cbn. lia.
Defined.

End Steps.

Section RsiExtremes.

Import Py TaEngine TaIndicators.
Local Open Scope Q_scope.

Lemma slice_from_fmap {A B} (f : A -> B) (l : list A) (i : Z) :
  slice_from (f <$> l) i = f <$> slice_from l i.
Proof.
  unfold slice_from. rewrite length_fmap.
  destruct (i <? 0)%Z; rewrite fmap_drop; reflexivity.
Qed.

Lemma qsum_all_zero (l : list Q) : Forall (fun x => x == 0) l -> qsum l == 0.
Proof.
  induction 1 as [|x l Hx _ IH]; [reflexivity|].
  unfold qsum. cbn [foldr]. fold (qsum l). rewrite Hx, IH. ring.
Qed.

Lemma np_mean_all_zero (l : list Q) : Forall (fun x => x == 0) l -> np_mean l == 0.
Proof.
  intros H. unfold np_mean. rewrite (qsum_all_zero l H). unfold Qdiv. ring.
Qed.

Lemma qsum_positive (l : list Q) : l <> [] -> Forall (fun x => 0 < x) l -> 0 < qsum l.
Proof.
  intros Hne H. induction H as [|x l Hx Hl IH]; [congruence|].
  unfold qsum. cbn [foldr]. fold (qsum l).
  destruct l as [|y l]; [cbn; lra|].
  assert (0 < qsum (y :: l)) by (apply IH; discriminate). lra.
Qed.

Lemma np_mean_positive (l : list Q) :
  l <> [] -> Forall (fun x => 0 < x) l -> 0 < np_mean l.
Proof.
  intros Hne H. unfold np_mean. apply Qlt_shift_div_l.
  - apply inject_Z_pos. destruct l; [congruence | cbn; lia].
  - pose proof (qsum_positive l Hne H). lra.
Qed.

(** X17: with at least 15 values, when no step of the last 14 goes down
    (a flat window included) the RSI is exactly 100; when every one of
    them goes down it is 0. *)
Theorem rsi_extremes (values : list Q) :
  (15 <= length values)%nat ->
  (Forall (fun d => 0 <= d) (slice_from (np_diff values) (-14)) ->
   rsi_from_ips values 14 = Some 100) /\
  (Forall (fun d => d < 0) (slice_from (np_diff values) (-14)) ->
   exists v, rsi_from_ips values 14 = Some v /\ v == 0).
Proof.
  intros Hlen. unfold rsi_from_ips.
  destruct (Z.ltb_spec (Z.of_nat (length values)) (14 + 1)) as [H|_]; [lia|].
  destruct (rsi_window_length values 14 ltac:(lia) ltac:(lia)) as [Hwg Hwl].
  unfold gains_of, losses_of in *. rewrite !slice_from_fmap in *.
  change (Z.opp 14) with (-14)%Z in *.
  set (w := slice_from (np_diff values) (-14)) in *.
  split; intros Hw.
  - assert (Hz : np_mean ((fun d => if Qlt_le_dec d 0 then - d else 0) <$> w) == 0).
    { apply np_mean_all_zero, Forall_fmap. eapply Forall_impl; [exact Hw|].
      cbn. intros d Hd. destruct (Qlt_le_dec d 0); [lra | reflexivity]. }
    apply Qeq_bool_iff in Hz. rewrite Hz. reflexivity.
  - assert (Hne : w <> []).
    { intros E. rewrite E in Hwl. cbn in Hwl. lia. }
    assert (Hg : np_mean ((fun d => if Qlt_le_dec 0 d then d else 0) <$> w) == 0).
    { apply np_mean_all_zero, Forall_fmap. eapply Forall_impl; [exact Hw|].
      cbn. intros d Hd. destruct (Qlt_le_dec 0 d); [lra | reflexivity]. }
    assert (Hl : 0 < np_mean ((fun d => if Qlt_le_dec d 0 then - d else 0) <$> w)).
    { apply np_mean_positive.
      - destruct w; [congruence | discriminate].
      - apply Forall_fmap. eapply Forall_impl; [exact Hw|].
        cbn. intros d Hd. destruct (Qlt_le_dec d 0); lra. }
    destruct (Qeq_bool _ 0) eqn:E.
    + apply Qeq_bool_iff in E. lra.
    + eexists. split; [reflexivity|]. rewrite Hg. field. lra.
Qed.

Lemma rsi_extremes_witness :
  rsi_from_ips
    [1 # 2; 1 # 2; 1 # 2; 1 # 2; 1 # 2; 1 # 2; 1 # 2; 1 # 2;
     1 # 2; 1 # 2; 1 # 2; 1 # 2; 1 # 2; 1 # 2; 1 # 2] 14 = Some 100 /\
  exists v,
    rsi_from_ips
      [15 # 20; 14 # 20; 13 # 20; 12 # 20; 11 # 20; 10 # 20; 9 # 20; 8 # 20;
       7 # 20; 6 # 20; 5 # 20; 4 # 20; 3 # 20; 2 # 20; 1 # 20] 14 = Some v /\ v == 0.
Proof.
  split.
  - apply (rsi_extremes
             [1 # 2; 1 # 2; 1 # 2; 1 # 2; 1 # 2; 1 # 2; 1 # 2; 1 # 2;
              1 # 2; 1 # 2; 1 # 2; 1 # 2; 1 # 2; 1 # 2; 1 # 2]).
    + cbn. lia.
    + repeat constructor; vm_compute; discriminate.
  - apply (rsi_extremes
             [15 # 20; 14 # 20; 13 # 20; 12 # 20; 11 # 20; 10 # 20; 9 # 20; 8 # 20;
              7 # 20; 6 # 20; 5 # 20; 4 # 20; 3 # 20; 2 # 20; 1 # 20]).
    + cbn. lia.
    + repeat constructor; vm_compute; reflexivity.
Defined.

End RsiExtremes.

Section TrueRange.

Import Py TaEngine TaIndicators.
Local Open Scope Q_scope.

Lemma np_diff_flat (c : Q) (l : list Q) :
  Forall (fun x => x == c) l -> Forall (fun d => d == 0) (Qabs <$> np_diff l).
Proof.
  induction 1 as [|a l Ha Hl IH]; [constructor|].
  destruct Hl as [|b l Hb Hl]; [constructor|].
  rewrite np_diff_cons2, fmap_cons. constructor; [|exact IH].
  rewrite Ha, Hb.
  assert (E : c - c == 0) by ring. rewrite E. reflexivity.
Qed.

(** X15: the average true range is null below two points.  From two
    points on, with a lookback of at least 1 and points that lie between
    two bounds, it exists and is never negative, and it is 0 when the
    points are all the same. *)
Theorem atr_on_points_sign (points : list Q) (lookback : Z) (lo hi c : Q) :
  ((length points < 2)%nat -> atr_on_points points lookback = None) /\
  ((2 <= length points)%nat -> (1 <= lookback)%Z ->
   Forall (fun x => lo <= x <= hi) points ->
   exists a, atr_on_points points lookback = Some a /\ 0 <= a /\
             (Forall (fun x => x == c) points -> a == 0)).
Proof.
  unfold atr_on_points. split.
  - intros H. destruct (Z.ltb_spec (Z.of_nat (length points)) 2); [reflexivity | lia].
  - intros Hlen Hlb _.
    destruct (Z.ltb_spec (Z.of_nat (length points)) 2); [lia|].
    assert (Hpos : Forall (fun t => 0 <= t) (Qabs <$> np_diff points)).
    { apply Forall_fmap, Forall_forall. intros d _. apply Qabs_nonneg. }
    destruct (Z.of_nat (length (Qabs <$> np_diff points)) <? lookback)%Z;
      eexists; (split; [reflexivity|]); split.
    + apply np_mean_nonneg, Hpos.
    + intros Hflat. apply np_mean_all_zero, (np_diff_flat c), Hflat.
    + apply np_mean_nonneg, Forall_slice_from, Hpos.
    + intros Hflat. apply np_mean_all_zero, Forall_slice_from, (np_diff_flat c), Hflat.
Qed.

Lemma atr_on_points_sign_witness :
  atr_on_points [-7 # 2] 14 = None /\
  (exists a, atr_on_points [-7 # 2; -3; -7 # 2] 14 = Some a /\ 0 <= a) /\
  exists a, atr_on_points [-3; -3; -3] 14 = Some a /\ a == 0.
Proof.
  split; [|split].
  - apply (proj1 (atr_on_points_sign [-7 # 2] 14 0 0 0)). cbn. lia.
  - destruct (proj2 (atr_on_points_sign [-7 # 2; -3; -7 # 2] 14 (-7 # 2) (-3) 0))
      as (a & Ha & Hpos & _).
    + cbn. lia.
    + lia.
    + repeat constructor; cbn; lra.
    + exists a. split; assumption.
  - destruct (proj2 (atr_on_points_sign [-3; -3; -3] 14 (-3) (-3) (-3)))
      as (a & Ha & _ & Hflat).
    + cbn. lia.
    + lia.
    + repeat constructor; cbn; lra.
    + exists a. split; [exact Ha|]. apply Hflat. repeat constructor.
Defined.

End TrueRange.

Section Fibonacci.

Import Py TaEngine TaIndicators.
Local Open Scope string_scope.
Local Open Scope list_scope.
Local Open Scope Q_scope.

Lemma max_fold_spec (rest : list Q) :
  forall x,
    let h := foldl (fun best y => if Qlt_le_dec best y then y else best) x rest in
    h ∈ x :: rest /\ Forall (fun y => y <= h) (x :: rest).
Proof.
  induction rest as [|y rest IH]; intros x; cbn zeta.
  - cbn. split; [left | repeat constructor; lra].
  - cbn [foldl]. destruct (Qlt_le_dec x y) as [Hxy|Hxy].
    + destruct (IH y) as [Hin Hall]. split; [right; exact Hin|].
      inversion Hall as [|? ? Hy Hrest]; subst.
      constructor; [lra | constructor; assumption].
    + destruct (IH x) as [Hin Hall]. split.
      * apply elem_of_cons in Hin as [->|Hin]; [left | right; right; exact Hin].
      * inversion Hall as [|? ? Hx Hrest]; subst.
        constructor; [exact Hx | constructor; [lra | exact Hrest]].
Qed.

Lemma min_fold_spec (rest : list Q) :
  forall x,
    let h := foldl (fun best y => if Qlt_le_dec y best then y else best) x rest in
    h ∈ x :: rest /\ Forall (fun y => h <= y) (x :: rest).
Proof.
  induction rest as [|y rest IH]; intros x; cbn zeta.
  - cbn. split; [left | repeat constructor; lra].
  - cbn [foldl]. destruct (Qlt_le_dec y x) as [Hxy|Hxy].
    + destruct (IH y) as [Hin Hall]. split; [right; exact Hin|].
      inversion Hall as [|? ? Hy Hrest]; subst.
      constructor; [lra | constructor; assumption].
    + destruct (IH x) as [Hin Hall]. split.
      * apply elem_of_cons in Hin as [->|Hin]; [left | right; right; exact Hin].
      * inversion Hall as [|? ? Hx Hrest]; subst.
        constructor; [exact Hx | constructor; [lra | exact Hrest]].
Qed.

(** The high and the low of a non-empty window: both are values of the
    window and bound it. *)
Lemma window_high_low (s : list Q) :
  s <> [] ->
  exists high low,
    py_max s = Ok high /\ py_min s = Ok low /\
    high ∈ s /\ low ∈ s /\ Forall (fun x => low <= x <= high) s.
Proof.
  destruct s as [|x rest]; [congruence|]. intros _.
  destruct (max_fold_spec rest x) as [Hmax_in Hmax].
  destruct (min_fold_spec rest x) as [Hmin_in Hmin].
  do 2 eexists. split; [reflexivity|]. split; [reflexivity|].
  split; [exact Hmax_in|]. split; [exact Hmin_in|].
  rewrite Forall_forall in *. intros y Hy. split; [apply Hmin | apply Hmax]; exact Hy.
Qed.







End Fibonacci.

Section WithSquareRoot.

Import Py TaEngine TaIndicators Recommendations.
Local Open Scope string_scope.
Local Open Scope list_scope.
Local Open Scope Q_scope.

Variable sqrt : Q -> Q.

(** For a lookback of at least 1 the z-score never raises. *)
Lemma z_score_returns (values : list Q) (lookback : Z) :
  (1 <= lookback)%Z -> exists z, z_score sqrt values lookback = Ok z.
Proof.
  intros Hlb. unfold z_score.
  destruct (Z.ltb_spec (Z.of_nat (length values)) lookback); [eexists; reflexivity|].
  destruct (Qeq_bool _ 0); [eexists; reflexivity|].
  destruct (item_from_end values 1 ltac:(lia)) as (lst & Hitem & _).
  change (item values (-1)%Z = Ok lst) in Hitem. rewrite Hitem.
  eexists. reflexivity.
Qed.

(** The steam detector reads four tests; its confidence and verdict are
    those of the tests that fire. *)
Lemma steam_of_tests (b1 b2 b3 b4 : bool) :
  let acc := add_signal b4 1 "sharp_splits"
               (add_signal b3 (5 # 10) "volatility"
                  (add_signal b2 1 "momentum"
                     (add_signal b1 1 "zscore" (0, [])))) in
  let confidence := fmin 1 (fst acc / 3) in
  0 <= confidence <= 1 /\
  ((if Qlt_le_dec (4 # 10) confidence then true else false) = true
   <-> (2 <= length (snd acc))%nat) /\
  snd acc ⊆ ["zscore"; "momentum"; "volatility"; "sharp_splits"].
Proof.
  destruct b1, b2, b3, b4; cbn zeta; unfold add_signal; cbn [fst snd app length];
    (split; [split; vm_compute; discriminate|]);
    (split; [split; [intros H; vm_compute in H; first [discriminate H | lia]
                    | intros H; first [lia | vm_compute; reflexivity]]|]);
    intros x Hx; rewrite !elem_of_cons in *; tauto.
Qed.

(** X20: the steam detector never raises.  Below six values it reports no
    steam, confidence 0 and no signal.  In every case the confidence lies
    between 0 and 1, steam is reported exactly when the confidence exceeds
    0.4, which is exactly when at least two of the four signals fired, and
    the signals are among zscore, momentum, volatility and sharp_splits. *)
Theorem steam_needs_two_signals (values_ip : list Q)
  (values_points : option (list Q)) (splits : option (gmap string (option Q))) :
  ((length values_ip < 6)%nat ->
   detect_steam_movement_advanced sqrt values_ip values_points splits
   = Ok {| Steam.steam := false; Steam.confidence := 0; Steam.signals := [] |}) /\
  exists st,
    detect_steam_movement_advanced sqrt values_ip values_points splits = Ok st /\
    0 <= Steam.confidence st <= 1 /\
    (Steam.steam st = true <-> 4 # 10 < Steam.confidence st) /\
    (Steam.steam st = true <-> (2 <= length (Steam.signals st))%nat) /\
    Steam.signals st ⊆ ["zscore"; "momentum"; "volatility"; "sharp_splits"].
Proof.
  unfold detect_steam_movement_advanced.
  destruct (bool_decide (values_ip = []) || (Z.of_nat (length values_ip) <? 6)%Z) eqn:E.
  - split; [reflexivity|]. eexists. split; [reflexivity|]. cbn.
    repeat split; try lra; try discriminate; try lia.
    intros x Hx. inversion Hx.
  - apply orb_false_iff in E as [_ E]. apply Z.ltb_ge in E.
    split; [lia|].
    destruct (z_score_returns values_ip 20 ltac:(lia)) as [z ->].
    destruct (momentum_returns values_ip 3 ltac:(lia)) as [mom ->].
    cbn [mbind outcome_bind].
    match goal with
    | |- context [add_signal ?b4 1 "sharp_splits"
                    (add_signal ?b3 _ "volatility"
                       (add_signal ?b2 1 "momentum"
                          (add_signal ?b1 1 "zscore" _)))] =>
        pose proof (steam_of_tests b1 b2 b3 b4) as Htests
    end.
    cbn zeta in Htests. destruct Htests as (Hrange & Hsteam & Hnames).
    eexists. split; [reflexivity|].
    cbn [Steam.steam Steam.confidence Steam.signals].
    split; [exact Hrange|]. split; [|split; [exact Hsteam | exact Hnames]].
    destruct (Qlt_le_dec (4 # 10) _) as [Hc|Hc]; split; intros H;
      first [exact Hc | reflexivity | discriminate H | lra].
Qed.

(** The truncation of a float that is 0. *)
Lemma int_of_float_zero (x : Q) : x == 0 -> int_of_float x = 0%Z.
Proof.
  intros Hx. unfold int_of_float. unfold Qeq in Hx. cbn in Hx.
  replace (Qnum x) with 0%Z by lia. reflexivity.
Qed.

(** X22: with periods 1 <= base_period <= max_period and at least
    [base_period] values that, like the sensitivity, lie between two
    bounds, the adaptive average does not raise: it is the mean of the
    last [k] values for some [k] from [base_period] to [max_period], and
    [k] is [base_period] when the series ends where it stood [base_period]
    values before the end. *)
Theorem adaptive_ma_window (values : list Q) (base_period max_period : Z)
  (sensitivity lo hi : Q) :
  (1 <= base_period <= max_period)%Z ->
  (base_period <= Z.of_nat (length values))%Z ->
  Forall (fun x => lo <= x <= hi) (sensitivity :: values) ->
  exists m k,
    adaptive_ma sqrt values base_period max_period sensitivity = Return (Some m) /\
    (base_period <= k <= max_period)%Z /\
    m = np_mean (slice_from values (- k)) /\
    (forall x y, index values (-1) = Some x -> index values (- base_period) = Some y ->
                 x == y -> k = base_period).
Proof.
  intros Hp Hlen _. unfold adaptive_ma.
  assert (Hne : values <> []) by (intros ->; cbn in Hlen; lia).
  rewrite bool_decide_eq_false_2 by exact Hne.
  destruct (Z.ltb_spec (Z.of_nat (length values)) base_period); [lia|].
  assert (Heff : exists eff,
    (if Qeq_bool (np_std sqrt (slice_from values (- base_period))) 0
     then mret 0
     else last ← raise_if_none (index values (-1));
          first ← raise_if_none (index values (- base_period));
          mret (Qabs (last - first)
                / (np_std sqrt (slice_from values (- base_period))
                   * sqrt (inject_Z base_period)))) = Return eff /\
    (forall x y, index values (-1) = Some x -> index values (- base_period) = Some y ->
                 x == y -> eff == 0)).
  { destruct (Qeq_bool _ 0); [eexists; split; [reflexivity | reflexivity]|].
    pose proof (index_from_end values 1 ltac:(lia)) as H1.
    change (index values (-1)%Z = values !! (length values - Z.to_nat 1)%nat) in H1.
    pose proof (index_from_end values base_period ltac:(lia)) as Hb.
    rewrite H1, Hb.
    destruct (values !! (length values - Z.to_nat 1)%nat) as [x|] eqn:E1;
      [|apply lookup_ge_None in E1; lia].
    destruct (values !! (length values - Z.to_nat base_period)%nat) as [y|] eqn:Eb;
      [|apply lookup_ge_None in Eb; lia].
    eexists. split; [reflexivity|].
    intros x' y' [= <-] [= <-] Hxy.
    assert (E : x - y == 0) by (rewrite Hxy; ring).
    assert (Hd : Qabs (x - y) == 0) by (rewrite E; reflexivity).
    rewrite Hd. unfold Qdiv. ring. }
  destruct Heff as (eff & -> & Hzero). cbn [mbind result_bind mret result_ret].
  set (k := Z.max base_period (Z.min max_period _)).
  assert (Hk : (base_period <= k <= max_period)%Z) by (unfold k; lia).
  exists (np_mean (slice_from values (- k))), k.
  split; [reflexivity|]. split; [exact Hk|]. split; [reflexivity|].
  intros x y Hx Hy Hxy. unfold k.
  rewrite int_of_float_zero; [lia|].
  rewrite (Hzero x y Hx Hy Hxy). ring.
Qed.

End WithSquareRoot.

Section Aggregate.

Import Py Settings OddsParser TaEngine TaIndicators Recommendations.
Local Open Scope string_scope.
Local Open Scope list_scope.
Local Open Scope Q_scope.

Variable sqrt : Q -> Q.

Lemma adaptive_ma_returns (values : list Q) (base_period max_period : Z)
  (sensitivity : Q) :
  (1 <= base_period)%Z ->
  exists r, adaptive_ma sqrt values base_period max_period sensitivity = Return r.
Proof.
  intros Hp. unfold adaptive_ma.
  destruct (bool_decide (values = [])); [eexists; reflexivity|].
  destruct (Z.ltb_spec (Z.of_nat (length values)) base_period); [eexists; reflexivity|].
  destruct (Qeq_bool _ 0); [eexists; reflexivity|].
  pose proof (index_from_end values 1 ltac:(lia)) as H1.
  change (index values (-1)%Z = values !! (length values - Z.to_nat 1)%nat) in H1.
  pose proof (index_from_end values base_period ltac:(lia)) as Hb.
  rewrite H1, Hb.
  destruct (values !! (length values - Z.to_nat 1)%nat) as [x|] eqn:E1;
    [|apply lookup_ge_None in E1; lia].
  destruct (values !! (length values - Z.to_nat base_period)%nat) as [y|] eqn:Eb;
    [|apply lookup_ge_None in Eb; lia].
  eexists. reflexivity.
Qed.

Lemma fibonacci_returns (points : list Q) (lookback : Z) :
  (1 <= lookback)%Z ->
  (exists l, fibonacci_levels points lookback = Ok l) /\
  (exists l, fibonacci_extensions points lookback = Ok l).
Proof.
  intros Hlb. unfold fibonacci_levels, fibonacci_extensions.
  destruct (Z.ltb_spec (Z.of_nat (length points)) 2);
    [split; eexists; reflexivity|].
  assert (Hne : points <> []) by (intros ->; cbn in *; lia).
  destruct (slice_from_window points lookback Hne Hlb) as (Hw & _ & _).
  destruct (window_high_low _ Hw) as (high & low & -> & -> & _).
  split; eexists; reflexivity.
Qed.

Lemma steam_returns (values_ip : list Q) (values_points : option (list Q))
  (splits : option (gmap string (option Q))) :
  exists st, detect_steam_movement_advanced sqrt values_ip values_points splits = Ok st.
Proof.
  unfold detect_steam_movement_advanced.
  destruct (_ || _); [eexists; reflexivity|].
  destruct (z_score_returns sqrt values_ip 20 ltac:(lia)) as [z ->].
  destruct (momentum_returns values_ip 3 ltac:(lia)) as [mom ->].
  eexists. reflexivity.
Qed.

(** Below four values momentum is null, below six the steam detector is
    quiet. *)
Lemma short_series_signals (values : list Q) (values_points : option (list Q)) :
  (length values < 4)%nat ->
  momentum_from_ips values 3 = Ok {| MOM_V := None; MOM_A := None |} /\
  detect_steam_movement_advanced sqrt values values_points None
  = Ok {| Steam.steam := false; Steam.confidence := 0; Steam.signals := [] |}.
Proof.
  intros Hlen. unfold momentum_from_ips, detect_steam_movement_advanced.
  destruct (Z.ltb_spec (Z.of_nat (length values)) (3 + 1)); [|lia].
  destruct (Z.ltb_spec (Z.of_nat (length values)) 6); [|lia].
  rewrite orb_true_r. split; reflexivity.
Qed.

(** X23: on a series whose values for the field lie between 0 and 1, as
    implied probabilities do, the aggregate never raises.  It is the empty
    result exactly when no item has a value for the field; otherwise it
    counts the values, reports the last one as current and keeps the last
    500 of them, in order, as the series. *)
Theorem aggregate_never_raises (series_data : list (gmap string (option Q)))
  (field point_field : string) :
  Forall (fun x => 0 <= x <= 1) (field_values field series_data) ->
  exists r,
    calculate_all_ta_indicators sqrt series_data field point_field = Ok r /\
    (r = None <-> field_values field series_data = []) /\
    forall s, r = Some s ->
      Summary.data_points s = length (field_values field series_data) /\
      last (field_values field series_data) = Some (Summary.current_ip s) /\
      (length (Summary.series s) <= 500)%nat /\
      exists before, field_values field series_data = before ++ Summary.series s.
Proof.
  intros _.
  unfold calculate_all_ta_indicators.
  set (values := field_values field series_data).
  set (points := field_values point_field series_data).
  destruct (bool_decide_reflect (values = [])) as [Hv|Hv].
  - exists None. split; [reflexivity|]. split; [tauto | discriminate].
  - assert (Hlen : (0 < length values)%nat) by (destruct values; [congruence | cbn; lia]).
    destruct (item_from_end values 1 ltac:(lia)) as (cur & Hitem & Hcur).
    change (item values (-1)%Z = Ok cur) in Hitem. rewrite Hitem.
    destruct (momentum_returns values 3 ltac:(lia)) as [mom ->].
    destruct (z_score_returns sqrt values 20 ltac:(lia)) as [z ->].
    assert (He : exists e, ema values 10 = Ok e).
    { destruct values; [congruence | eexists; reflexivity]. }
    destruct He as [e ->].
    destruct (adaptive_ma_returns values 10 30 2 ltac:(lia)) as [ama ->].
    destruct (fibonacci_returns points 50 ltac:(lia)) as [[fib Hfib] [ext Hext]].
    destruct (steam_returns values (Some points) None) as [st ->].
    cbn [mbind outcome_bind lift].
    assert (Hf : exists fib' ext',
      (if negb (bool_decide (points = [])) then fibonacci_levels points 50 else Ok [])
      = Ok fib' /\
      (if negb (bool_decide (points = [])) then fibonacci_extensions points 50 else Ok [])
      = Ok ext').
    { destruct (negb _); [exists fib, ext | exists [], []]; split; auto. }
    destruct Hf as (fib' & ext' & -> & ->). cbn [mbind outcome_bind].
    eexists. split; [reflexivity|]. split; [split; [discriminate | congruence]|].
    intros s [= <-]. cbn [Summary.data_points Summary.current_ip Summary.series].
    split; [reflexivity|]. split.
    + rewrite last_lookup, <- Hcur. f_equal. lia.
    + destruct (slice_from_window values 500 Hv ltac:(lia)) as (_ & Hle & Hsuf).
      change (- (500))%Z with (-500)%Z in *. split; [lia | exact Hsuf].
Qed.

(** X24: a market with fewer than four values gives indicators without
    signal; when every market present has such indicators and there is no
    forecast, the recommendation is Hold at confidence 0.5 with expected
    value 0, stake 0, no narrative line and no triggered tag. *)
Theorem short_history_holds (now : string) (game_row : GameRecord)
  (ta : IndicatorSets) :
  (forall name i,
     present ta name = Some i ->
     exists series_data field point_field r,
       calculate_all_ta_indicators sqrt series_data field point_field = Ok r /\
       indicators_of r = Some i /\
       (length (field_values field series_data) < 4)%nat) ->
  let r := generate_recommendation config now game_row ta [] in
  action r = "Hold" /\ confidence r == 5 # 10 /\
  expected_value r == 0 /\ kelly_stake r == 0 /\
  narrative_lines r = [] /\ triggered_indicators r = [].
Proof.
  intros Hshort.
  assert (Hquiet : forall name i, present ta name = Some i ->
            momentum i = Some {| MOM_V := None; MOM_A := None |} /\
            steam_detected i = None).
  { intros name i Hi.
    destruct (Hshort name i Hi) as (sd & f & pf & r & Hr & Hind & Hlen).
    unfold calculate_all_ta_indicators in Hr.
    set (values := field_values f sd) in *.
    destruct (short_series_signals values (Some (field_values pf sd)) Hlen)
      as [Hmom Hsteam].
    rewrite Hmom, Hsteam in Hr.
    destruct (bool_decide (values = [])).
    { injection Hr as <-. discriminate Hind. }
    destruct (item values (-1)) as [cur|]; [|discriminate Hr].
    cbn [mbind outcome_bind] in Hr.
    destruct (z_score sqrt values 20) as [z|]; [|discriminate Hr].
    cbn [mbind outcome_bind] in Hr.
    destruct (ema values 10) as [e|]; [|discriminate Hr].
    cbn [mbind outcome_bind] in Hr.
    destruct (lift _) as [ama|]; [|discriminate Hr].
    cbn [mbind outcome_bind] in Hr.
    destruct (if negb _ then fibonacci_levels _ _ else _) as [fib|];
      [|discriminate Hr].
    cbn [mbind outcome_bind] in Hr.
    destruct (if negb _ then fibonacci_extensions _ _ else _) as [ext|];
      [|discriminate Hr].
    cbn [mbind outcome_bind] in Hr. injection Hr as <-.
    cbn in Hind. injection Hind as <-. split; reflexivity. }
  assert (Htally : tally ta [] = start).
  { unfold tally. cbn [foldl].
    assert (Hml : forall t side, moneyline_signal ta t side = t).
    { intros t side. unfold moneyline_signal.
      destruct (present ta side) as [i|] eqn:Hi; [|reflexivity].
      destruct (Hquiet side i Hi) as [Hm _].
      unfold momentum_value. rewrite Hm. reflexivity. }
    rewrite !Hml. unfold spread_signals.
    destruct (present ta "spread") as [i|] eqn:Hi; [|reflexivity].
    destruct (Hquiet "spread" i Hi) as [Hm Hs].
    unfold momentum_value. rewrite Hm, Hs. reflexivity. }
  cbn zeta. unfold generate_recommendation. rewrite Htally.
  cbn [action confidence expected_value kelly_stake narrative_lines
       triggered_indicators narrative triggered score start].
  repeat split; vm_compute; congruence.
Qed.

End Aggregate.

Section IndicatorWitnesses.

Import Py Settings OddsParser TaEngine TaIndicators Recommendations.
Local Open Scope string_scope.
Local Open Scope list_scope.
Local Open Scope Q_scope.

Lemma adaptive_ma_window_witness :
  exists m k,
    adaptive_ma (fun x => x) [1 # 2; 3 # 5; 1 # 2] 3 5 2 = Return (Some m) /\
    (3 <= k <= 5)%Z /\
    m = np_mean (slice_from [1 # 2; 3 # 5; 1 # 2] (- k)) /\
    k = 3%Z.
Proof.
  destruct (adaptive_ma_window (fun x => x) [1 # 2; 3 # 5; 1 # 2] 3 5 2 (1 # 2) 2)
    as (m & k & Hm & Hk & Hmean & Hflat).
  - lia.
  - cbn. lia.
  - repeat constructor; cbn; lra.
  - exists m, k. repeat split; try assumption; try lia.
    apply (Hflat (1 # 2) (1 # 2)); reflexivity.
Defined.

Lemma aggregate_never_raises_witness :
  exists r,
    calculate_all_ta_indicators (fun x => x)
      [ {[ "ip" := Some (1 # 2); "point" := Some (-7 # 2) ]};
        {[ "ip" := None; "point" := Some (-3) ]};
        {[ "ip" := Some (11 # 20) ]} ] "ip" "point" = Ok r /\
    exists s, r = Some s /\ Summary.data_points s = 2%nat /\
              Summary.current_ip s = 11 # 20.
Proof.
  destruct (aggregate_never_raises (fun x => x)
              [ {[ "ip" := Some (1 # 2); "point" := Some (-7 # 2) ]};
                {[ "ip" := None; "point" := Some (-3) ]};
                {[ "ip" := Some (11 # 20) ]} ] "ip" "point")
    as (r & Hr & Hnone & Hsome).
  - vm_compute. repeat constructor; discriminate.
  - exists r. split; [exact Hr|].
    destruct r as [s|]; [|destruct (proj1 Hnone eq_refl); vm_compute; discriminate].
    exists s. split; [reflexivity|].
    destruct (Hsome s eq_refl) as (Hcount & Hlast & _).
    split; [exact Hcount|].
    change (Some (11 # 20) = Some (Summary.current_ip s)) in Hlast. congruence.
Defined.

Lemma short_history_holds_witness :
  exists r,
    calculate_all_ta_indicators (fun x => x)
      [ {[ "ip" := Some (1 # 2); "point" := Some (-7 # 2) ]} ] "ip" "point" = Ok r /\
    action (generate_recommendation config "t"
              (FourLine (Rec4.mk "g" "d" "t" None None None None None None None None
                           None None None None "t"))
              {[ "spread" := indicators_of r ]} []) = "Hold" /\
    confidence (generate_recommendation config "t"
                  (FourLine (Rec4.mk "g" "d" "t" None None None None None None None
                               None None None None None "t"))
                  {[ "spread" := indicators_of r ]} []) == 5 # 10.
Proof.
  eexists. split; [vm_compute; reflexivity|].
  match goal with
  | |- action (generate_recommendation _ _ ?row ?ta _) = _ /\ _ =>
      destruct (short_history_holds (fun x => x) "t" row ta) as (Ha & Hc & _)
  end.
  - intros name i Hi. unfold present in Hi.
    destruct (decide (name = "spread")) as [->|Hne].
    + rewrite lookup_singleton_eq in Hi.
      exists [ {[ "ip" := Some (1 # 2); "point" := Some (-7 # 2) ]} ], "ip", "point".
      eexists. split; [vm_compute; reflexivity|]. split.
      * cbn in Hi. injection Hi as <-. reflexivity.
      * vm_compute. lia.
    + rewrite lookup_singleton_ne in Hi by congruence. discriminate.
  - split; assumption.
Defined.

End IndicatorWitnesses.

(** * Further properties of the recommendation engine *)

Section Tags.

Import Py Settings OddsParser TaEngine TaIndicators Recommendations.
Local Open Scope string_scope.
Local Open Scope list_scope.
Local Open Scope Q_scope.

Lemma forecasts_leave_tags (forecasts : Forecasts) :
  forall t, triggered (foldl forecast_signal t forecasts) = triggered t.
Proof.
  induction forecasts as [|[mk [f|]] rest IH]; intros t; cbn [foldl forecast_signal].
  - reflexivity.
  - destruct (qualifying_move f); rewrite IH; reflexivity.
  - apply IH.
Qed.

(** X26: the triggered tags are among spread_momentum, steam,
    away_ml_momentum and home_ml_momentum, and forecasts never add one:
    the tags are those of the same indicators without any forecast. *)
Theorem triggered_tags (ta : IndicatorSets) (forecasts : Forecasts) :
  triggered (tally ta forecasts)
  ⊆ ["spread_momentum"; "steam"; "away_ml_momentum"; "home_ml_momentum"] /\
  triggered (tally ta forecasts) = triggered (tally ta []).
Proof.
  unfold tally. rewrite forecasts_leave_tags. split; [|reflexivity].
  cbn [foldl]. unfold moneyline_signal, spread_signals.
  change ("away_ml" +:+ "_momentum") with "away_ml_momentum".
  change ("home_ml" +:+ "_momentum") with "home_ml_momentum".
  destruct (present ta "spread") as [s|];
    [destruct (momentum_value s); destruct (steam_detected s)|];
    (destruct (present ta "away_ml") as [a|]; [destruct (nonzero (momentum_value a))|]);
    (destruct (present ta "home_ml") as [h|]; [destruct (nonzero (momentum_value h))|]);
    cbn [triggered start app];
    intros x Hx; rewrite !elem_of_cons in *; tauto.
Qed.

End Tags.

Section GreeksOfALine.

Import Py TaEngine TaIndicators.
Local Open Scope list_scope.
Local Open Scope Q_scope.

Variable sqrt : Q -> Q.

Lemma np_diff_affine (a b : Q) (values points : list Q) :
  Forall2 (fun v p => v == a * p + b) values points ->
  Forall2 (fun dv dp => dv == a * dp) (np_diff values) (np_diff points).
Proof.
  induction 1 as [|v p values points Hv Hrest IH]; [constructor|].
  destruct Hrest as [|v' p' values points Hv' Hrest]; [constructor|].
  rewrite !np_diff_cons2. constructor; [|exact IH].
  rewrite Hv, Hv'. ring.
Qed.

Lemma greek_ratios_affine (a : Q) (dvs dps : list Q) :
  Forall2 (fun dv dp => dv == a * dp) dvs dps ->
  Forall (fun d => 1 # 100000000 < Qabs d) dps ->
  Forall (fun r => r == a) (greek_ratios dvs dps) /\
  length (greek_ratios dvs dps) = length dps.
Proof.
  induction 1 as [|dv dp dvs dps Hd _ IH]; intros Hbig; [split; constructor|].
  inversion Hbig as [|? ? Hdp Hrest]; subst. destruct (IH Hrest) as [IH1 IH2].
  cbn [greek_ratios]. destruct (Qlt_le_dec (1 # 100000000) (Qabs dp)); [|lra].
  split; [constructor; [|exact IH1] | cbn; rewrite IH2; reflexivity].
  assert (Hne : ~ dp == 0).
  { intros E. rewrite E in Hdp. vm_compute in Hdp. discriminate. }
  rewrite Hd. field. exact Hne.
Qed.

Lemma greek_ratios_flat (dvs dps : list Q) :
  Forall (fun d => Qabs d <= 1 # 100000000) dps -> greek_ratios dvs dps = [].
Proof.
  intros H. revert dvs. induction H as [|dp dps Hdp _ IH]; intros [|dv dvs];
    try reflexivity.
  cbn [greek_ratios]. destruct (Qlt_le_dec (1 # 100000000) (Qabs dp)); [lra | apply IH].
Qed.

(** The median of equal values is that value. *)
Lemma np_median_const (a : Q) (l : list Q) :
  l <> [] -> Forall (fun x => x == a) l -> np_median l == a.
Proof.
  intros Hne Hall. unfold np_median.
  set (s := merge_sort Qle l).
  assert (Hperm : s ≡ₚ l) by apply merge_sort_Permutation.
  assert (Hs : Forall (fun x => x == a) s) by (rewrite Hperm; exact Hall).
  assert (Hlen : (0 < length s)%nat).
  { rewrite Hperm. destruct l; [congruence | cbn; lia]. }
  assert (Hget : forall i, (i < length s)%nat -> default 0 (s !! i) == a).
  { intros i Hi. destruct (s !! i) as [x|] eqn:E.
    - cbn. rewrite Forall_forall in Hs. apply Hs. eapply list_elem_of_lookup_2, E.
    - apply lookup_ge_None in E. lia. }
  assert (Hhalf : (length s / 2 < length s)%nat) by (apply Nat.div_lt; lia).
  destruct (Nat.even (length s)).
  - rewrite !Hget by lia. field.
  - apply Hget, Hhalf.
Qed.

Lemma np_diff_const (a : Q) (l : list Q) :
  Forall (fun x => x == a) l -> Forall (fun d => d == 0) (np_diff l).
Proof.
  induction 1 as [|x l Hx Hl IH]; [constructor|].
  destruct Hl as [|y l Hy Hl]; [constructor|].
  rewrite np_diff_cons2. constructor; [rewrite Hx, Hy; ring | exact IH].
Qed.

(** X28: without points, or when no two successive points differ by more
    than 1e-8, the three estimates are null.  When the values are a
    linear function [a * point + b] of at least three points whose
    successive differences all exceed 1e-8 in size, delta is the slope
    [a] and gamma is 0. *)
Theorem greeks_of_a_line (values points : list Q) (a b : Q) :
  calculate_greeks_estimate sqrt values None
  = {| delta := None; gamma := None; vega := None |} /\
  (Forall (fun d => Qabs d <= 1 # 100000000) (np_diff points) ->
   calculate_greeks_estimate sqrt values (Some points)
   = {| delta := None; gamma := None; vega := None |}) /\
  ((3 <= length points)%nat ->
   Forall2 (fun v p => v == a * p + b) values points ->
   Forall (fun d => 1 # 100000000 < Qabs d) (np_diff points) ->
   exists d g v,
     calculate_greeks_estimate sqrt values (Some points)
     = {| delta := Some d; gamma := Some g; vega := Some v |} /\
     d == a /\ g == 0).
Proof.
  split; [reflexivity|]. unfold calculate_greeks_estimate. split.
  - intros Hflat. destruct (_ || _); [reflexivity|].
    rewrite (greek_ratios_flat _ _ Hflat). reflexivity.
  - intros Hlen Hline Hbig.
    pose proof (Forall2_length _ _ _ Hline) as Hsame.
    rewrite bool_decide_eq_false_2 by (intros ->; cbn in Hsame; lia).
    destruct (Z.ltb_spec (Z.of_nat (length values)) 3); [lia|].
    destruct (Z.ltb_spec (Z.of_nat (length points)) 3); [lia|].
    cbn [orb].
    destruct (greek_ratios_affine a _ _ (np_diff_affine a b _ _ Hline) Hbig)
      as [Hratios Hcount].
    rewrite length_np_diff in Hcount.
    set (ratios := greek_ratios (np_diff values) (np_diff points)) in *.
    assert (Hne : ratios <> []) by (intros E; rewrite E in Hcount; cbn in Hcount; lia).
    rewrite bool_decide_eq_false_2 by exact Hne.
    destruct (Z.leb_spec 2 (Z.of_nat (length ratios))); [|lia].
    do 3 eexists. split; [reflexivity|]. split.
    + apply np_median_const; assumption.
    + apply np_median_const; [|apply (np_diff_const a), Hratios].
      intros E. apply (f_equal length) in E. rewrite length_np_diff in E.
      cbn in E. lia.
Qed.

End GreeksOfALine.

Section GreeksExample.

Import Py TaEngine TaIndicators.
Local Open Scope list_scope.
Local Open Scope Q_scope.

Lemma greeks_of_a_line_witness :
  calculate_greeks_estimate (fun x => x) [1 # 2; 1 # 2; 1 # 2] (Some [-3; -3; -3])
  = {| delta := None; gamma := None; vega := None |} /\
  exists d g v,
    calculate_greeks_estimate (fun x => x) [1 # 2; 11 # 20; 1 # 2] (Some [-3; -4; -3])
    = {| delta := Some d; gamma := Some g; vega := Some v |} /\
    d == - (1 # 20) /\ g == 0.
Proof.
  destruct (greeks_of_a_line (fun x => x) [1 # 2; 1 # 2; 1 # 2] [-3; -3; -3] 0 (1 # 2))
    as (_ & Hflat & _).
  destruct (greeks_of_a_line (fun x => x) [1 # 2; 11 # 20; 1 # 2] [-3; -4; -3]
              (- (1 # 20)) (7 # 20)) as (_ & _ & Hline).
  split.
  - apply Hflat. repeat constructor; vm_compute; discriminate.
  - apply Hline.
    + cbn. lia.
    + repeat constructor; vm_compute; reflexivity.
    + repeat constructor; vm_compute; reflexivity.
Defined.

End GreeksExample.

(** * The 4-line grammar *)

Section FourLineGrammar.

Import Py PyStr OddsParser.
Local Open Scope string_scope.
Local Open Scope list_scope.

(** Runs the body of the grammar on a block of known shape. *)
Ltac run_block :=
  repeat first
    [ reflexivity
    | progress cbn [lookup list_lookup mbind option_bind length Nat.ltb Nat.leb]
    | match goal with
      | |- context [let '(_, _) := ?p in _] => destruct p
      end ].

(** A vig and its opposite: both probabilities are null without a vig,
    and normalised with one. *)
Lemma vig_pair (vig : option Z) :
  exists o u,
    _normalize_two_way vig (_calc_opposite_vig vig) = (o, u) /\
    match vig with
    | None => o = None /\ u = None
    | Some _ => exists p q, o = Some p /\ u = Some q /\
                            (0 <= p)%Q /\ (0 <= q)%Q /\ (p + q == 1)%Q
    end.
Proof.
  destruct vig as [v|]; [|do 2 eexists; split; [reflexivity | split; reflexivity]].
  cbn [_calc_opposite_vig].
  destruct (normalize_both_present v (-220 - v)%Z ltac:(lia))
    as (ra & rb & Ea & Eb & Hpos & ->).
  destruct (american_to_prob_raw_range v) as (ra' & Ea' & Ha & _).
  destruct (american_to_prob_raw_range (-220 - v)%Z) as (rb' & Eb' & Hb & _).
  rewrite Ea in Ea'. rewrite Eb in Eb'. injection Ea' as <-. injection Eb' as <-.
  do 2 eexists. split; [reflexivity|]. do 2 eexists.
  split; [reflexivity|]. split; [reflexivity|].
  rewrite !float_or_zero. repeat split.
  - apply Qle_shift_div_l; [exact Hpos | lra].
  - apply Qle_shift_div_l; [exact Hpos | lra].
  - field. lra.
Qed.

(** X29: the 4-line grammar drops a block with fewer than four lines or
    whose first line has fewer than five tokens, and takes any other block
    whose lines have at most 300 characters.  In every record it gives,
    each opposite vig is -220 minus the vig read, and the over and under
    probabilities are both null when no total vig could be read and are
    two non-negative numbers summing to 1 otherwise. *)
Theorem parse_4line_record (now : string) (block : list string) :
  ((length block < 4)%nat \/
   (exists line1, block !! 0%nat = Some line1 /\ (length (split line1) < 5)%nat) ->
   _parse_4line now block = None) /\
  (forall line1,
     (4 <= length block)%nat ->
     block !! 0%nat = Some line1 ->
     (5 <= length (split line1))%nat ->
     Forall (fun ln => (String.length ln <= 300)%nat) block ->
     exists r, _parse_4line now block = Some r) /\
  (forall r,
     _parse_4line now block = Some r ->
     Rec4.total_vig_opp r = _calc_opposite_vig (Rec4.total_vig r) /\
     Rec4.runline_vig_opp r = _calc_opposite_vig (Rec4.runline_vig r) /\
     Rec4.parsed_at r = now /\
     match Rec4.total_vig r with
     | None => Rec4.over_ip_raw r = None /\ Rec4.under_ip_raw r = None
     | Some _ =>
         exists p q,
           Rec4.over_ip_raw r = Some p /\ Rec4.under_ip_raw r = Some q /\
           (0 <= p)%Q /\ (0 <= q)%Q /\ (p + q == 1)%Q
     end).
Proof.
  split; [|split].
  - intros [Hlen | (line1 & H0 & Htok)].
    + destruct block as [|l1 [|l2 [|l3 [|l4 tl]]]]; cbn in Hlen; try lia;
        unfold _parse_4line; cbn [lookup list_lookup mbind option_bind];
        try reflexivity;
        destruct (split l1) as [|d [|t [|a [|h [|tot rest]]]]];
        run_block.
    + destruct block as [|l1 tl]; [discriminate|]. injection H0 as ->.
      unfold _parse_4line. cbn [lookup list_lookup mbind option_bind].
      apply Nat.ltb_lt in Htok. rewrite Htok. reflexivity.
  - intros line1 Hlen H0 Htok _.
    destruct block as [|l1 [|l2 [|l3 [|l4 tl]]]]; cbn in Hlen; try lia.
    injection H0 as <-.
    unfold _parse_4line. cbn [lookup list_lookup mbind option_bind].
    destruct (split l1) as [|d [|t [|a [|h [|tot rest]]]]]; cbn in Htok; try lia.
    cbn [length Nat.ltb Nat.leb lookup list_lookup mbind option_bind].
    repeat match goal with
           | |- context [let '(_, _) := ?p in _] => destruct p
           end.
    eexists. reflexivity.
  - intros r. unfold _parse_4line.
    destruct block as [|l1 [|l2 [|l3 [|l4 tl]]]];
      cbn [lookup list_lookup mbind option_bind];
      try (intros Hnone; discriminate Hnone);
      destruct (split l1) as [|d [|t [|a [|h [|tot rest]]]]];
      cbn [length Nat.ltb Nat.leb lookup list_lookup mbind option_bind];
      try (intros Hnone; discriminate Hnone);
      try (repeat match goal with
                  | |- context [let '(_, _) := ?p in _] => destruct p
                  end; intros Hnone; discriminate Hnone).
    destruct (_normalize_two_way (_sanitize_int_token (Some a)) _).
    destruct (vig_pair (_sanitize_int_token (Some l2))) as (over & under & -> & Hou).
    destruct (_normalize_two_way (_sanitize_int_token (Some l4)) _).
    intros [= <-]. cbn [Rec4.total_vig_opp Rec4.total_vig Rec4.runline_vig_opp
                         Rec4.runline_vig Rec4.parsed_at Rec4.over_ip_raw
                         Rec4.under_ip_raw].
    repeat split. exact Hou.
Qed.

Lemma parse_4line_record_witness :
  _parse_4line "t" ["01/01 7:00pm -150 +130"; "-110"; "TeamA -1.5"; "+140"] = None /\
  exists r,
    _parse_4line "t" ["01/01 7:00pm -150 +130 o8.5"; "-110"; "TeamA -1.5"; "+140"]
    = Some r.
Proof.
  split.
  - apply (proj1 (parse_4line_record "t" _)). right.
    eexists. split; [reflexivity | apply Nat.ltb_lt; vm_compute; reflexivity].
  - apply (proj1 (proj2 (parse_4line_record "t" _)) "01/01 7:00pm -150 +130 o8.5").
    + apply Nat.leb_le. reflexivity.
    + reflexivity.
    + apply Nat.leb_le. vm_compute. reflexivity.
    + repeat constructor; apply Nat.leb_le; vm_compute; reflexivity.
Defined.

End FourLineGrammar.
